(** * LabelScan: the detection / association / ordering pipeline

    A shallow embedding of the bespoke control logic of the LabelScan
    backend (backend/core): the reading-order sorter (order_sorter.py), the
    association scorer (association_analyzer.py), the enhancement ensemble of
    the barcode detector (barcode_detector.py) and the request orchestrator
    (processor.py), with the properties the specification states about them.

    Conventions.
    - Python [int] is [Z]; Python [float] is IEEE-754 binary64, i.e. Rocq's
      primitive [float], wherever the source really computes with floats
      (square roots and thresholds of the association scorer).
    - The sorter only ever compares box centres [y + height / 2]; for integer
      pixel coordinates these are exact in binary64 (up to 2^52), so they are
      modelled as exact rationals [Q].
    - A raised exception is the left injection of [py A := exn + A].
    - External engines (pyzbar, OpenCV filters, Tesseract, the vision-chat
      client, the wall clock) are Section variables. *)

From Stdlib Require Import ZArith QArith Qabs.
From Stdlib Require Import Floats.PrimFloat Floats.FloatOps Floats.SpecFloat.
From Stdlib Require Import Floats.FloatAxioms.
From stdpp Require Import gmap strings list fin_maps sorting.

(* Decimal literals such as 0.8 denote the nearest binary64, as in Python. *)
Set Warnings "-inexact-float,-clear-no-such-hyp".

Local Open Scope string_scope.
Local Open Scope list_scope.

(** ** Python builtins used by the source *)

Module Py.

(** An exception, identified with the message [str(e)] gives. *)
Definition exn : Type := string.

(** A computation that returns a value or raises. *)
Definition py (A : Type) : Type := (exn + A)%type.

Definition ret {A} (a : A) : py A := inr a.
Definition raise {A} (e : exn) : py A := inl e.
Definition bind {A B} (m : py A) (k : A → py B) : py B :=
  match m with
  | inl e => inl e
  | inr a => k a
  end.

Definition map {A B} (f : A → B) (m : py A) : py B :=
  bind m (λ a, ret (f a)).

(** [for x in xs: st = body(st, x)], stopping at the first exception. *)
Fixpoint for_each {S X} (body : S → X → py S) (xs : list X) (st : S) : py S :=
  match xs with
  | [] => ret st
  | x :: xs' => bind (body st x) (for_each body xs')
  end.

(** [enumerate(xs)] *)
Definition enumerate {A} (xs : list A) : list (nat * A) :=
  zip (seq 0 (length xs)) xs.

(** One insertion of the stable insertion sort: [x], which preceded all of
    [l] in the input, goes before the first element whose key is not
    strictly smaller than its own. *)
Fixpoint insort {A K} (lt : K → K → bool) (key : A → K) (x : A) (l : list A)
  : list A :=
  match l with
  | [] => [x]
  | y :: l' =>
      if lt (key y) (key x) then y :: insort lt key x l' else x :: y :: l'
  end.

(** [sorted(l, key=key)]. Python's sort is stable and only uses [<] on
    the keys; on keys that [<] orders (a strict weak order) every stable
    sort returns the same list, here computed by insertion. *)
Definition sorted {A K} (lt : K → K → bool) (key : A → K) (l : list A)
  : list A :=
  foldr (insort lt key) [] l.

(** [l.sort(key=key, reverse=True)]: sorted as if each comparison were
    reversed, equal keys keeping their input order. *)
Definition sorted_reverse {A K} (lt : K → K → bool) (key : A → K)
  (l : list A) : list A :=
  sorted (λ a b, lt b a) key l.

(** [a < b] on exact rationals. *)
Definition Qltb (a b : Q) : bool :=
  match Qcompare a b with
  | Lt => true
  | _ => false
  end.

(** [float(z)]: the binary64 nearest to the integer [z]. *)
Definition float_of_Z (z : Z) : float :=
  SF2Prim (binary_normalize prec emax z 0 false).

(** [int(f)]: truncation towards zero (0 stands in for the error Python
    raises on an infinity or a NaN). *)
Definition int_of_float (f : float) : Z :=
  match Prim2SF f with
  | S754_finite s m e =>
      let v := if (0 <=? e)%Z then (Z.pos m * 2 ^ e)%Z
               else (Z.pos m / 2 ^ (- e))%Z in
      if s then (- v)%Z else v
  | _ => 0%Z
  end.

End Py.

Notation "x <- m ;; k" := (Py.bind m (λ x, k))
  (at level 100, m at next level, right associativity, only parsing).

(** ** Objects with a position and an order number

    The sorter takes lists of dict objects of any shape (barcodes, text
    regions, mixed objects); it only reads [obj.get("position", {})] and
    writes [obj["order"]]. *)

(** A position dict: the keys "x", "y", "width", "height", any of which
    may be missing. *)
Abbreviation posdict := (gmap string Z).

Class Positioned (E : Type) := get_position : E → option posdict.

Class Numbered (A : Type) := {
  get_order : A → option Z;
  set_order : Z → A → A;
  get_set_order n a : get_order (set_order n a) = Some n
}.

(** Python lists hold references; [loc] is the identity of a dict object
    and a [heap] gives each live object its current contents. *)
Abbreviation loc := nat (only parsing).
Abbreviation heap A := (gmap nat A).

(** ** order_sorter.py *)

Module OrderSorter.

Record t := {
  row_tolerance : Z;
  col_tolerance : Z;
  min_object_distance : Z
}.

Definition init : t :=
  {| row_tolerance := 30; col_tolerance := 20; min_object_distance := 15 |}.

Section Methods.
Context {E : Type} `{!Positioned E} (self : t).

Definition _get_y_center (obj : E) : Q :=
  let pos := default ∅ (get_position obj) in
  (inject_Z (default 0%Z (pos !! "y"))
   + inject_Z (default 0%Z (pos !! "height")) / 2)%Q.

Definition _get_x_center (obj : E) : Q :=
  let pos := default ∅ (get_position obj) in
  (inject_Z (default 0%Z (pos !! "x"))
   + inject_Z (default 0%Z (pos !! "width")) / 2)%Q.

Definition sort_top_to_bottom (objects : list E) : list E :=
  Py.sorted Py.Qltb _get_y_center objects.

Definition sort_left_to_right (objects : list E) : list E :=
  Py.sorted Py.Qltb _get_x_center objects.

(** [abs(obj_y - current_y) <= self.row_tolerance] *)
Definition same_row (current_y obj_y : Q) : bool :=
  Qle_bool (Qabs (obj_y - current_y)) (inject_Z (row_tolerance self)).

(** The body of the row-grouping loop, on the state
    [(rows, current_row, current_y)]. *)
Definition row_step (st : list (list E) * list E * Q) (obj : E)
  : list (list E) * list E * Q :=
  let '(rows, current_row, current_y) := st in
  let obj_y := _get_y_center obj in
  if same_row current_y obj_y
  then (rows, current_row ++ [obj], current_y)
  else (rows ++ [current_row], [obj], obj_y).

(** The rows formed from the y-sorted list (lines 87-105). *)
Definition group_rows (y_sorted : list E) : list (list E) :=
  match y_sorted with
  | [] => []
  | first :: rest =>
      let '(rows, current_row, _) :=
        foldl row_step ([], [first], _get_y_center first) rest in
      match current_row with
      | [] => rows
      | _ => rows ++ [current_row]
      end
  end.

Definition sort_reading_order (objects : list E) : list E :=
  match objects with
  | [] => []
  | _ =>
      let y_sorted := Py.sorted Py.Qltb _get_y_center objects in
      let rows := group_rows y_sorted in
      foldl (λ result row, result ++ Py.sorted Py.Qltb _get_x_center row)
        [] rows
  end.

Definition sort_grid_order (objects : list E) : list E :=
  sort_reading_order objects.

Definition sort (objects : list E) (order : string) : list E :=
  match objects with
  | [] => []
  | _ =>
      if decide (order = "top_to_bottom") then sort_top_to_bottom objects
      else if decide (order = "left_to_right") then sort_left_to_right objects
      else if decide (order = "grid_order") then sort_grid_order objects
      else sort_reading_order objects
  end.

End Methods.

(** [add_order_numbers] mutates the dicts the list refers to and returns
    the same list. *)
Definition add_order_numbers {A : Type} `{!Numbered A}
  (h : heap A) (objects : list loc) : heap A * list loc :=
  (foldl (λ h '(idx, obj), alter (set_order (Z.of_nat idx + 1)) obj h)
     h (Py.enumerate objects),
   objects).

(** The "order" values read back through a list of references. *)
Definition order_values {A : Type} `{!Numbered A}
  (h : heap A) (objects : list loc) : list (option Z) :=
  (λ obj, h !! obj ≫= get_order) <$> objects.

(** [add_order_numbers] read by value: what it returns on a list of
    pairwise distinct dicts (such as a list built afresh by the caller),
    where no store is needed to tell the objects apart. *)
Definition add_order_numbers_fresh {A : Type} `{!Numbered A}
  (objects : list A) : list A :=
  (λ '(idx, obj), set_order (Z.of_nat idx + 1) obj) <$> Py.enumerate objects.

End OrderSorter.

(** A free-form dict object: an optional position dict, an optional order
    number and a tag standing for its other keys. *)
Record DictObj := {
  do_position : option posdict;
  do_order : option Z;
  do_tag : string
}.

#[global] Instance DictObj_positioned : Positioned DictObj := do_position.

#[global] Program Instance DictObj_numbered : Numbered DictObj := {|
  get_order := do_order;
  set_order n o :=
    {| do_position := do_position o; do_order := Some n; do_tag := do_tag o |}
|}.
Next Obligation. done. Qed.

Definition dict_obj (x y width height : Z) (tag : string) : DictObj :=
  {| do_position :=
       Some (list_to_map
               [("x", x); ("y", y); ("width", width); ("height", height)]);
     do_order := None;
     do_tag := tag |}.

(** ** Data model: the dicts the engines produce *)

(** A position dict with all four keys, as the detector and the OCR
    build it. *)
Record Position := {
  pos_x : Z;
  pos_y : Z;
  pos_width : Z;
  pos_height : Z
}.

Definition position_dict (p : Position) : posdict :=
  list_to_map [("x", pos_x p); ("y", pos_y p);
               ("width", pos_width p); ("height", pos_height p)].

(** The dict [decode_barcodes] builds for a decoded symbol ("order" is
    the key [add_order_numbers] adds later). *)
Record Barcode := {
  barcode_data : string;
  barcode_type : string;
  bc_position : Position;
  bc_confidence : float;
  decode_time : Z;
  polygon : list (Z * Z);
  bc_order : option Z
}.

(** The dict of a recognised text region. *)
Record TextRegion := {
  tr_text : string;
  tr_position : Position;
  tr_confidence : option float;
  tr_level : option Z;
  tr_order : option Z
}.

#[global] Instance Barcode_positioned : Positioned Barcode :=
  λ bc, Some (position_dict (bc_position bc)).

#[global] Program Instance Barcode_numbered : Numbered Barcode := {|
  get_order := bc_order;
  set_order n bc :=
    {| barcode_data := barcode_data bc; barcode_type := barcode_type bc;
       bc_position := bc_position bc; bc_confidence := bc_confidence bc;
       decode_time := decode_time bc; polygon := polygon bc;
       bc_order := Some n |}
|}.
Next Obligation. done. Qed.

#[global] Instance TextRegion_positioned : Positioned TextRegion :=
  λ tr, Some (position_dict (tr_position tr)).

#[global] Program Instance TextRegion_numbered : Numbered TextRegion := {|
  get_order := tr_order;
  set_order n tr :=
    {| tr_text := tr_text tr; tr_position := tr_position tr;
       tr_confidence := tr_confidence tr; tr_level := tr_level tr;
       tr_order := Some n |}
|}.
Next Obligation. done. Qed.

(** Shorthands for concrete barcodes and text regions. *)
Definition mk_barcode (data : string) (x y width height : Z) : Barcode :=
  {| barcode_data := data; barcode_type := "CODE128";
     bc_position := {| pos_x := x; pos_y := y;
                       pos_width := width; pos_height := height |};
     bc_confidence := 1; decode_time := 0; polygon := [];
     bc_order := None |}.

Definition mk_text (text : string) (x y width height : Z) : TextRegion :=
  {| tr_text := text;
     tr_position := {| pos_x := x; pos_y := y;
                       pos_width := width; pos_height := height |};
     tr_confidence := Some 0.9%float; tr_level := Some 5%Z;
     tr_order := None |}.

(** ** association_analyzer.py *)

Module AssociationAnalyzer.

Record t := {
  max_search_radius_multiplier : float;
  direction_weights : gmap string float;
  strong_threshold : float;
  weak_threshold : float
}.

Definition default_direction_weights : gmap string float :=
  list_to_map [("right", 0.8%float); ("bottom", 0.6%float);
               ("left", 0.4%float); ("top", 0.3%float)].

(** [__init__]; [direction_weights or {...}] takes the defaults for
    [None] and for an empty dict. *)
Definition init (max_search_radius_multiplier : float)
    (direction_weights : option (gmap string float))
    (strong_threshold weak_threshold : float) : t :=
  {| max_search_radius_multiplier := max_search_radius_multiplier;
     direction_weights :=
       match direction_weights with
       | Some weights =>
           if decide (size weights = 0%nat) then default_direction_weights
           else weights
       | None => default_direction_weights
       end;
     strong_threshold := strong_threshold;
     weak_threshold := weak_threshold |}.

(** The analyzer with every argument at its default. *)
Definition defaults : t := init 2.0%float None 0.5%float 0.3%float.

(** One entry of a barcode's [related_text]. *)
Record Association := {
  a_text : string;
  a_position : Position;
  a_confidence : float;
  a_score : float;
  relation_type : string
}.

(** One entry of the result list, each association tagged with the
    index its text region has in the input (the loop variable [idx];
    the tag is not part of the Python dict). *)
Record Result := {
  r_barcode : Barcode;
  related_text : list (nat * Association);
  has_association : bool
}.

Record IndependentText := {
  i_text : string;
  i_position : Position;
  i_type : string
}.

Definition _get_center (position : Position) : float * float :=
  ((Py.float_of_Z (pos_x position)
    + Py.float_of_Z (pos_width position) / 2)%float,
   (Py.float_of_Z (pos_y position)
    + Py.float_of_Z (pos_height position) / 2)%float).

(** [math.sqrt((cx1 - cx2) ** 2 + (cy1 - cy2) ** 2)] *)
Definition _calculate_distance (pos1 pos2 : Position) : float :=
  let '(cx1, cy1) := _get_center pos1 in
  let '(cx2, cy2) := _get_center pos2 in
  PrimFloat.sqrt ((cx1 - cx2) * (cx1 - cx2) + (cy1 - cy2) * (cy1 - cy2))%float.

Definition _get_direction (barcode_pos text_pos : Position) : string :=
  let '(bc_cx, bc_cy) := _get_center barcode_pos in
  let '(txt_cx, txt_cy) := _get_center text_pos in
  let dx := (txt_cx - bc_cx)%float in
  let dy := (txt_cy - bc_cy)%float in
  if PrimFloat.ltb (PrimFloat.abs dy) (PrimFloat.abs dx)
  then (if PrimFloat.ltb 0 dx then "right" else "left")
  else (if PrimFloat.ltb 0 dy then "bottom" else "top").

Section Methods.
Context (self : t).

Definition max_radius (barcode : Barcode) : float :=
  (Py.float_of_Z (pos_width (bc_position barcode))
   * max_search_radius_multiplier self)%float.

(** Python raises ZeroDivisionError on a float division by zero. *)
Definition _calculate_association_score
    (barcode : Barcode) (text_region : TextRegion) : Py.py float :=
  let barcode_pos := bc_position barcode in
  let text_pos := tr_position text_region in
  let max_radius := max_radius barcode in
  let distance := _calculate_distance barcode_pos text_pos in
  if PrimFloat.ltb max_radius distance then Py.ret 0%float
  else if PrimFloat.eqb max_radius 0 then Py.raise "float division by zero"
  else
    let distance_score := (1 - distance / max_radius)%float in
    let direction := _get_direction barcode_pos text_pos in
    let direction_weight :=
      default 0.5%float (direction_weights self !! direction) in
    Py.ret (distance_score * direction_weight)%float.

(** The body of the loop over [enumerate(text_regions)], on the state
    [(associations, used_text_indices)]. *)
Definition text_step (barcode : Barcode)
    (st : list (nat * Association) * gset nat) (item : nat * TextRegion)
  : Py.py (list (nat * Association) * gset nat) :=
  let '(associations, used_text_indices) := st in
  let '(idx, text_region) := item in
  if decide (idx ∈ used_text_indices) then Py.ret st
  else
    score <- _calculate_association_score barcode text_region ;;
    if PrimFloat.leb (weak_threshold self) score then
      let associations :=
        associations ++
        [(idx,
          {| a_text := tr_text text_region;
             a_position := tr_position text_region;
             a_confidence := default 1%float (tr_confidence text_region);
             a_score := score;
             relation_type :=
               if PrimFloat.leb (strong_threshold self) score
               then "strong" else "weak" |})] in
      if PrimFloat.leb (strong_threshold self) score
      then Py.ret (associations, {[idx]} ∪ used_text_indices)
      else Py.ret (associations, used_text_indices)
    else Py.ret st.

(** The body of the loop over [barcodes], on the state
    [(results, used_text_indices)]. *)
Definition barcode_step (text_regions : list TextRegion)
    (st : list Result * gset nat) (barcode : Barcode)
  : Py.py (list Result * gset nat) :=
  let '(results, used_text_indices) := st in
  inner <- Py.for_each (text_step barcode) (Py.enumerate text_regions)
             ([], used_text_indices) ;;
  let '(associations, used_text_indices) := inner in
  let associations :=
    Py.sorted_reverse PrimFloat.ltb (λ x, a_score x.2) associations in
  Py.ret (results ++
          [{| r_barcode := barcode;
              related_text := associations;
              has_association := bool_decide (0 < length associations)%nat |}],
          used_text_indices).

(** The text regions never marked as used, with their indices. *)
Definition independent (text_regions : list TextRegion)
    (used_text_indices : gset nat) : list (nat * IndependentText) :=
  (λ '(idx, text_region),
     (idx, {| i_text := tr_text text_region;
              i_position := tr_position text_region;
              i_type := "independent" |}))
  <$> filter (λ item, item.1 ∉ used_text_indices) (Py.enumerate text_regions).

Definition associate_text_with_barcodes
    (barcodes : list Barcode) (text_regions : list TextRegion)
  : Py.py (list Result * list (nat * IndependentText)) :=
  final <- Py.for_each (barcode_step text_regions) barcodes ([], ∅) ;;
  let '(results, used_text_indices) := final in
  Py.ret (results, independent text_regions used_text_indices).

End Methods.

(** What Python sees: the dicts without the index tags. *)
Definition related_text_dicts (r : Result) : list Association :=
  snd <$> related_text r.

Definition independent_dicts (independent_text : list (nat * IndependentText))
  : list IndependentText :=
  snd <$> independent_text.

End AssociationAnalyzer.

(** ** barcode_detector.py *)

Module BarcodeDetector.

(** A symbol as pyzbar reports it; [z_data] is the payload after
    [obj.data.decode('utf-8', errors='ignore')]. *)
Record Decoded := {
  z_left : Z;
  z_top : Z;
  z_width : Z;
  z_height : Z;
  z_polygon : list (Z * Z);
  z_data : string;
  z_type : string
}.

(** The OpenCV operations the ensemble applies, each with the
    arguments the source fixes. *)
Record Cv2 (Image : Type) := {
  ndim : Image → nat;                  (* len(image.shape) *)
  shape : Image → Z * Z;               (* image.shape[:2] = (height, width) *)
  equalizeHist : Image → Image;
  cvtColor_BGR2GRAY : Image → Image;
  clahe_apply : Image → Image;         (* clipLimit=3.0, tileGridSize=(8, 8) *)
  threshold_otsu : Image → Image;      (* THRESH_BINARY + THRESH_OTSU *)
  threshold_otsu_inv : Image → Image;  (* THRESH_BINARY_INV + THRESH_OTSU *)
  filter2D_sharpen : Image → Image;    (* kernel [[-1,-1,-1],[-1,9,-1],[-1,-1,-1]] *)
  morph_close : Image → Image;         (* MORPH_CLOSE, 3x3 rectangle *)
  resize_1_5 : Image → Image           (* fx=1.5, fy=1.5, INTER_CUBIC *)
}.

Arguments ndim {Image}.
Arguments shape {Image}.
Arguments equalizeHist {Image}.
Arguments cvtColor_BGR2GRAY {Image}.
Arguments clahe_apply {Image}.
Arguments threshold_otsu {Image}.
Arguments threshold_otsu_inv {Image}.
Arguments filter2D_sharpen {Image}.
Arguments morph_close {Image}.
Arguments resize_1_5 {Image}.

Section Engine.
Context {Image : Type} (cv2 : Cv2 Image).
(** [pyzbar.decode], which may raise. *)
Context (pyzbar_decode : Image → Py.py (list Decoded)).
(** The milliseconds elapsed, on the wall clock, when the k-th symbol of
    an image is recorded. *)
Context (elapsed_ms : Image → nat → Z).

Definition decode_barcodes (image : Image) : list Barcode :=
  match pyzbar_decode image with
  | inr decoded_objects =>
      imap (λ k obj,
              {| barcode_data := z_data obj;
                 barcode_type := z_type obj;
                 bc_position := {| pos_x := z_left obj; pos_y := z_top obj;
                                   pos_width := z_width obj;
                                   pos_height := z_height obj |};
                 bc_confidence := 1;
                 decode_time := elapsed_ms image k;
                 polygon := z_polygon obj;
                 bc_order := None |})
           decoded_objects
  | inl _ => []
  end.

(** The merge of one variant's detections into
    [(all_barcodes, detected_data)]. *)
Definition merge (st : list Barcode * gset string) (barcodes : list Barcode)
  : list Barcode * gset string :=
  foldl (λ '(all_barcodes, detected_data) bc,
           if decide (barcode_data bc ∈ detected_data)
           then (all_barcodes, detected_data)
           else (all_barcodes ++ [bc], {[barcode_data bc]} ∪ detected_data))
        st barcodes.

(** [int(v / 1.5)] *)
Definition downscale (v : Z) : Z :=
  Py.int_of_float (Py.float_of_Z v / 1.5)%float.

(** A detection of the upscaled image, its box brought back to the
    original frame. *)
Definition to_original_frame (bc : Barcode) : Barcode :=
  {| barcode_data := barcode_data bc;
     barcode_type := barcode_type bc;
     bc_position :=
       {| pos_x := downscale (pos_x (bc_position bc));
          pos_y := downscale (pos_y (bc_position bc));
          pos_width := downscale (pos_width (bc_position bc));
          pos_height := downscale (pos_height (bc_position bc)) |};
     bc_confidence := bc_confidence bc;
     decode_time := decode_time bc;
     polygon := polygon bc;
     bc_order := bc_order bc |}.

(** The merge of the eighth variant: a new detection is rescaled, then
    appended. *)
Definition merge_upscaled (st : list Barcode * gset string)
    (barcodes : list Barcode) : list Barcode * gset string :=
  foldl (λ '(all_barcodes, detected_data) bc,
           if decide (barcode_data bc ∈ detected_data)
           then (all_barcodes, detected_data)
           else (all_barcodes ++ [to_original_frame bc],
                 {[barcode_data bc]} ∪ detected_data))
        st barcodes.

Definition decode_with_enhancement (image : Image) : list Barcode :=
  (* Try 1: original image *)
  let st := merge ([], ∅) (decode_barcodes image) in
  (* Try 2: contrast enhancement *)
  let enhanced :=
    if decide (ndim cv2 image = 2%nat) then equalizeHist cv2 image
    else equalizeHist cv2 (cvtColor_BGR2GRAY cv2 image) in
  let st := merge st (decode_barcodes enhanced) in
  (* Try 3: CLAHE *)
  let gray :=
    if decide (ndim cv2 image = 2%nat) then image
    else cvtColor_BGR2GRAY cv2 image in
  let st := merge st (decode_barcodes (clahe_apply cv2 gray)) in
  (* Try 4: Otsu binarization *)
  let st := merge st (decode_barcodes (threshold_otsu cv2 gray)) in
  (* Try 5: inverted Otsu binarization *)
  let st := merge st (decode_barcodes (threshold_otsu_inv cv2 gray)) in
  (* Try 6: sharpening *)
  let st := merge st (decode_barcodes (filter2D_sharpen cv2 gray)) in
  (* Try 7: morphological closing *)
  let st := merge st (decode_barcodes (morph_close cv2 gray)) in
  (* Try 8: upscaling, for small images *)
  let '(height, width) := shape cv2 gray in
  let st :=
    if decide (Z.max height width < 1500)%Z
    then merge_upscaled st (decode_barcodes (resize_1_5 cv2 gray))
    else st in
  st.1.

Definition detect (image : Image) (try_enhancement : bool) : list Barcode :=
  if try_enhancement then decode_with_enhancement image
  else decode_barcodes image.

(** The detections of the variants, in the order the ensemble consults
    them, those of the upscaled image in the original frame. *)
Definition variant_detections (image : Image) : list (list Barcode) :=
  let gray :=
    if decide (ndim cv2 image = 2%nat) then image
    else cvtColor_BGR2GRAY cv2 image in
  [ decode_barcodes image;
    decode_barcodes
      (if decide (ndim cv2 image = 2%nat) then equalizeHist cv2 image
       else equalizeHist cv2 (cvtColor_BGR2GRAY cv2 image));
    decode_barcodes (clahe_apply cv2 gray);
    decode_barcodes (threshold_otsu cv2 gray);
    decode_barcodes (threshold_otsu_inv cv2 gray);
    decode_barcodes (filter2D_sharpen cv2 gray);
    decode_barcodes (morph_close cv2 gray) ]
  ++ (if decide (Z.max (shape cv2 gray).1 (shape cv2 gray).2 < 1500)%Z
      then [to_original_frame <$> decode_barcodes (resize_1_5 cv2 gray)]
      else []).

End Engine.

(** The detections a stream contributes, read front to back: a
    detection is kept iff its payload was not seen before. *)
Fixpoint first_seen (seen : gset string) (stream : list Barcode)
  : list Barcode :=
  match stream with
  | [] => []
  | bc :: stream' =>
      if decide (barcode_data bc ∈ seen) then first_seen seen stream'
      else bc :: first_seen ({[barcode_data bc]} ∪ seen) stream'
  end.

(** A toy engine for concrete runs: images are numbered, every filter
    yields a fixed image, and the decoder answers by image number (it
    raises on the equalized image). *)
Definition toy_cv2 : Cv2 nat :=
  {| ndim := λ _, 2%nat;
     shape := λ _, (100%Z, 200%Z);
     equalizeHist := λ _, 1%nat;
     cvtColor_BGR2GRAY := λ image, image;
     clahe_apply := λ _, 2%nat;
     threshold_otsu := λ _, 3%nat;
     threshold_otsu_inv := λ _, 4%nat;
     filter2D_sharpen := λ _, 5%nat;
     morph_close := λ _, 6%nat;
     resize_1_5 := λ _, 7%nat |}.

Definition toy_symbol (data : string) (x y width height : Z) : Decoded :=
  {| z_left := x; z_top := y; z_width := width; z_height := height;
     z_polygon := []; z_data := data; z_type := "QRCODE" |}.

Definition toy_decode (image : nat) : Py.py (list Decoded) :=
  match image with
  | 0%nat => inr [toy_symbol "A" 10 10 30 30]
  | 1%nat => inl "decoder failure"
  | 2%nat => inr [toy_symbol "A" 11 10 30 30; toy_symbol "B" 50 10 30 30]
  | 7%nat => inr [toy_symbol "B" 75 15 45 45; toy_symbol "C" 150 150 60 60]
  | _ => inr []
  end.

End BarcodeDetector.

(** ** ai_recognizer.py: the availability check *)

Module AIRecognizer.

(** A provider dict, by the truth values of its "enabled" and "api_key"
    entries (a missing key reads as false, resp. the empty string). *)
Record Provider := {
  provider_enabled : bool;
  provider_api_key : string
}.

(** A model dict, by its "provider_id" entry, which may be missing. *)
Record Model := {
  model_provider_id : option string
}.

Record t := {
  enabled : bool;
  providers : gmap string Provider;
  models : gmap string Model;
  active_model_id : option string
}.

(** [model['provider_id']] raises KeyError on a model without the key. *)
Definition is_available (self : t) : Py.py bool :=
  if negb (enabled self) then Py.ret false
  else
    match active_model_id self with
    | None | Some "" => Py.ret false
    | Some id =>
        match models self !! id with
        | None => Py.ret false
        | Some model =>
            match model_provider_id model with
            | None => Py.raise "'provider_id'"
            | Some provider_id =>
                match providers self !! provider_id with
                | None => Py.ret false
                | Some provider =>
                    if negb (provider_enabled provider) then Py.ret false
                    else if decide (provider_api_key provider = "")
                    then Py.ret false
                    else Py.ret true
                end
            end
        end
    end.

(** One barcode and one text of the formatted reply; the position is
    whatever dict the reply carried. *)
Record Barcode := {
  ai_barcode_data : string;
  ai_barcode_type : string;
  ai_barcode_position : posdict
}.

Record Text := {
  ai_text : string;
  ai_text_position : posdict;
  ai_text_confidence : option float
}.

Record Reply (Json : Type) := {
  barcodes : list Barcode;
  texts : list Text;
  raw_response : option Json
}.

Arguments barcodes {Json}.
Arguments texts {Json}.
Arguments raw_response {Json}.

End AIRecognizer.

(** ** processor.py *)

Module LabelProcessor.

(** The type-specific fields of an output object. *)
Inductive Data :=
  | barcode_fields (barcode_data barcode_type : string)
  | text_fields (text : string) (confidence : option float)
  | group_fields (barcode_data barcode_type : string)
      (related_text : option string)
  | group_detail_fields (barcode_data barcode_type : string)
      (related_text_details : list AssociationAnalyzer.Association).

(** An object of the result list. *)
Record MixedObject := {
  mo_order : option Z;
  mo_type : string;
  mo_position : posdict;
  mo_data : Data
}.

#[global] Instance MixedObject_positioned : Positioned MixedObject :=
  λ obj, Some (mo_position obj).

#[global] Program Instance MixedObject_numbered : Numbered MixedObject := {|
  get_order := mo_order;
  set_order n obj :=
    {| mo_order := Some n; mo_type := mo_type obj;
       mo_position := mo_position obj; mo_data := mo_data obj |}
|}.
Next Obligation. done. Qed.

(** What [recognize_full] returns. *)
Record OcrResult := {
  full_text : string;
  text_regions : list TextRegion;
  structured_fields : gmap string string;
  ocr_time : Z
}.

(** The envelope [process_image] returns. *)
Record Envelope (Json : Type) := {
  success : bool;
  mode_used : string;
  recognition_mode : string;
  sort_order : string;
  results : list MixedObject;
  process_time : Z;
  error : option string;
  env_ai_raw_response : option (option Json);
  env_structured_fields : option (gmap string string);
  env_full_text : option string
}.

Arguments success {Json}.
Arguments mode_used {Json}.
Arguments recognition_mode {Json}.
Arguments sort_order {Json}.
Arguments results {Json}.
Arguments process_time {Json}.
Arguments error {Json}.
Arguments env_ai_raw_response {Json}.
Arguments env_structured_fields {Json}.
Arguments env_full_text {Json}.

(** The envelope as [process_image] initialises it. *)
Definition initial_envelope {Json} (mode recognition_mode sort_order : string)
  : Envelope Json :=
  {| success := true; mode_used := mode;
     recognition_mode := recognition_mode; sort_order := sort_order;
     results := []; process_time := 0; error := None;
     env_ai_raw_response := None; env_structured_fields := None;
     env_full_text := None |}.

(** The assignments to the envelope. *)
Definition set_results {Json} (result : Envelope Json)
    (value : list MixedObject) : Envelope Json :=
  {| success := success result; mode_used := mode_used result;
     recognition_mode := recognition_mode result;
     sort_order := sort_order result;
     results := value;
     process_time := process_time result; error := error result;
     env_ai_raw_response := env_ai_raw_response result;
     env_structured_fields := env_structured_fields result;
     env_full_text := env_full_text result |}.

Definition set_ai_raw_response {Json} (result : Envelope Json)
    (value : option Json) : Envelope Json :=
  {| success := success result; mode_used := mode_used result;
     recognition_mode := recognition_mode result;
     sort_order := sort_order result;
     results := results result;
     process_time := process_time result; error := error result;
     env_ai_raw_response := Some value;
     env_structured_fields := env_structured_fields result;
     env_full_text := env_full_text result |}.

Definition set_structured_fields {Json} (result : Envelope Json)
    (value : gmap string string) : Envelope Json :=
  {| success := success result; mode_used := mode_used result;
     recognition_mode := recognition_mode result;
     sort_order := sort_order result;
     results := results result;
     process_time := process_time result; error := error result;
     env_ai_raw_response := env_ai_raw_response result;
     env_structured_fields := Some value;
     env_full_text := env_full_text result |}.

Definition set_full_text {Json} (result : Envelope Json)
    (value : string) : Envelope Json :=
  {| success := success result; mode_used := mode_used result;
     recognition_mode := recognition_mode result;
     sort_order := sort_order result;
     results := results result;
     process_time := process_time result; error := error result;
     env_ai_raw_response := env_ai_raw_response result;
     env_structured_fields := env_structured_fields result;
     env_full_text := Some value |}.

(** [result["success"] = False; result["error"] = str(e)] *)
Definition set_failure {Json} (result : Envelope Json) (e : Py.exn)
  : Envelope Json :=
  {| success := false; mode_used := mode_used result;
     recognition_mode := recognition_mode result;
     sort_order := sort_order result;
     results := results result;
     process_time := process_time result; error := Some e;
     env_ai_raw_response := env_ai_raw_response result;
     env_structured_fields := env_structured_fields result;
     env_full_text := env_full_text result |}.

Definition set_process_time {Json} (result : Envelope Json) (value : Z)
  : Envelope Json :=
  {| success := success result; mode_used := mode_used result;
     recognition_mode := recognition_mode result;
     sort_order := sort_order result;
     results := results result;
     process_time := value; error := error result;
     env_ai_raw_response := env_ai_raw_response result;
     env_structured_fields := env_structured_fields result;
     env_full_text := env_full_text result |}.

(** [" ".join(texts)] *)
Fixpoint join_space (texts : list string) : string :=
  match texts with
  | [] => ""
  | [text] => text
  | text :: texts' => text +:+ " " +:+ join_space texts'
  end.

(** [str(x)] of an optional string ([None] prints as "None"). *)
Definition str_option (x : option string) : string := default "None" x.

(** [try: body except Exception as e: handler(e)] *)
Definition try_except {A} (body : Py.py A) (handler : Py.exn → Py.py A)
  : Py.py A :=
  match body with
  | inl e => handler e
  | inr a => inr a
  end.

Section Processor.
Context {Image Json : Type}.
(** The engines. [preprocess] stands for
    [image_processor.preprocess(image, mode)["processed"]], a chain of
    OpenCV filters; [recognize_full] for the OCR run and [ai_recognize]
    for the request to the vision-chat engine. Each may raise. *)
Context (preprocess : Image → string → Py.py Image).
Context (cv2 : BarcodeDetector.Cv2 Image).
Context (pyzbar_decode : Image → Py.py (list BarcodeDetector.Decoded)).
Context (decode_ms : Image → nat → Z).
Context (tesseract_available : bool).
Context (recognize_full : Image → Py.py OcrResult).
Context (ai_recognizer : AIRecognizer.t).
Context (ai_recognize : Image → Py.py (AIRecognizer.Reply Json)).
Context (association_analyzer : AssociationAnalyzer.t).
Context (order_sorter : OrderSorter.t).
(** The wall clock: the milliseconds between the two readings of
    [time.time()]. *)
Context (elapsed_ms : Z).

Definition detect (image : Image) : list Barcode :=
  BarcodeDetector.detect cv2 pyzbar_decode decode_ms image true.

(** The message raised when the AI engine is not available: the first
    unmet precondition. *)
Definition ai_unavailable_message : string :=
  "AI识别功能不可用,请检查配置:" +:+
  (if negb (AIRecognizer.enabled ai_recognizer) then " AI功能未启用"
   else
     match AIRecognizer.active_model_id ai_recognizer with
     | None | Some "" => " 未选择激活的模型"
     | Some id =>
         match AIRecognizer.models ai_recognizer !! id with
         | None => " 模型" +:+ id +:+ "不存在"
         | Some model =>
             let provider_id := AIRecognizer.model_provider_id model in
             match provider_id ≫= λ p, AIRecognizer.providers ai_recognizer !! p
             with
             | None => " 提供商" +:+ str_option provider_id +:+ "不存在"
             | Some provider =>
                 if negb (AIRecognizer.provider_enabled provider)
                 then " 提供商" +:+ str_option provider_id +:+ "未启用"
                 else if decide (AIRecognizer.provider_api_key provider = "")
                 then " 提供商" +:+ str_option provider_id +:+ "缺少API Key"
                 else ""
             end
         end
     end).

(** The output object of a barcode that was sorted and numbered. *)
Definition barcode_object (bc : Barcode) : MixedObject :=
  {| mo_order := bc_order bc;
     mo_type := "barcode";
     mo_position := position_dict (bc_position bc);
     mo_data := barcode_fields (barcode_data bc) (barcode_type bc) |}.

Definition sort_and_number {A} `{!Positioned A, !Numbered A}
    (objects : list A) (sort_order : string) : list A :=
  OrderSorter.add_order_numbers_fresh
    (OrderSorter.sort order_sorter objects sort_order).

(** The barcode group objects followed by the independent texts
    (balanced and full depth). *)
Definition mixed_objects (full : bool)
    (associations : list AssociationAnalyzer.Result)
    (independent_text : list (nat * AssociationAnalyzer.IndependentText))
  : list MixedObject :=
  ((λ assoc,
      let bc := AssociationAnalyzer.r_barcode assoc in
      let related := AssociationAnalyzer.related_text_dicts assoc in
      {| mo_order := None;
         mo_type := "barcode_group";
         mo_position := position_dict (bc_position bc);
         mo_data :=
           if full
           then group_detail_fields (barcode_data bc) (barcode_type bc) related
           else group_fields (barcode_data bc) (barcode_type bc)
                  (match related with
                   | [] => None
                   | _ => Some (join_space
                                  (AssociationAnalyzer.a_text <$> related))
                   end) |}) <$> associations)
  ++ ((λ text,
         {| mo_order := None;
            mo_type := "text";
            mo_position :=
              position_dict (AssociationAnalyzer.i_position text);
            mo_data := text_fields (AssociationAnalyzer.i_text text) None |})
      <$> AssociationAnalyzer.independent_dicts independent_text).

(** The body of the [try] block: the envelope with the fields of the
    run filled in, or the exception raised on the way. Every assignment
    to [result] stands after the last call that can raise, so an
    exception leaves the envelope as it was initialised. *)
Definition process_body (result : Envelope Json) (image : Image)
    (mode recognition_mode sort_order : string) : Py.py (Envelope Json) :=
  processed_img <- preprocess image mode ;;
  if decide (recognition_mode = "ai") then
    available <- AIRecognizer.is_available ai_recognizer ;;
    if negb available then Py.raise ai_unavailable_message
    else
      ai_result <- try_except (ai_recognize image)
                     (λ e, Py.raise ("AI识别失败: " +:+ e)) ;;
      let mixed_objects :=
        ((λ bc, {| mo_order := None;
                   mo_type := "barcode";
                   mo_position := AIRecognizer.ai_barcode_position bc;
                   mo_data := barcode_fields (AIRecognizer.ai_barcode_data bc)
                                (AIRecognizer.ai_barcode_type bc) |})
         <$> AIRecognizer.barcodes ai_result)
        ++ ((λ text, {| mo_order := None;
                        mo_type := "text";
                        mo_position := AIRecognizer.ai_text_position text;
                        mo_data :=
                          text_fields (AIRecognizer.ai_text text)
                            (Some (default 1%float
                                     (AIRecognizer.ai_text_confidence text)))
                     |})
            <$> AIRecognizer.texts ai_result) in
      let result := set_results result (sort_and_number mixed_objects sort_order) in
      Py.ret (set_ai_raw_response result (AIRecognizer.raw_response ai_result))
  else if decide (recognition_mode = "barcode_only") then
    let barcodes := detect processed_img in
    let sorted_barcodes := sort_and_number barcodes sort_order in
    Py.ret (set_results result (barcode_object <$> sorted_barcodes))
  else if decide (recognition_mode = "ocr_only") then
    if negb tesseract_available
    then Py.raise "OCR功能不可用,请安装Tesseract OCR"
    else
      (* the three processing depths call the same OCR routine *)
      ocr_result <- recognize_full image ;;
      let sorted_texts :=
        sort_and_number (text_regions ocr_result) sort_order in
      let result :=
        set_results result
          ((λ text, {| mo_order := tr_order text;
                       mo_type := "text";
                       mo_position := position_dict (tr_position text);
                       mo_data :=
                         text_fields (tr_text text)
                           (Some (default 0%float (tr_confidence text))) |})
           <$> sorted_texts) in
      let result :=
        set_structured_fields result (structured_fields ocr_result) in
      Py.ret (if decide (mode = "full")
              then set_full_text result (full_text ocr_result)
              else result)
  else if decide (recognition_mode = "barcode_and_ocr") then
    let barcodes := detect processed_img in
    if bool_decide (mode = "fast") || negb tesseract_available then
      let sorted_barcodes := sort_and_number barcodes sort_order in
      Py.ret (set_results result (barcode_object <$> sorted_barcodes))
    else if decide (mode = "balanced") then
      ocr_result <- recognize_full image ;;
      assoc <- AssociationAnalyzer.associate_text_with_barcodes
                 association_analyzer barcodes (text_regions ocr_result) ;;
      let '(associations, independent_text) := assoc in
      let result :=
        set_results result
          (sort_and_number
             (mixed_objects false associations independent_text) sort_order) in
      Py.ret (set_structured_fields result (structured_fields ocr_result))
    else if decide (mode = "full") then
      ocr_result <- recognize_full image ;;
      assoc <- AssociationAnalyzer.associate_text_with_barcodes
                 association_analyzer barcodes (text_regions ocr_result) ;;
      let '(associations, independent_text) := assoc in
      let result :=
        set_results result
          (sort_and_number
             (mixed_objects true associations independent_text) sort_order) in
      let result := set_full_text result (full_text ocr_result) in
      Py.ret (set_structured_fields result (structured_fields ocr_result))
    else Py.ret result
  else Py.ret result.

(** The handler of [except Exception as e]. *)
Definition on_exception (result : Envelope Json) (e : Py.exn)
  : Py.py (Envelope Json) :=
  Py.ret (set_failure result e).

(** [process_image]: the envelope is initialised, the body runs inside
    [try], and the processing time is set on every path. *)
Definition process_image (image : Image)
    (mode recognition_mode sort_order ocr_mode : string)
  : Py.py (Envelope Json) :=
  let result := initial_envelope mode recognition_mode sort_order in
  result <- try_except
              (process_body result image mode recognition_mode sort_order)
              (on_exception result) ;;
  Py.ret (set_process_time result elapsed_ms).

End Processor.

End LabelProcessor.

(** * Specification vocabulary *)

(** What Python's sort needs of [<] on the keys to be meaningful: a
    strict weak order. *)
Class StrictWeak {K : Type} (lt : K → K → bool) : Prop := {
  lt_irrefl a : lt a a = false;
  lt_trans a b c : lt a b = true → lt b c = true → lt a c = true;
  le_trans a b c : lt b a = false → lt c b = false → lt c a = false
}.

(** [a] may stand before [b]: the key of [b] is not smaller. *)
Definition key_le {A K} (lt : K → K → bool) (key : A → K) (a b : A) : Prop :=
  lt (key b) (key a) = false.

(** [a] may stand before [b] in the order "first key, ties by second". *)
Definition lex_le {A K1 K2} (lt1 : K1 → K1 → bool) (lt2 : K2 → K2 → bool)
  (k1 : A → K1) (k2 : A → K2) (a b : A) : Prop :=
  key_le lt1 k1 a b ∧ (lt1 (k1 a) (k1 b) = false → key_le lt2 k2 a b).

(** The rows of the sorter, stated by recursion on the y-sorted list:
    [cur] is the open row, anchored at [cy]. *)
Fixpoint rows_from {E} `{!Positioned E} (self : OrderSorter.t)
  (cy : Q) (cur : list E) (l : list E) : list (list E) :=
  match l with
  | [] => [cur]
  | obj :: l' =>
      if OrderSorter.same_row self cy (OrderSorter._get_y_center obj)
      then rows_from self cy (cur ++ [obj]) l'
      else cur :: rows_from self (OrderSorter._get_y_center obj) [obj] l'
  end.

(** A row anchored at its first member: every later member lies within
    the tolerance of the first one. *)
Definition anchored_row {E} `{!Positioned E} (self : OrderSorter.t)
  (row : list E) : Prop :=
  match row with
  | [] => False
  | seed :: members =>
      Forall (λ obj, OrderSorter.same_row self
                       (OrderSorter._get_y_center seed)
                       (OrderSorter._get_y_center obj) = true) members
  end.

(** A new row starts exactly where the tolerance of the previous anchor
    is first violated. *)
Definition row_break {E} `{!Positioned E} (self : OrderSorter.t)
  (row next : list E) : Prop :=
  match row, next with
  | seed :: _, seed' :: _ =>
      OrderSorter.same_row self (OrderSorter._get_y_center seed)
        (OrderSorter._get_y_center seed') = false
  | _, _ => False
  end.

Fixpoint anchored_rows {E} `{!Positioned E} (self : OrderSorter.t)
  (rows : list (list E)) : Prop :=
  match rows with
  | [] => True
  | row :: rows' =>
      anchored_row self row
      ∧ match rows' with
        | [] => True
        | next :: _ => row_break self row next
        end
      ∧ anchored_rows self rows'
  end.

(** The grouping of a y-sorted list into rows. *)
Definition group {E} `{!Positioned E} (self : OrderSorter.t) (l : list E)
  : list (list E) :=
  match l with
  | [] => []
  | first :: rest =>
      rows_from self (OrderSorter._get_y_center first) [first] rest
  end.

(** What one pass over the text regions, for one barcode, adds to the
    associations ([new]) and to the set of used indices. *)
Record text_loop_spec (self : AssociationAnalyzer.t) (barcode : Barcode)
    (items : list (nat * TextRegion)) (used used' : gset nat)
    (new : list (nat * AssociationAnalyzer.Association)) : Prop := {
  tl_mono : used ⊆ used';
  tl_fresh idx a : (idx, a) ∈ new → idx ∉ used;
  tl_scored idx a : (idx, a) ∈ new →
    ∃ text_region, (idx, text_region) ∈ items
      ∧ AssociationAnalyzer._calculate_association_score self barcode
          text_region
        = inr (AssociationAnalyzer.a_score a)
      ∧ PrimFloat.leb (AssociationAnalyzer.weak_threshold self)
          (AssociationAnalyzer.a_score a) = true;
  tl_strong idx a : (idx, a) ∈ new →
    AssociationAnalyzer.relation_type a = "strong" → idx ∈ used';
  tl_used idx : idx ∈ used' →
    idx ∈ used
    ∨ ∃ a, (idx, a) ∈ new ∧ AssociationAnalyzer.relation_type a = "strong"
}.

(** What the loop over the barcodes adds to the results ([new]) and to
    the set of used indices. *)
Record barcode_loop_spec (self : AssociationAnalyzer.t)
    (barcodes : list Barcode) (text_regions : list TextRegion)
    (used used' : gset nat) (new : list AssociationAnalyzer.Result)
  : Prop := {
  bl_length : length new = length barcodes;
  bl_mono : used ⊆ used';
  bl_fresh r idx a :
    r ∈ new → (idx, a) ∈ AssociationAnalyzer.related_text r → idx ∉ used;
  bl_scored i r : new !! i = Some r →
    ∃ barcode, barcodes !! i = Some barcode
      ∧ AssociationAnalyzer.r_barcode r = barcode
      ∧ ∀ idx a, (idx, a) ∈ AssociationAnalyzer.related_text r →
          ∃ text_region, text_regions !! idx = Some text_region
            ∧ AssociationAnalyzer._calculate_association_score self barcode
                text_region
              = inr (AssociationAnalyzer.a_score a)
            ∧ PrimFloat.leb (AssociationAnalyzer.weak_threshold self)
                (AssociationAnalyzer.a_score a) = true;
  bl_strong r idx a :
    r ∈ new → (idx, a) ∈ AssociationAnalyzer.related_text r →
    AssociationAnalyzer.relation_type a = "strong" → idx ∈ used';
  bl_later i j ri rj idx a :
    (i < j)%nat → new !! i = Some ri → new !! j = Some rj →
    (idx, a) ∈ AssociationAnalyzer.related_text ri →
    AssociationAnalyzer.relation_type a = "strong" →
    idx ∉ (AssociationAnalyzer.related_text rj).*1;
  bl_used idx : idx ∈ used' →
    idx ∈ used
    ∨ ∃ r a, r ∈ new ∧ (idx, a) ∈ AssociationAnalyzer.related_text r
             ∧ AssociationAnalyzer.relation_type a = "strong"
}.

(** * Vocabulary and models of the further properties *)

(** Objects that [P] selects are pairwise of equal rank. *)
Definition one_rank {A K} (lt : K → K → bool) (key : A → K) (P : A → Prop)
  : Prop :=
  ∀ x y, P x → P y → lt (key y) (key x) = false.

(** A float that is not a NaN. *)
Definition is_number (f : float) : Prop := PrimFloat.eqb f f = true.

(** The entry [text_step] appends for a text region with a given score. *)
Definition entry (self : AssociationAnalyzer.t) (text_region : TextRegion)
    (score : float) : AssociationAnalyzer.Association :=
  {| AssociationAnalyzer.a_text := tr_text text_region;
     AssociationAnalyzer.a_position := tr_position text_region;
     AssociationAnalyzer.a_confidence :=
       default 1%float (tr_confidence text_region);
     AssociationAnalyzer.a_score := score;
     AssociationAnalyzer.relation_type :=
       if PrimFloat.leb (AssociationAnalyzer.strong_threshold self) score
       then "strong" else "weak" |}.

(** An entry of a barcode's list, traced back to the input. *)
Definition entry_of (self : AssociationAnalyzer.t) (barcode : Barcode)
    (items : list (nat * TextRegion))
    (e : nat * AssociationAnalyzer.Association) : Prop :=
  ∃ text_region score,
    (e.1, text_region) ∈ items
    ∧ AssociationAnalyzer._calculate_association_score self barcode text_region
      = inr score
    ∧ PrimFloat.leb (AssociationAnalyzer.weak_threshold self) score = true
    ∧ e.2 = entry self text_region score.

(** What the scorer returns for one barcode. *)
Definition result_of (self : AssociationAnalyzer.t)
    (text_regions : list TextRegion) (barcode : Barcode)
    (r : AssociationAnalyzer.Result) : Prop :=
  AssociationAnalyzer.r_barcode r = barcode
  ∧ AssociationAnalyzer.has_association r
    = bool_decide (AssociationAnalyzer.related_text r ≠ [])
  ∧ ∃ found,
      AssociationAnalyzer.related_text r
      = Py.sorted_reverse PrimFloat.ltb
          (λ x, AssociationAnalyzer.a_score x.2) found
      ∧ Forall (entry_of self barcode (Py.enumerate text_regions)) found
      ∧ found.*1 `sublist_of` seq 0 (length text_regions).

(** The dict the scorer makes of a text region no barcode took. *)
Definition independent_entry (text_region : TextRegion)
  : AssociationAnalyzer.IndependentText :=
  {| AssociationAnalyzer.i_text := tr_text text_region;
     AssociationAnalyzer.i_position := tr_position text_region;
     AssociationAnalyzer.i_type := "independent" |}.

(** A label with one barcode and three fragments right of it: two on the
    same spot, weakly associated, and a nearer one, strongly associated. *)
Definition label_barcodes : list Barcode := [mk_barcode "A" 0 0 100 50].
Definition label_texts : list TextRegion :=
  [mk_text "LOT" 110 10 60 20; mk_text "QTY" 110 10 60 20;
   mk_text "SN" 100 15 20 20].

(** The objects of a result list carry the numbers 1, 2, ..., N in list
    order. *)
Definition numbered (objects : list LabelProcessor.MixedObject) : Prop :=
  LabelProcessor.mo_order <$> objects
  = (λ i, Some (Z.of_nat i)) <$> seq 1 (length objects).

(** An AI configuration with the engine switched off. *)
Definition ai_off : AIRecognizer.t :=
  {| AIRecognizer.enabled := false; AIRecognizer.providers := ∅;
     AIRecognizer.models := ∅; AIRecognizer.active_model_id := None |}.

(** An AI configuration that passes the availability check. *)
Definition ai_on : AIRecognizer.t :=
  {| AIRecognizer.enabled := true;
     AIRecognizer.providers :=
       {[ "p1" := {| AIRecognizer.provider_enabled := true;
                     AIRecognizer.provider_api_key := "key" |} ]};
     AIRecognizer.models :=
       {[ "m1" := {| AIRecognizer.model_provider_id := Some "p1" |} ]};
     AIRecognizer.active_model_id := Some "m1" |}.

(** An output object less its order number. *)
Definition unnumbered (obj : LabelProcessor.MixedObject)
  : string * posdict * LabelProcessor.Data :=
  (LabelProcessor.mo_type obj, LabelProcessor.mo_position obj,
   LabelProcessor.mo_data obj).

(** The payload of a barcode group object. *)
Definition group_payload (obj : LabelProcessor.MixedObject) : option string :=
  match LabelProcessor.mo_data obj with
  | LabelProcessor.group_fields payload _ _
  | LabelProcessor.group_detail_fields payload _ _ => Some payload
  | _ => None
  end.

(** The text of a text object. *)
Definition object_text (obj : LabelProcessor.MixedObject) : option string :=
  match LabelProcessor.mo_data obj with
  | LabelProcessor.text_fields text _ => Some text
  | _ => None
  end.

(** The output object of a text region of the OCR (mode "ocr_only"). *)
Definition text_object (text : TextRegion)
  : string * posdict * LabelProcessor.Data :=
  ("text", position_dict (tr_position text),
   LabelProcessor.text_fields (tr_text text)
     (Some (default 0%float (tr_confidence text)))).

(** The output objects of a reply of the AI engine. *)
Definition ai_barcode_object (bc : AIRecognizer.Barcode)
  : string * posdict * LabelProcessor.Data :=
  ("barcode", AIRecognizer.ai_barcode_position bc,
   LabelProcessor.barcode_fields (AIRecognizer.ai_barcode_data bc)
     (AIRecognizer.ai_barcode_type bc)).

Definition ai_text_object (text : AIRecognizer.Text)
  : string * posdict * LabelProcessor.Data :=
  ("text", AIRecognizer.ai_text_position text,
   LabelProcessor.text_fields (AIRecognizer.ai_text text)
     (Some (default 1%float (AIRecognizer.ai_text_confidence text)))).

(** An OCR result for concrete runs: a fragment next to barcode "A" of the
    toy image and one far from every barcode. *)
Definition toy_ocr : LabelProcessor.OcrResult :=
  {| LabelProcessor.full_text := "LOT FAR";
     LabelProcessor.text_regions :=
       [mk_text "LOT" 45 10 20 20; mk_text "FAR" 500 500 10 10];
     LabelProcessor.structured_fields := {[ "lot" := "9" ]};
     LabelProcessor.ocr_time := 3 |}.

(** A reply of the AI engine for concrete runs. *)
Definition toy_reply : AIRecognizer.Reply unit :=
  {| AIRecognizer.barcodes :=
       [{| AIRecognizer.ai_barcode_data := "A";
           AIRecognizer.ai_barcode_type := "QRCODE";
           AIRecognizer.ai_barcode_position :=
             list_to_map [("x", 0%Z); ("y", 100%Z); ("width", 100%Z);
                          ("height", 50%Z)] |}];
     AIRecognizer.texts :=
       [{| AIRecognizer.ai_text := "LOT";
           AIRecognizer.ai_text_position :=
             list_to_map [("x", 0%Z); ("y", 0%Z); ("width", 100%Z);
                          ("height", 20%Z)];
           AIRecognizer.ai_text_confidence := None |}];
     AIRecognizer.raw_response := Some tt |}.

(** ** image_processor.py *)

Module ImageProcessor.

(** The OpenCV operations of the preprocessing, each with the arguments
    the source fixes; each may raise. *)
Record Cv2 (Image : Type) := {
  shape : Image → Z * Z;               (* image.shape[:2] = (height, width) *)
  ndim : Image → nat;                  (* len(image.shape) *)
  resize_area : Image → Z → Z → Py.py Image;
                                       (* (new_width, new_height), INTER_AREA *)
  cvtColor_BGR2GRAY : Image → Py.py Image;
  clahe_apply : Image → Py.py Image;   (* clipLimit=2.0, tileGridSize=(8, 8) *)
  medianBlur_3 : Image → Py.py Image;
  adaptiveThreshold : Image → Py.py Image
                                       (* 255, GAUSSIAN_C, BINARY, 11, 2 *)
}.

Arguments shape {Image}.
Arguments ndim {Image}.
Arguments resize_area {Image}.
Arguments cvtColor_BGR2GRAY {Image}.
Arguments clahe_apply {Image}.
Arguments medianBlur_3 {Image}.
Arguments adaptiveThreshold {Image}.

Record t := {
  max_size : Z
}.

(** The dict [preprocess] returns. "processed" starts as [None] and is
    assigned on every path; "binary" is only set in mode "full". *)
Record Result (Image : Type) := {
  original : Image;
  processed : Image;
  gray : Image;
  steps : list (string * Image);
  binary : option Image
}.

Arguments original {Image}.
Arguments processed {Image}.
Arguments gray {Image}.
Arguments steps {Image}.
Arguments binary {Image}.

Section Methods.
Context {Image : Type} (cv2 : Cv2 Image) (self : t).

(** [self.max_size / max_dim] is the true division of two ints; for sizes
    below 2^53 it is the division of their floats. *)
Definition resize_if_needed (image : Image) : Py.py Image :=
  let '(height, width) := shape cv2 image in
  let max_dim := Z.max height width in
  if (max_size self <? max_dim)%Z then
    let scale :=
      (Py.float_of_Z (max_size self) / Py.float_of_Z max_dim)%float in
    let new_width := Py.int_of_float (Py.float_of_Z width * scale)%float in
    let new_height := Py.int_of_float (Py.float_of_Z height * scale)%float in
    resize_area cv2 image new_width new_height
  else Py.ret image.

Definition to_grayscale (image : Image) : Py.py Image :=
  if decide (ndim cv2 image = 3%nat) then cvtColor_BGR2GRAY cv2 image
  else Py.ret image.

Definition enhance_contrast (image : Image) : Py.py Image :=
  clahe_apply cv2 image.

Definition denoise (image : Image) : Py.py Image :=
  medianBlur_3 cv2 image.

Definition binarize (image : Image) : Py.py Image :=
  adaptiveThreshold cv2 image.

(** [if return_steps: results["steps"].append((name, image.copy()))] *)
Definition record_step (return_steps : bool) (steps : list (string * Image))
    (name : string) (image : Image) : list (string * Image) :=
  if return_steps then steps ++ [(name, image)] else steps.

Definition preprocess (image : Image) (mode : string) (return_steps : bool)
  : Py.py (Result Image) :=
  processed <- resize_if_needed image ;;
  let steps := record_step return_steps [] "resized" processed in
  gray <- to_grayscale processed ;;
  let steps := record_step return_steps steps "gray" gray in
  if decide (mode = "fast") then
    Py.ret {| original := image; processed := gray; gray := gray;
              steps := steps; binary := None |}
  else if decide (mode = "balanced") then
    enhanced <- enhance_contrast gray ;;
    let steps := record_step return_steps steps "enhanced" enhanced in
    denoised <- denoise enhanced ;;
    let steps := record_step return_steps steps "denoised" denoised in
    Py.ret {| original := image; processed := denoised; gray := gray;
              steps := steps; binary := None |}
  else if decide (mode = "full") then
    enhanced <- enhance_contrast gray ;;
    let steps := record_step return_steps steps "enhanced" enhanced in
    denoised <- denoise enhanced ;;
    let steps := record_step return_steps steps "denoised" denoised in
    binary <- binarize denoised ;;
    let steps := record_step return_steps steps "binary" binary in
    Py.ret {| original := image; processed := denoised; gray := gray;
              steps := steps; binary := Some binary |}
  else
    enhanced <- enhance_contrast gray ;;
    Py.ret {| original := image; processed := enhanced; gray := gray;
              steps := steps; binary := None |}.

End Methods.

(** A toy engine for concrete runs: images are numbered and every
    operation adds a fixed amount to the number. *)
Definition toy_cv2 : Cv2 nat :=
  {| shape := λ _, (100%Z, 200%Z);
     ndim := λ _, 2%nat;
     resize_area := λ image _ _, inr image;
     cvtColor_BGR2GRAY := λ image, inr image;
     clahe_apply := λ image, inr (image + 10)%nat;
     medianBlur_3 := λ image, inr (image + 20)%nat;
     adaptiveThreshold := λ image, inr (image + 40)%nat |}.

End ImageProcessor.

(** [self.image_processor.preprocess(image, mode=mode)["processed"]], the
    first step of [process_image]. *)
Definition preprocessed_image {Image} (cv2 : ImageProcessor.Cv2 Image)
    (image_processor : ImageProcessor.t) (image : Image) (mode : string)
  : Py.py Image :=
  Py.map ImageProcessor.processed
    (ImageProcessor.preprocess cv2 image_processor image mode false).

(** ** text_recognizer.py: the text regions *)

(** [a < b] on tuples [(y, x)] of ints: by the first component, ties by
    the second. *)
Definition tuple_ltb (a b : Z * Z) : bool :=
  (a.1 <? b.1)%Z || ((a.1 =? b.1)%Z && (a.2 <? b.2)%Z).

Module TextRecognizer.

(** The OpenCV operations of [preprocess_for_ocr], each with the
    arguments the source fixes; each may raise. *)
Record Cv2 (Image : Type) := {
  ndim : Image → nat;                  (* len(image.shape) *)
  cvtColor_BGR2GRAY : Image → Py.py Image;
  resize_2_5 : Image → Py.py Image;    (* fx=2.5, fy=2.5, INTER_CUBIC *)
  clahe_apply : Image → Py.py Image;   (* clipLimit=3.0, tileGridSize=(8, 8) *)
  threshold_otsu : Image → Py.py Image (* THRESH_BINARY + THRESH_OTSU *)
}.

Arguments ndim {Image}.
Arguments cvtColor_BGR2GRAY {Image}.
Arguments resize_2_5 {Image}.
Arguments clahe_apply {Image}.
Arguments threshold_otsu {Image}.

(** One box of [pytesseract.image_to_data]: the i-th entries of the
    parallel lists "text", "conf", "left", "top", "width", "height" and
    "level" of its dict (Tesseract gives them the same length);
    [row_conf] is [float(data['conf'][i])]. *)
Record Row := {
  row_text : string;
  row_conf : float;
  row_left : Z;
  row_top : Z;
  row_width : Z;
  row_height : Z;
  row_level : Z
}.

Record t := {
  tesseract_available : bool
}.

Section Methods.
Context {Image : Type} (cv2 : Cv2 Image).
(** [pytesseract.image_to_data(image, lang, config='--oem 3 --psm N')],
    which may raise. *)
Context (image_to_data : Image → Z → Py.py (list Row)).
(** [str.strip] *)
Context (strip : string → string).
Context (self : t).

Definition preprocess_for_ocr (image : Image) : Py.py (list Image) :=
  gray <- (if decide (ndim cv2 image = 3%nat) then cvtColor_BGR2GRAY cv2 image
           else Py.ret image) ;;
  scaled <- resize_2_5 cv2 gray ;;
  enhanced_scaled <- clahe_apply cv2 scaled ;;
  binary <- threshold_otsu cv2 enhanced_scaled ;;
  Py.ret [enhanced_scaled; binary].

(** The boxes of the dict [recognize_with_data] returns; the empty dict
    it returns without Tesseract and on an exception has none. *)
Definition recognize_with_data (image : Image) (psm : Z) : list Row :=
  if negb (tesseract_available self) then []
  else match image_to_data image psm with
       | inr data => data
       | inl _ => []
       end.

(** The key [f"{text}_{left//15}_{top//15}"]; the string determines the
    three parts (the last two fields hold no underscore), so the triple
    stands for it. *)
Definition dedup_key (row : Row) : string * Z * Z :=
  (strip (row_text row), (row_left row / 15)%Z, (row_top row / 15)%Z).

(** [int(v * 0.4)] *)
Definition scale_back (v : Z) : Z :=
  Py.int_of_float (Py.float_of_Z v * 0.4)%float.

Definition region (row : Row) : TextRegion :=
  {| tr_text := strip (row_text row);
     tr_position := {| pos_x := scale_back (row_left row);
                       pos_y := scale_back (row_top row);
                       pos_width := scale_back (row_width row);
                       pos_height := scale_back (row_height row) |};
     tr_confidence := Some (row_conf row / 100)%float;
     tr_level := Some (row_level row);
     tr_order := None |}.

(** The body of the loop over the boxes, on the state
    [(all_regions, seen_texts)]. *)
Definition box_step (min_confidence : float)
    (st : list TextRegion * gset (string * Z * Z)) (row : Row)
  : list TextRegion * gset (string * Z * Z) :=
  let '(all_regions, seen_texts) := st in
  if PrimFloat.ltb (row_conf row) min_confidence
     || bool_decide (strip (row_text row) = "")
  then st
  else if decide (dedup_key row ∈ seen_texts) then st
  else (all_regions ++ [region row], {[dedup_key row]} ∪ seen_texts).

Definition extract_text_regions (image : Image) (min_confidence : float)
  : Py.py (list TextRegion) :=
  processed_images <- preprocess_for_ocr image ;;
  match processed_images with
  | [] => Py.raise "list index out of range"
  | best_img :: _ =>
      let data := recognize_with_data best_img 3 in
      let '(all_regions, _) := foldl (box_step min_confidence) ([], ∅) data in
      Py.ret (Py.sorted tuple_ltb
                (λ x, (pos_y (tr_position x), pos_x (tr_position x)))
                all_regions)
  end.

(** A box passes the filter of the loop. *)
Definition accepted (min_confidence : float) (row : Row) : Prop :=
  PrimFloat.ltb (row_conf row) min_confidence = false
  ∧ strip (row_text row) ≠ "".

End Methods.

(** A toy engine for concrete runs: images are numbered, the filters
    add to the number, Tesseract reads four boxes on image 35 and fails
    elsewhere. *)
Definition toy_cv2 : Cv2 nat :=
  {| ndim := λ _, 2%nat;
     cvtColor_BGR2GRAY := λ image, inr image;
     resize_2_5 := λ image, inr (image + 25)%nat;
     clahe_apply := λ image, inr (image + 10)%nat;
     threshold_otsu := λ image, inr (image + 1)%nat |}.

Definition toy_row (text : string) (conf : float) (left top : Z) : Row :=
  {| row_text := text; row_conf := conf; row_left := left; row_top := top;
     row_width := 50; row_height := 25; row_level := 5 |}.

Definition toy_image_to_data (image : nat) (psm : Z) : Py.py (list Row) :=
  if decide (image = 35%nat) then
    inr [toy_row "QTY" 90 200 100; toy_row "LOT" 80 50 100;
         toy_row "LOT" 85 55 102; toy_row "dim" 10 0 0]
  else inl "tesseract failed".

End TextRecognizer.

(** ** ai_recognizer.py: the formatting of the reply *)

Module AIReply.

(** The dicts of the parsed reply, by the keys [_format_result] reads,
    any of which may be missing. *)
Record RawBarcode := {
  raw_data : option string;
  raw_type : option string;
  raw_position : option posdict
}.

Record RawText := {
  raw_text : option string;
  raw_text_position : option posdict;
  raw_confidence : option float
}.

(** The parsed reply: its "barcodes" and "texts" entries and, in
    [parsed_rest], whatever else it holds. *)
Record Parsed (Json : Type) := {
  parsed_barcodes : option (list RawBarcode);
  parsed_texts : option (list RawText);
  parsed_rest : Json
}.

Arguments parsed_barcodes {Json}.
Arguments parsed_texts {Json}.
Arguments parsed_rest {Json}.

(** [{"x": 0, "y": idx * 100, "width": 100, "height": 50}] *)
Definition default_barcode_position (idx : nat) : posdict :=
  list_to_map [("x", 0%Z); ("y", (Z.of_nat idx * 100)%Z);
               ("width", 100%Z); ("height", 50%Z)].

(** [{"x": 0, "y": idx * 30, "width": 100, "height": 20}] *)
Definition default_text_position (idx : nat) : posdict :=
  list_to_map [("x", 0%Z); ("y", (Z.of_nat idx * 30)%Z);
               ("width", 100%Z); ("height", 20%Z)].

Definition format_barcode (item : nat * RawBarcode) : AIRecognizer.Barcode :=
  let '(idx, bc) := item in
  {| AIRecognizer.ai_barcode_data := default "" (raw_data bc);
     AIRecognizer.ai_barcode_type := default "UNKNOWN" (raw_type bc);
     AIRecognizer.ai_barcode_position :=
       default (default_barcode_position idx) (raw_position bc) |}.

Definition format_text (item : nat * RawText) : AIRecognizer.Text :=
  let '(idx, txt) := item in
  {| AIRecognizer.ai_text := default "" (raw_text txt);
     AIRecognizer.ai_text_position :=
       default (default_text_position idx) (raw_text_position txt);
     AIRecognizer.ai_text_confidence :=
       Some (default 1%float (raw_confidence txt)) |}.

Definition _format_result {Json} (parsed_result : Parsed Json)
  : AIRecognizer.Reply (Parsed Json) :=
  {| AIRecognizer.barcodes :=
       format_barcode
       <$> Py.enumerate (default [] (parsed_barcodes parsed_result));
     AIRecognizer.texts :=
       format_text <$> Py.enumerate (default [] (parsed_texts parsed_result));
     AIRecognizer.raw_response := Some parsed_result |}.

End AIReply.

(** The payload of a barcode object. *)
Definition barcode_payload (obj : LabelProcessor.MixedObject)
  : option string :=
  match LabelProcessor.mo_data obj with
  | LabelProcessor.barcode_fields payload _ => Some payload
  | _ => None
  end.

(** A reply for concrete runs: two barcodes without position and a text
    placed between their default boxes. *)
Definition toy_parsed : AIReply.Parsed unit :=
  {| AIReply.parsed_barcodes :=
       Some [{| AIReply.raw_data := Some "A"; AIReply.raw_type := None;
                AIReply.raw_position := None |};
             {| AIReply.raw_data := Some "B"; AIReply.raw_type := None;
                AIReply.raw_position := None |}];
     AIReply.parsed_texts :=
       Some [{| AIReply.raw_text := Some "LOT";
                AIReply.raw_text_position :=
                  Some (list_to_map [("x", 0%Z); ("y", 60%Z);
                                     ("width", 100%Z); ("height", 20%Z)]);
                AIReply.raw_confidence := None |}];
     AIReply.parsed_rest := tt |}.

(** * Properties *)

(** ** The stable sort *)

Lemma lt_asym {K} (lt : K → K → bool) `{!StrictWeak lt} a b :
  lt a b = true → lt b a = false.
Proof.
  intros Hab. destruct (lt b a) eqn:Hba; [|done].
  by rewrite <- (lt_irrefl a), <- (lt_trans a b a Hab Hba).
Qed.

Lemma Qltb_lt a b : Py.Qltb a b = true ↔ (a < b)%Q.
Proof.
  unfold Py.Qltb. rewrite Qlt_alt. destruct (a ?= b)%Q; naive_solver.
Qed.

Lemma Qltb_ge a b : Py.Qltb a b = false ↔ (b <= a)%Q.
Proof.
  rewrite <- not_true_iff_false, Qltb_lt. split.
  - apply Qnot_lt_le.
  - apply Qle_not_lt.
Qed.

#[global] Instance Qltb_strict_weak : StrictWeak Py.Qltb.
Proof.
  split.
  - intros a. apply Qltb_ge, Qle_refl.
  - intros a b c. rewrite !Qltb_lt. apply Qlt_trans.
  - intros a b c. rewrite !Qltb_ge. apply Qle_trans.
Qed.

Section StableSort.
Context {A K : Type} (lt : K → K → bool) (key : A → K).
Local Abbreviation key_le := (key_le lt key).

Lemma insort_perm x l : Py.insort lt key x l ≡ₚ x :: l.
Proof.
  induction l as [|y l IH]; simpl; [done|].
  destruct (lt (key y) (key x)); [|done].
  rewrite IH. apply Permutation_swap.
Qed.

Lemma sorted_perm l : Py.sorted lt key l ≡ₚ l.
Proof.
  induction l as [|x l IH]; simpl; [done|].
  by rewrite insort_perm, IH.
Qed.

Lemma sorted_length l : length (Py.sorted lt key l) = length l.
Proof. by rewrite sorted_perm. Qed.

Lemma sorted_nil_inv l : Py.sorted lt key l = [] → l = [].
Proof.
  intros Hs. apply nil_length_inv. by rewrite <- sorted_length, Hs.
Qed.

Lemma insort_front x l :
  Forall (key_le x) l → Py.insort lt key x l = x :: l.
Proof.
  destruct 1 as [|y l Hy _]; simpl; [done|].
  unfold key_le in Hy. by rewrite Hy.
Qed.

Lemma insort_app x u v :
  Forall (key_le x) v →
  Py.insort lt key x (u ++ v) = Py.insort lt key x u ++ v.
Proof.
  intros Hv. induction u as [|y u IH]; simpl.
  - by apply insort_front.
  - destruct (lt (key y) (key x)); [|done]. by rewrite IH.
Qed.

Context `{!StrictWeak lt}.

Lemma insort_sorted x l :
  StronglySorted key_le l → StronglySorted key_le (Py.insort lt key x l).
Proof.
  induction 1 as [|y l Hl IH Hy]; simpl.
  - repeat constructor.
  - destruct (lt (key y) (key x)) eqn:Hyx.
    + constructor; [done|]. rewrite insort_perm. constructor; [|done].
      by apply (lt_asym lt).
    + constructor; [by constructor|]. constructor; [done|].
      eapply Forall_impl; [exact Hy|]. intros z Hz.
      exact (le_trans _ _ _ Hyx Hz).
Qed.

Lemma sorted_sorted l : StronglySorted key_le (Py.sorted lt key l).
Proof.
  induction l as [|x l IH]; simpl; [constructor|]. by apply insort_sorted.
Qed.

(** A list already in key order is returned as it is. *)
Lemma sorted_id l : StronglySorted key_le l → Py.sorted lt key l = l.
Proof.
  induction 1 as [|x l Hl IH Hx]; simpl; [done|].
  rewrite IH. by apply insort_front.
Qed.

Lemma sorted_idem l :
  Py.sorted lt key (Py.sorted lt key l) = Py.sorted lt key l.
Proof. apply sorted_id, sorted_sorted. Qed.

(** Sorting a concatenation whose left part holds no larger key than its
    right part sorts the two parts separately (stability). *)
Lemma sorted_app l1 l2 :
  Forall (λ a, Forall (key_le a) l2) l1 →
  Py.sorted lt key (l1 ++ l2) = Py.sorted lt key l1 ++ Py.sorted lt key l2.
Proof.
  induction 1 as [|a l1 Ha Hl1 IH]; simpl; [done|].
  rewrite IH. apply insort_app. by rewrite sorted_perm.
Qed.

(** Two insertions commute when the keys differ. *)
Lemma insort_insort a e w :
  lt (key a) (key e) = true →
  Py.insort lt key e (Py.insort lt key a w)
  = Py.insort lt key a (Py.insort lt key e w).
Proof.
  intros Hae. pose proof (lt_asym lt _ _ Hae) as Hea.
  induction w as [|z w IH]; simpl.
  - by rewrite Hae, Hea.
  - destruct (lt (key z) (key a)) eqn:Hza; simpl.
    + rewrite (lt_trans _ _ _ Hza Hae). simpl. by rewrite Hza, IH.
    + rewrite Hae. destruct (lt (key z) (key e)); simpl.
      * by rewrite Hza.
      * by rewrite Hea.
Qed.

End StableSort.

(** Sorting by one key, then by a second, then by the first again. *)
Section TwoKeys.
Context {A K1 K2 : Type} (lt1 : K1 → K1 → bool) (lt2 : K2 → K2 → bool).
Context (k1 : A → K1) (k2 : A → K2).
Context `{!StrictWeak lt1, !StrictWeak lt2}.
Local Abbreviation lex_le := (lex_le lt1 lt2 k1 k2).

Lemma insort_lex a s :
  StronglySorted lex_le s → Forall (key_le lt2 k2 a) s →
  StronglySorted lex_le (Py.insort lt1 k1 a s).
Proof.
  induction 1 as [|e s Hs IH He]; simpl; intros Ha.
  - repeat constructor.
  - apply Forall_cons in Ha as [Hae Has].
    destruct (lt1 (k1 e) (k1 a)) eqn:Hea.
    + constructor; [by apply IH|]. rewrite insort_perm.
      constructor; [|done]. split.
      * by apply (lt_asym lt1).
      * by rewrite Hea.
    + constructor; [by constructor|]. constructor; [done|].
      apply Forall_forall. intros z Hz.
      rewrite Forall_forall in He, Has. split; [|by intros; apply Has].
      destruct (He z Hz) as [Hez _]. exact (le_trans _ _ _ Hea Hez).
Qed.

Lemma sorted_lex r :
  StronglySorted (key_le lt2 k2) r →
  StronglySorted lex_le (Py.sorted lt1 k1 r).
Proof.
  induction 1 as [|a r Hr IH Ha]; simpl; [constructor|].
  apply insort_lex; [done|]. by rewrite sorted_perm.
Qed.

Lemma sorted_insort_other a u :
  Forall (λ e, lt2 (k2 e) (k2 a) = true → lt1 (k1 a) (k1 e) = true) u →
  Py.sorted lt1 k1 (Py.insort lt2 k2 a u)
  = Py.insort lt1 k1 a (Py.sorted lt1 k1 u).
Proof.
  induction 1 as [|e u He Hu IH]; simpl; [done|].
  destruct (lt2 (k2 e) (k2 a)) eqn:Hea; simpl; [|done].
  rewrite IH. by apply insort_insort, He.
Qed.

(** A list in "first key, ties by second" order survives being sorted by
    the second key and then by the first. *)
Lemma sorted_sorted_lex s :
  StronglySorted lex_le s →
  Py.sorted lt1 k1 (Py.sorted lt2 k2 s) = s.
Proof.
  induction 1 as [|a s Hs IH Ha]; simpl; [done|].
  rewrite sorted_insort_other, IH.
  - apply insort_front. eapply Forall_impl; [exact Ha|]. by intros e [? _].
  - rewrite sorted_perm. eapply Forall_impl; [exact Ha|].
    intros e [_ He] Hlt. destruct (lt1 (k1 a) (k1 e)) eqn:Hae; [done|].
    specialize (He eq_refl). unfold key_le in He. congruence.
Qed.

(** Hence for a list [r] in second-key order:
    sort by first, by second, by first again = sort by first. *)
Lemma sorted_sorted_sorted r :
  StronglySorted (key_le lt2 k2) r →
  Py.sorted lt1 k1 (Py.sorted lt2 k2 (Py.sorted lt1 k1 r))
  = Py.sorted lt1 k1 r.
Proof. intros Hr. by apply sorted_sorted_lex, sorted_lex. Qed.

End TwoKeys.

(** ** The reading-order sorter *)

Section SorterFacts.
Context {E : Type} `{!Positioned E} (self : OrderSorter.t).

Local Abbreviation yc := (OrderSorter._get_y_center (E:=E)).
Local Abbreviation xc := (OrderSorter._get_x_center (E:=E)).
Local Abbreviation sortY := (Py.sorted Py.Qltb yc).
Local Abbreviation sortX := (Py.sorted Py.Qltb xc).
Local Abbreviation y_le := (key_le Py.Qltb yc).
Local Abbreviation same_row := (OrderSorter.same_row self).
Local Abbreviation group := (group self).

Lemma y_le_Qle a b : y_le a b ↔ (yc a <= yc b)%Q.
Proof. apply Qltb_ge. Qed.

Lemma same_row_Qle cy oy :
  same_row cy oy = true
  ↔ (Qabs (oy - cy) <= inject_Z (OrderSorter.row_tolerance self))%Q.
Proof. apply Qle_bool_iff. Qed.

#[local] Instance same_row_proper :
  Proper (Qeq ==> Qeq ==> eq) (OrderSorter.same_row self).
Proof.
  intros c c' Hc o o' Ho. unfold OrderSorter.same_row.
  apply Qleb_comp; [|done]. by rewrite Hc, Ho.
Qed.

Lemma same_row_ext cy cy' oy oy' :
  (cy == cy')%Q → (oy == oy')%Q → same_row cy oy = same_row cy' oy'.
Proof. intros Hc Ho. by rewrite Hc, Ho. Qed.

(** A tolerance some pair meets is not negative: every centre is then
    within the tolerance of an equal centre. *)
Lemma same_row_refl cy oy c c' :
  same_row cy oy = true → (c == c')%Q → same_row c c' = true.
Proof.
  rewrite !same_row_Qle. intros Hm Hc.
  assert (Qabs (c' - c) == 0)%Q as ->.
  { rewrite Hc. assert (c' - c' == 0)%Q as -> by ring. done. }
  eapply Qle_trans; [apply Qabs_nonneg|exact Hm].
Qed.

Lemma row_loop rest : ∀ rows cur cy, cur ≠ [] →
  (let '(rows', cur', _) :=
     foldl (OrderSorter.row_step self) (rows, cur, cy) rest in
   match cur' with
   | [] => rows'
   | _ => rows' ++ [cur']
   end) = rows ++ rows_from self cy cur rest.
Proof.
  induction rest as [|obj rest IH]; intros rows cur cy Hcur; simpl.
  - by destruct cur.
  - destruct (same_row cy (yc obj)).
    + rewrite IH; [done|]. by destruct cur.
    + rewrite IH; [|done]. by rewrite <- app_assoc.
Qed.

Lemma group_rows_group l : OrderSorter.group_rows self l = group l.
Proof.
  destruct l as [|first rest]; [done|].
  unfold OrderSorter.group_rows, group.
  by rewrite (row_loop rest [] [first] (yc first)).
Qed.

Lemma concat_rows_from l : ∀ cy cur,
  concat (rows_from self cy cur l) = cur ++ l.
Proof.
  induction l as [|obj l IH]; intros cy cur; simpl.
  - by rewrite app_nil_r.
  - destruct (same_row cy (yc obj)); simpl; rewrite IH; [|done].
    by rewrite <- app_assoc.
Qed.

Lemma concat_group l : concat (group l) = l.
Proof. destruct l; [done|]. apply concat_rows_from. Qed.

Lemma rows_from_head l : ∀ cy cur,
  ∃ members rows, rows_from self cy cur l = (cur ++ members) :: rows.
Proof.
  induction l as [|obj l IH]; intros cy cur; simpl.
  - exists [], []. by rewrite app_nil_r.
  - destruct (same_row cy (yc obj)).
    + destruct (IH cy (cur ++ [obj])) as (m & rows & ->).
      exists (obj :: m), rows. by rewrite <- app_assoc.
    + exists [], (rows_from self (yc obj) [obj] l). by rewrite app_nil_r.
Qed.

Lemma rows_from_anchored l : ∀ seed members,
  Forall (λ obj, same_row (yc seed) (yc obj) = true) members →
  anchored_rows self (rows_from self (yc seed) (seed :: members) l).
Proof.
  induction l as [|obj l IH]; intros seed members Hm; simpl.
  - done.
  - destruct (same_row (yc seed) (yc obj)) eqn:Hrow.
    + apply (IH seed (members ++ [obj])).
      apply Forall_app; split; [done|]. by constructor.
    + specialize (IH obj [] (Forall_nil_2 _)).
      destruct (rows_from_head l (yc obj) [obj]) as (m & rows & Heq).
      rewrite Heq in IH |- *. simpl. done.
Qed.

Lemma group_anchored l : anchored_rows self (group l).
Proof.
  destruct l as [|first rest]; [done|]. by apply rows_from_anchored.
Qed.

Lemma rows_from_app members l : ∀ cy cur,
  Forall (λ obj, same_row cy (yc obj) = true) members →
  match l with
  | [] => True
  | obj :: _ => same_row cy (yc obj) = false
  end →
  rows_from self cy cur (members ++ l) = (cur ++ members) :: group l.
Proof.
  induction members as [|obj members IH]; intros cy cur Hm Hl; simpl.
  - rewrite app_nil_r. destruct l as [|obj l]; [done|]. simpl. by rewrite Hl.
  - apply Forall_cons in Hm as [Hobj Hm]. rewrite Hobj.
    rewrite IH by done. by rewrite <- app_assoc.
Qed.

(** Rows that are anchored at their first members are what the grouping
    loop recovers from their concatenation. *)
Lemma group_concat rows :
  anchored_rows self rows → group (concat rows) = rows.
Proof.
  induction rows as [|row rows IH]; [done|].
  intros (Hrow & Hnext & Hrows). specialize (IH Hrows).
  destruct row as [|seed members]; [done|]. simpl in *.
  rewrite rows_from_app, IH; [done..|].
  destruct rows as [|next rows]; [done|].
  destruct next as [|seed' members']; [done|]. done.
Qed.

Lemma foldl_extend (f : list E → list E) rows : ∀ acc,
  foldl (λ result row, result ++ f row) acc rows
  = acc ++ concat (f <$> rows).
Proof.
  induction rows as [|row rows IH]; intros acc; simpl.
  - by rewrite app_nil_r.
  - by rewrite IH, <- app_assoc.
Qed.

(** [sort_reading_order]: sort by y, group, sort each row by x, join. *)
Lemma sort_reading_order_eq objects :
  OrderSorter.sort_reading_order self objects
  = concat (sortX <$> group (sortY objects)).
Proof.
  destruct objects as [|obj objects]; [done|].
  unfold OrderSorter.sort_reading_order.
  by rewrite foldl_extend, group_rows_group.
Qed.

Lemma concat_fmap_perm (f : list E → list E) rows :
  (∀ row, f row ≡ₚ row) → concat (f <$> rows) ≡ₚ concat rows.
Proof.
  intros Hf. induction rows as [|row rows IH]; simpl; [done|].
  by rewrite Hf, IH.
Qed.

Lemma rows_sorted rows :
  StronglySorted y_le (concat rows) → Forall (StronglySorted y_le) rows.
Proof.
  induction rows as [|row rows IH]; simpl; [done|].
  rewrite StronglySorted_app. intros (_ & Hrow & Hrows).
  constructor; [done|]. by apply IH.
Qed.

Lemma sortY_concat rows :
  StronglySorted y_le (concat rows) →
  sortY (concat (sortX <$> rows))
  = concat ((λ row, sortY (sortX row)) <$> rows).
Proof.
  induction rows as [|row rows IH]; csimpl; [done|].
  rewrite StronglySorted_app. intros (Hcross & _ & Hrows).
  rewrite sorted_app; [by rewrite IH|].
  apply Forall_forall. intros a Ha. apply Forall_forall. intros b Hb.
  apply Hcross.
  - by rewrite sorted_perm in Ha.
  - by rewrite (concat_fmap_perm sortX) in Hb by apply sorted_perm.
Qed.

(** Reordering a row among objects of the same multiset, keeping it in
    y order, keeps it anchored, at a centre equal to the old anchor. *)
Lemma anchored_row_perm seed members seed' members' :
  seed' :: members' ≡ₚ seed :: members →
  StronglySorted y_le (seed :: members) →
  StronglySorted y_le (seed' :: members') →
  anchored_row self (seed :: members) →
  (yc seed' == yc seed)%Q ∧ anchored_row self (seed' :: members').
Proof.
  intros Hperm Hs Hs' Hrow.
  apply StronglySorted_cons in Hs as [Hseed _].
  apply StronglySorted_cons in Hs' as [Hseed' _].
  rewrite Forall_forall in Hseed, Hseed'.
  assert (yc seed' == yc seed)%Q as Heq.
  { apply Qle_antisym.
    - assert (seed ∈ seed' :: members') as Hin by (rewrite Hperm; left).
      apply elem_of_cons in Hin as [->|Hin]; [apply Qle_refl|].
      by apply y_le_Qle, Hseed'.
    - assert (seed' ∈ seed :: members) as Hin by (rewrite <- Hperm; left).
      apply elem_of_cons in Hin as [->|Hin]; [apply Qle_refl|].
      by apply y_le_Qle, Hseed. }
  split; [done|]. simpl in *. rewrite Forall_forall in Hrow |- *.
  intros obj Hobj.
  assert (obj ∈ seed :: members) as Hin by (rewrite <- Hperm; by right).
  apply elem_of_cons in Hin as [->|Hin].
  - destruct members as [|m members].
    + apply Permutation_length in Hperm. destruct members'; [|done].
      by apply elem_of_nil in Hobj.
    + eapply (same_row_refl (yc seed) (yc m)); [|done].
      apply Hrow. left.
  - rewrite Heq. by apply Hrow.
Qed.

Lemma anchored_rows_cons row rows :
  anchored_rows self (row :: rows)
  ↔ anchored_row self row
    ∧ match rows with
      | [] => True
      | next :: _ => row_break self row next
      end
    ∧ anchored_rows self rows.
Proof. done. Qed.

Lemma anchored_rows_resort rows :
  anchored_rows self rows → Forall (StronglySorted y_le) rows →
  anchored_rows self ((λ row, sortY (sortX row)) <$> rows).
Proof.
  assert (∀ row : list E, anchored_row self row → StronglySorted y_le row →
    ∃ seed members seed' members',
      row = seed :: members ∧ sortY (sortX row) = seed' :: members'
      ∧ (yc seed' == yc seed)%Q ∧ anchored_row self (seed' :: members'))
    as Hone.
  { intros row Hrow Hs. destruct row as [|seed members]; [done|].
    destruct (sortY (sortX (seed :: members))) as [|seed' members'] eqn:Hr.
    { by apply sorted_nil_inv, sorted_nil_inv in Hr. }
    exists seed, members, seed', members'. split; [done|]. split; [done|].
    apply (anchored_row_perm seed members); [|done| |done].
    - by rewrite <- Hr, !sorted_perm.
    - rewrite <- Hr. apply sorted_sorted, _. }
  induction rows as [|row rows IH]; [done|].
  intros (Hrow & Hnext & Hrows) Hs. apply Forall_cons in Hs as [Hs Hss].
  destruct (Hone row Hrow Hs) as (seed & ms & seed' & ms' & -> & Hr & Heq & Ha).
  rewrite fmap_cons, anchored_rows_cons. cbn beta. rewrite Hr.
  split; [done|]. split; [|by apply IH].
  destruct rows as [|next rows]; [done|]. rewrite fmap_cons. cbn beta.
  destruct Hrows as (Hnrow & _ & _). apply Forall_cons in Hss as [Hns _].
  destruct (Hone next Hnrow Hns) as (s2 & m2 & s2' & m2' & -> & Hr2 & Heq2 & _).
  rewrite Hr2. unfold row_break in Hnext |- *. by rewrite Heq, Heq2.
Qed.

(** Reading order applied to a list already in reading order. *)
Lemma sort_reading_order_idem objects :
  OrderSorter.sort_reading_order self
    (OrderSorter.sort_reading_order self objects)
  = OrderSorter.sort_reading_order self objects.
Proof.
  rewrite !sort_reading_order_eq.
  set (rows := group (sortY objects)).
  assert (StronglySorted y_le (concat rows)) as Hsorted.
  { unfold rows. rewrite concat_group. apply sorted_sorted, _. }
  pose proof (rows_sorted _ Hsorted) as Hrows.
  rewrite sortY_concat, group_concat by
    (done || by apply anchored_rows_resort; [apply group_anchored|]).
  rewrite <- list_fmap_compose. f_equal. apply Forall_fmap_ext.
  eapply Forall_impl; [exact Hrows|]. intros row Hrow. simpl.
  apply (sorted_sorted_sorted Py.Qltb Py.Qltb xc yc), Hrow.
Qed.

End SorterFacts.

(** ** The association scorer *)

Lemma elem_of_enumerate {A} (l : list A) (i : nat) (x : A) :
  (i, x) ∈ Py.enumerate l ↔ l !! i = Some x.
Proof.
  unfold Py.enumerate. rewrite list_elem_of_lookup. split.
  - intros [k Hk]. apply lookup_zip_with_Some in Hk as (a & b & Heq & Ha & Hb).
    apply lookup_seq in Ha as [-> _]. by simplify_eq/=.
  - intros Hi. exists i. apply lookup_zip_with_Some. exists i, x.
    split; [done|]. split; [|done].
    apply lookup_seq. split; [done|]. by eapply lookup_lt_Some.
Qed.

Section AssocFacts.
Import AssociationAnalyzer.
Context (self : AssociationAnalyzer.t).

Local Abbreviation text_loop_spec := (text_loop_spec self).
Local Abbreviation barcode_loop_spec := (barcode_loop_spec self).

Lemma text_loop barcode items : ∀ associations used associations' used',
  Py.for_each (text_step self barcode) items (associations, used)
  = inr (associations', used') →
  ∃ new, associations' = associations ++ new
         ∧ text_loop_spec barcode items used used' new.
Proof.
  induction items as [|[idx text_region] items IH];
    intros associations used associations' used' Hrun; simpl in Hrun.
  - injection Hrun as <- <-. exists []. rewrite app_nil_r. split; [done|].
    split; set_solver.
  - unfold text_step at 1 in Hrun. case_decide as Hidx; simpl in Hrun.
    { apply IH in Hrun as (new & -> & [H1 H2 H3 H4 H5]).
      exists new. split; [done|]. split; try done.
      intros i a Hin. destruct (H3 i a Hin) as (tr & ? & ?).
      exists tr. split; [by right|done]. }
    destruct (_calculate_association_score self barcode text_region)
      as [e|score] eqn:Hscore; simpl in Hrun; [done|].
    destruct (PrimFloat.leb (weak_threshold self) score) eqn:Hweak.
    2:{ apply IH in Hrun as (new & -> & [H1 H2 H3 H4 H5]).
        exists new. split; [done|]. split; try done.
        intros i a Hin. destruct (H3 i a Hin) as (tr & ? & ?).
        exists tr. split; [by right|done]. }
    destruct (PrimFloat.leb (strong_threshold self) score) eqn:Hstrong;
      simpl in Hrun;
      apply IH in Hrun as (new & -> & [H1 H2 H3 H4 H5]);
      eexists (_ :: new); (split; [by rewrite <- app_assoc|]).
    + split.
      * set_solver.
      * intros i a [Heq|Hin]%elem_of_cons; [by simplify_eq|].
        apply H2 in Hin. set_solver.
      * intros i a [Heq|Hin]%elem_of_cons.
        -- simplify_eq. exists text_region. split; [left|done].
        -- destruct (H3 i a Hin) as (tr & ? & ?).
           exists tr. split; [by right|done].
      * intros i a [Heq|Hin]%elem_of_cons Hs; [|by eapply H4].
        simplify_eq. apply H1. set_solver.
      * intros i Hi. apply H5 in Hi as [Hi|(a & Hin & Hs)].
        -- apply elem_of_union in Hi as [Hi|Hi]; [|by left].
           apply elem_of_singleton in Hi as ->. right.
           eexists. split; [left|done].
        -- right. exists a. split; [by right|done].
    + split.
      * done.
      * intros i a [Heq|Hin]%elem_of_cons; [by simplify_eq|]. by eapply H2.
      * intros i a [Heq|Hin]%elem_of_cons.
        -- simplify_eq. exists text_region. split; [left|done].
        -- destruct (H3 i a Hin) as (tr & ? & ?).
           exists tr. split; [by right|done].
      * intros i a [Heq|Hin]%elem_of_cons Hs; [|by eapply H4].
        by simplify_eq.
      * intros i Hi. apply H5 in Hi as [Hi|(a & Hin & Hs)]; [by left|].
        right. exists a. split; [by right|done].
Qed.

Lemma elem_of_sorted_reverse {A K} (lt : K → K → bool) (key : A → K)
    (x : A) (l : list A) :
  x ∈ Py.sorted_reverse lt key l ↔ x ∈ l.
Proof. unfold Py.sorted_reverse. by rewrite sorted_perm. Qed.

Lemma barcode_loop text_regions barcodes : ∀ results used results' used',
  Py.for_each (barcode_step self text_regions) barcodes (results, used)
  = inr (results', used') →
  ∃ new, results' = results ++ new
         ∧ barcode_loop_spec barcodes text_regions used used' new.
Proof.
  induction barcodes as [|barcode barcodes IH];
    intros results used results' used' Hrun; simpl in Hrun.
  - injection Hrun as <- <-. exists []. rewrite app_nil_r. split; [done|].
    split; set_solver.
  - unfold barcode_step at 1 in Hrun.
    destruct (Py.for_each (text_step self barcode) (Py.enumerate text_regions)
                ([], used)) as [e|[associations used1]] eqn:Hinner;
      simpl in Hrun; [done|].
    apply text_loop in Hinner as (new1 & Hnew1 & [T1 T2 T3 T4 T5]).
    simpl in Hnew1. subst associations.
    apply IH in Hrun as (new & -> & [B1 B2 B3 B4 B5 B6 B7]).
    set (r0 := {| r_barcode := barcode;
                  related_text :=
                    Py.sorted_reverse PrimFloat.ltb (λ x, a_score x.2) new1;
                  has_association := _ |}).
    exists (r0 :: new). split; [by rewrite <- app_assoc|].
    assert (∀ idx a, (idx, a) ∈ related_text r0 ↔ (idx, a) ∈ new1) as Hr0.
    { intros idx a. apply elem_of_sorted_reverse. }
    split.
    + simpl. by rewrite B1.
    + by etrans.
    + intros r idx a [->|Hr]%elem_of_cons Hin.
      * apply Hr0 in Hin. by eapply T2.
      * intros Hu. by eapply (B3 r idx a), T1.
    + intros [|i] r Hi; simpl in Hi.
      * injection Hi as <-. exists barcode. split; [done|]. split; [done|].
        intros idx a Hin. apply Hr0 in Hin.
        destruct (T3 idx a Hin) as (tr & Htr & ?).
        exists tr. by rewrite <- elem_of_enumerate.
      * by apply B4.
    + intros r idx a [->|Hr]%elem_of_cons Hin Hs.
      * apply Hr0 in Hin. by eapply B2, T4.
      * by eapply B5.
    + intros [|i] [|j] ri rj idx a Hij Hi Hj Hin Hs; simpl in Hi, Hj;
        try lia.
      * injection Hi as <-. apply Hr0 in Hin.
        intros ([idx' a'] & Heq & Hin')%list_elem_of_fmap. simpl in Heq.
        subst idx'. eapply (B3 rj idx a').
        -- by eapply list_elem_of_lookup_2.
        -- done.
        -- by eapply T4.
      * eapply (B6 i j); [lia|done..].
    + intros idx Hu. apply B7 in Hu as [Hu|(r & a & Hr & Hin & Hs)].
      * apply T5 in Hu as [Hu|(a & Hin & Hs)]; [by left|].
        right. exists r0, a. split; [left|]. by rewrite Hr0.
      * right. exists r, a. split; [by right|done].
Qed.

Lemma elem_of_independent text_regions used idx it :
  (idx, it) ∈ independent text_regions used
  ↔ ∃ text_region, text_regions !! idx = Some text_region
      ∧ (idx ∉ used)
      ∧ it = {| i_text := tr_text text_region;
                i_position := tr_position text_region;
                i_type := "independent" |}.
Proof.
  unfold independent. rewrite list_elem_of_fmap. split.
  - intros ([i tr] & Heq & Hin). simplify_eq.
    apply list_elem_of_filter in Hin as [Hu Hin].
    apply elem_of_enumerate in Hin. by exists tr.
  - intros (tr & Htr & Hu & ->). exists (idx, tr). split; [done|].
    apply list_elem_of_filter. split; [done|]. by apply elem_of_enumerate.
Qed.

End AssocFacts.

(** ** The enhancement ensemble *)

Lemma elem_of_concat {A} (x : A) (ls : list (list A)) :
  x ∈ concat ls ↔ ∃ l, l ∈ ls ∧ x ∈ l.
Proof.
  induction ls as [|l ls IH]; simpl.
  - split; [by intros ?%elem_of_nil|]. by intros (l & ?%elem_of_nil & _).
  - rewrite elem_of_app, IH. split.
    + intros [Hx|(l' & ? & ?)]; [exists l; split; [left|done]|].
      exists l'. split; [by right|done].
    + intros (l' & [->|Hl]%elem_of_cons & Hx); [by left|].
      right. by exists l'.
Qed.

Section DetectorFacts.
Import BarcodeDetector.

Lemma merge_first_seen barcodes : ∀ all_barcodes detected_data,
  merge (all_barcodes, detected_data) barcodes
  = (all_barcodes ++ first_seen detected_data barcodes,
     detected_data ∪ list_to_set (barcode_data <$> barcodes)).
Proof.
  induction barcodes as [|bc barcodes IH]; intros all_barcodes seen.
  - simpl. rewrite app_nil_r. f_equal. set_solver.
  - unfold merge in *. simpl. case_decide as Hin.
    + rewrite IH. f_equal. set_solver.
    + rewrite IH, <- app_assoc. f_equal. set_solver.
Qed.

Lemma merge_upscaled_merge barcodes : ∀ st,
  merge_upscaled st barcodes = merge st (to_original_frame <$> barcodes).
Proof.
  induction barcodes as [|bc barcodes IH]; intros [all_barcodes seen];
    [done|].
  unfold merge_upscaled, merge in *. simpl. case_decide; apply IH.
Qed.

Lemma merge_app st l1 l2 : merge st (l1 ++ l2) = merge (merge st l1) l2.
Proof. apply foldl_app. Qed.

Lemma first_seen_fresh stream : ∀ seen bc,
  bc ∈ first_seen seen stream → barcode_data bc ∉ seen.
Proof.
  induction stream as [|x stream IH]; intros seen bc; simpl.
  - by intros ?%elem_of_nil.
  - case_decide as Hx.
    + apply IH.
    + intros [->|Hin]%elem_of_cons; [done|].
      apply IH in Hin. set_solver.
Qed.

Lemma first_seen_sublist stream : ∀ seen bc,
  bc ∈ first_seen seen stream → bc ∈ stream.
Proof.
  induction stream as [|x stream IH]; intros seen bc; simpl; [done|].
  case_decide.
  - intros Hin. right. by eapply IH.
  - intros [->|Hin]%elem_of_cons; [left|right]. by eapply IH.
Qed.

Lemma first_seen_NoDup stream : ∀ seen,
  NoDup (barcode_data <$> first_seen seen stream).
Proof.
  induction stream as [|x stream IH]; intros seen; simpl.
  - constructor.
  - case_decide; [apply IH|]. csimpl. constructor; [|apply IH].
    intros (bc & Heq & Hin)%list_elem_of_fmap.
    apply first_seen_fresh in Hin. set_solver.
Qed.

Lemma filter_first_seen_seen stream : ∀ seen p,
  p ∈ seen →
  filter (λ o, barcode_data o = p) (first_seen seen stream) = [].
Proof.
  induction stream as [|x stream IH]; intros seen p Hp; simpl; [done|].
  case_decide as Hx; [by apply IH|].
  rewrite filter_cons_False by (intros Heq; apply Hx; by rewrite Heq).
  apply IH. set_solver.
Qed.

(** Every detection of the stream whose payload is new has its payload
    exactly once in the outcome, on the first detection carrying it. *)
Lemma first_seen_first stream : ∀ seen bc,
  bc ∈ stream → barcode_data bc ∉ seen →
  ∃ first pre post,
    stream = pre ++ first :: post
    ∧ barcode_data first = barcode_data bc
    ∧ (barcode_data bc ∉ barcode_data <$> pre)
    ∧ filter (λ o, barcode_data o = barcode_data bc) (first_seen seen stream)
      = [first].
Proof.
  induction stream as [|x stream IH]; intros seen bc Hin Hnew.
  { by apply elem_of_nil in Hin. }
  destruct (decide (barcode_data x = barcode_data bc)) as [Heq|Hne].
  - exists x, [], stream. split; [done|]. split; [done|].
    split; [by intros ?%elem_of_nil|].
    simpl. case_decide as Hx; [by rewrite Heq in Hx|].
    rewrite filter_cons_True by done.
    rewrite filter_first_seen_seen; [done|]. set_solver.
  - apply elem_of_cons in Hin as [->|Hin]; [done|]. simpl.
    case_decide as Hx.
    + destruct (IH seen bc Hin Hnew) as (first & pre & post & -> & ? & ? & ?).
      exists first, (x :: pre), post. split; [done|]. split; [done|].
      split; [|done]. csimpl. by apply not_elem_of_cons.
    + destruct (IH ({[barcode_data x]} ∪ seen) bc Hin)
        as (first & pre & post & -> & ? & ? & Hf); [set_solver|].
      exists first, (x :: pre), post. split; [done|]. split; [done|].
      split; [csimpl; by apply not_elem_of_cons|].
      by rewrite filter_cons_False.
Qed.

Lemma merge_nil_fst barcodes :
  (merge ([], ∅) barcodes).1 = first_seen ∅ barcodes.
Proof. by rewrite merge_first_seen. Qed.

Section Engine.
Context {Image : Type} (cv2 : Cv2 Image).
Context (pyzbar_decode : Image → Py.py (list Decoded)).
Context (elapsed_ms : Image → nat → Z).

(** The ensemble keeps, of the variants' detections read in order, the
    first of each payload. *)
Lemma decode_with_enhancement_first_seen image :
  decode_with_enhancement cv2 pyzbar_decode elapsed_ms image
  = first_seen ∅
      (concat (variant_detections cv2 pyzbar_decode elapsed_ms image)).
Proof.
  unfold decode_with_enhancement, variant_detections.
  destruct (shape cv2 _) as [height width] eqn:Hshape. simpl fst. simpl snd.
  repeat case_decide; cbn [app concat]; rewrite <- merge_nil_fst, !merge_app;
    by rewrite ?merge_upscaled_merge.
Qed.

End Engine.

End DetectorFacts.

(** ** order_sorter.py: the statements of the specification *)

Section SorterTheorems.
Context {E : Type} `{!Positioned E} (self : OrderSorter.t).

Local Abbreviation yc := (OrderSorter._get_y_center (E:=E)).
Local Abbreviation xc := (OrderSorter._get_x_center (E:=E)).
Local Abbreviation sortY := (Py.sorted Py.Qltb yc).
Local Abbreviation sortX := (Py.sorted Py.Qltb xc).

(** The dispatch of [sort], the empty list included: every branch
    returns the empty list on it. *)
Lemma sort_dispatch (objects : list E) (order : string) :
  OrderSorter.sort self objects order =
    if decide (order = "top_to_bottom")
    then OrderSorter.sort_top_to_bottom objects
    else if decide (order = "left_to_right")
    then OrderSorter.sort_left_to_right objects
    else if decide (order = "grid_order")
    then OrderSorter.sort_grid_order self objects
    else OrderSorter.sort_reading_order self objects.
Proof. destruct objects; [|done]. simpl. by repeat case_decide. Qed.

Lemma sort_reading_order_perm (objects : list E) :
  OrderSorter.sort_reading_order self objects ≡ₚ objects.
Proof.
  rewrite sort_reading_order_eq.
  rewrite concat_fmap_perm by apply sorted_perm.
  by rewrite concat_group, sorted_perm.
Qed.

(** A list already in top-to-bottom order is returned unchanged; so is
    one whose centres are all equal (stability). *)
Lemma sort_top_to_bottom_sorted (objects : list E) :
  StronglySorted (key_le Py.Qltb yc) objects →
  OrderSorter.sort_top_to_bottom objects = objects.
Proof. apply sorted_id. Qed.

Lemma sort_left_to_right_sorted (objects : list E) :
  StronglySorted (key_le Py.Qltb xc) objects →
  OrderSorter.sort_left_to_right objects = objects.
Proof. apply sorted_id. Qed.

(** C7. Sorting twice under the same order mode gives what sorting once
    gives, for every list of objects, every order mode (recognised or
    not) and every row tolerance. *)
Theorem sort_idempotent (objects : list E) (order : string) :
  OrderSorter.sort self (OrderSorter.sort self objects order) order
  = OrderSorter.sort self objects order.
Proof.
  rewrite !sort_dispatch. unfold OrderSorter.sort_grid_order.
  repeat case_decide.
  - apply sorted_idem, _.
  - apply sorted_idem, _.
  - apply sort_reading_order_idem.
  - apply sort_reading_order_idem.
Qed.

(** C10. Under every order mode the output of [sort] is a permutation of
    its input: the same objects, each as often as in the input. *)
Theorem sort_permutation (objects : list E) (order : string) :
  OrderSorter.sort self objects order ≡ₚ objects.
Proof.
  rewrite sort_dispatch. unfold OrderSorter.sort_grid_order.
  repeat case_decide; first [apply sorted_perm | apply sort_reading_order_perm].
Qed.

(** C9. Any order mode other than "top_to_bottom", "left_to_right" and
    "grid_order" (so also an unrecognised string) silently sorts in
    reading order. *)
Theorem sort_unknown_mode_is_reading_order (objects : list E) (order : string) :
  order ≠ "top_to_bottom" → order ≠ "left_to_right" → order ≠ "grid_order" →
  OrderSorter.sort self objects order
  = OrderSorter.sort_reading_order self objects.
Proof. intros. rewrite sort_dispatch. by repeat case_decide. Qed.

(** Objects with pairwise different centres, given in any order, come
    out of the y sort in the order of their centres. *)
Lemma sortY_three (a b c : E) (l : list E) :
  (yc a < yc b)%Q → (yc b < yc c)%Q → l ≡ₚ [a; b; c] → sortY l = [a; b; c].
Proof.
  intros Hab Hbc Hl.
  assert (yc a < yc c)%Q as Hac by (by eapply Qlt_trans).
  apply (StronglySorted_unique_strong (key_le Py.Qltb yc)).
  - intros x1 x2 H1 H2. rewrite sorted_perm, Hl in H1.
    unfold key_le. rewrite !Qltb_ge.
    set_unfold. intros Hle1 Hle2.
    destruct H1 as [->|[->|[->|[]]]], H2 as [->|[->|[->|[]]]]; try done;
      exfalso;
      first [ by apply (Qlt_not_le _ _ Hab)
            | by apply (Qlt_not_le _ _ Hbc)
            | by apply (Qlt_not_le _ _ Hac) ].
  - apply sorted_sorted, _.
  - repeat constructor; unfold key_le; rewrite Qltb_ge;
      by apply Qlt_le_weak.
  - by rewrite sorted_perm.
Qed.

(** C4. The rows [sort_reading_order] forms from the y-sorted list are
    anchored at their first members: the reference centre of a row is
    the centre of its seed and stays so while members join; an object joins
    the open row iff its centre is within [row_tolerance] of that anchor,
    and otherwise seeds the next row. The rows are the only split of the
    y-sorted list of this kind, and the result is their concatenation,
    each sorted by x. In particular objects with y-centres 0, 25 and 55,
    in any input order, are grouped under tolerance 30 as the row of 0 and
    25 followed by the row of 55. *)
Theorem reading_order_rows_anchored (objects : list E) :
  let y_sorted := Py.sorted Py.Qltb yc objects in
  let rows := OrderSorter.group_rows self y_sorted in
  (concat rows = y_sorted
   ∧ anchored_rows self rows
   ∧ (∀ rows', concat rows' = y_sorted → anchored_rows self rows' →
        rows' = rows)
   ∧ OrderSorter.sort_reading_order self objects
     = concat (Py.sorted Py.Qltb xc <$> rows))
  ∧ (∀ a b c : E,
       OrderSorter.row_tolerance self = 30%Z →
       (yc a == 0)%Q → (yc b == 25)%Q → (yc c == 55)%Q →
       objects ≡ₚ [a; b; c] →
       rows = [[a; b]; [c]]).
Proof.
  intros y_sorted rows. unfold rows. rewrite group_rows_group.
  split; [split; [|split; [|split]]|].
  - apply concat_group.
  - apply group_anchored.
  - intros rows' <- Hrows'. by rewrite group_concat.
  - apply sort_reading_order_eq.
  - intros a b c Htol Ha Hb Hc Hl. unfold y_sorted.
    rewrite (sortY_three a b c) by (by rewrite ?Ha, ?Hb, ?Hc).
    simpl.
    rewrite (same_row_ext self _ _ _ _ Ha Hb).
    replace (OrderSorter.same_row self 0 25) with true
      by (unfold OrderSorter.same_row; by rewrite Htol).
    simpl.
    rewrite (same_row_ext self _ _ _ _ Ha Hc).
    replace (OrderSorter.same_row self 0 55) with false
      by (unfold OrderSorter.same_row; by rewrite Htol).
    done.
Qed.

End SorterTheorems.

Section Numbering.
Context {A : Type} `{!Numbered A}.

Lemma number_loop (objects : list loc) : ∀ (k : nat) (h : heap A),
  NoDup objects → Forall (λ obj, is_Some (h !! obj)) objects →
  let h' := foldl (λ h '(idx, obj), alter (set_order (Z.of_nat idx + 1)) obj h)
              h (zip (seq k (length objects)) objects) in
  (∀ i obj, objects !! i = Some obj →
     h' !! obj = set_order (Z.of_nat (k + i) + 1) <$> h !! obj)
  ∧ (∀ obj, obj ∉ objects → h' !! obj = h !! obj).
Proof.
  induction objects as [|o objects IH]; intros k h Hnd Hall; simpl.
  - split; [intros i obj Hi; by rewrite lookup_nil in Hi|done].
  - apply NoDup_cons in Hnd as [Ho Hnd]. apply Forall_cons in Hall as [_ Hall].
    set (h1 := alter (set_order (Z.of_nat k + 1)) o h).
    destruct (IH (S k) h1 Hnd) as [Hin Hout].
    { eapply Forall_impl; [exact Hall|]. intros l Hl. unfold h1.
      by rewrite lookup_alter_is_Some. }
    split.
    + intros [|i] obj Hi; simpl in Hi.
      * injection Hi as <-. rewrite Hout by done. unfold h1.
        by rewrite lookup_alter_eq, Nat.add_0_r.
      * rewrite (Hin i obj Hi). unfold h1.
        rewrite lookup_alter_ne.
        -- by rewrite Nat.add_succ_r.
        -- intros ->. apply Ho. by eapply list_elem_of_lookup_2.
    + intros obj Hobj. apply not_elem_of_cons in Hobj as [Hne Hobj].
      rewrite Hout by done. unfold h1.
      by rewrite lookup_alter_ne.
Qed.

(** On pairwise distinct live objects the mutation agrees with the
    by-value reading. *)
Lemma add_order_numbers_fresh_spec (h : heap A) (objects : list loc)
    (values : list A) :
  NoDup objects → (λ obj, h !! obj) <$> objects = Some <$> values →
  (λ obj, (OrderSorter.add_order_numbers h objects).1 !! obj) <$> objects
  = Some <$> OrderSorter.add_order_numbers_fresh values.
Proof.
  intros Hnd Hv.
  assert (length objects = length values) as Hlen.
  { by rewrite <- (length_fmap (λ obj, h !! obj)), Hv, length_fmap. }
  assert (∀ i obj, objects !! i = Some obj → h !! obj = values !! i) as Hval.
  { intros i obj Hi.
    assert (((λ obj, h !! obj) <$> objects) !! i = Some (h !! obj)) as Hl
      by (by rewrite list_lookup_fmap, Hi).
    rewrite Hv, list_lookup_fmap in Hl.
    destruct (values !! i); by simplify_eq/=. }
  destruct (number_loop objects 0 h Hnd) as [Hin _].
  { apply Forall_forall. intros obj Hobj.
    apply list_elem_of_lookup in Hobj as [i Hi].
    rewrite (Hval i obj Hi). apply lookup_lt_is_Some.
    rewrite <- Hlen. by eapply lookup_lt_Some. }
  apply list_eq. intros i. unfold OrderSorter.add_order_numbers. simpl.
  unfold OrderSorter.add_order_numbers_fresh, Py.enumerate.
  rewrite !list_lookup_fmap.
  destruct (objects !! i) as [obj|] eqn:Hi; simpl.
  - rewrite (Hin i obj Hi), (Hval i obj Hi).
    destruct (values !! i) as [v|] eqn:Hvi.
    + rewrite lookup_zip_with, Hvi.
      rewrite lookup_seq_lt by (rewrite <- Hlen; by eapply lookup_lt_Some).
      done.
    + apply lookup_lt_Some in Hi. apply lookup_ge_None in Hvi. lia.
  - apply lookup_ge_None in Hi.
    rewrite (proj2 (lookup_ge_None _ i)); [done|].
    rewrite length_zip_with, length_seq. lia.
Qed.

(** C5 (as amended). On a list of N pairwise distinct live objects
    [add_order_numbers] returns the same list, and the "order" values
    read along it are 1, 2, ..., N in list position order. *)
Theorem add_order_numbers_distinct (h : heap A) (objects : list loc) :
  NoDup objects → Forall (λ obj, is_Some (h !! obj)) objects →
  (OrderSorter.add_order_numbers h objects).2 = objects
  ∧ OrderSorter.order_values (OrderSorter.add_order_numbers h objects).1
      (OrderSorter.add_order_numbers h objects).2
    = (λ i, Some (Z.of_nat i)) <$> seq 1 (length objects).
Proof.
  intros Hnd Hall. split; [done|]. simpl.
  destruct (number_loop objects 0 h Hnd Hall) as [Hin _].
  apply list_eq. intros i. unfold OrderSorter.order_values.
  rewrite !list_lookup_fmap.
  destruct (objects !! i) as [obj|] eqn:Hi; simpl.
  - rewrite lookup_seq_lt by (by eapply lookup_lt_Some). simpl.
    unfold OrderSorter.add_order_numbers, Py.enumerate. simpl.
    rewrite (Hin i obj Hi).
    rewrite Forall_forall in Hall.
    destruct (Hall obj) as [a ->]; [by eapply list_elem_of_lookup_2|].
    simpl. rewrite get_set_order. do 2 f_equal. lia.
  - apply lookup_ge_None in Hi. by rewrite lookup_seq_ge.
Qed.

End Numbering.

(** C5, witness: three distinct dicts. *)
Lemma add_order_numbers_distinct_witness :
  let h : heap DictObj :=
    {[ 0%nat := dict_obj 0 0 10 10 "a"; 1%nat := dict_obj 0 40 10 10 "b";
       2%nat := dict_obj 0 80 10 10 "c" ]} in
  let objects := [2%nat; 0%nat; 1%nat] in
  (OrderSorter.add_order_numbers h objects).2 = objects
  ∧ OrderSorter.order_values (OrderSorter.add_order_numbers h objects).1
      (OrderSorter.add_order_numbers h objects).2
    = [Some 1%Z; Some 2%Z; Some 3%Z].
Proof.
  intros h objects. apply (add_order_numbers_distinct h objects).
  - apply (bool_decide_unpack _). vm_compute. exact I.
  - unfold objects, h. repeat constructor; by eexists.
Defined.

(** C5, counterexample to the claim as stated: a list that holds the
    same dict twice. The second assignment overwrites the first, and
    both positions read 2. *)
Lemma add_order_numbers_aliased :
  let h : heap DictObj := {[ 0%nat := dict_obj 0 0 10 10 "a" ]} in
  let objects := [0%nat; 0%nat] in
  Forall (λ obj, is_Some (h !! obj)) objects
  ∧ OrderSorter.order_values (OrderSorter.add_order_numbers h objects).1
      (OrderSorter.add_order_numbers h objects).2
    = [Some 2%Z; Some 2%Z]
  ∧ OrderSorter.order_values (OrderSorter.add_order_numbers h objects).1
      (OrderSorter.add_order_numbers h objects).2
    ≠ (λ i, Some (Z.of_nat i)) <$> seq 1 (length objects).
Proof.
  split; [|split].
  - repeat constructor; by eexists.
  - by vm_compute.
  - by vm_compute.
Qed.

(** C9, witness: the mode "zigzag" on three labels. *)
Lemma sort_unknown_mode_witness :
  let objects := [dict_obj 0 55 10 0 "c"; dict_obj 40 0 10 0 "a";
                  dict_obj 0 25 10 0 "b"] in
  OrderSorter.sort OrderSorter.init objects "zigzag"
  = OrderSorter.sort_reading_order OrderSorter.init objects.
Proof.
  intros objects.
  apply (sort_unknown_mode_is_reading_order OrderSorter.init objects "zigzag");
    discriminate.
Defined.

(** C4, witness: the example of the specification, the three labels
    given bottom-up. *)
Lemma reading_order_rows_witness :
  let a := dict_obj 40 0 10 0 "a" in
  let b := dict_obj 0 25 10 0 "b" in
  let c := dict_obj 0 55 10 0 "c" in
  OrderSorter.group_rows OrderSorter.init
    (Py.sorted Py.Qltb OrderSorter._get_y_center [c; b; a])
  = [[a; b]; [c]].
Proof.
  intros a b c.
  apply (proj2 (reading_order_rows_anchored OrderSorter.init [c; b; a]) a b c).
  - reflexivity.
  - reflexivity.
  - reflexivity.
  - reflexivity.
  - apply (perm_trans (l' := [b; c; a])); [apply perm_swap|].
    apply (perm_trans (l' := [b; a; c])); [apply perm_skip|]; apply perm_swap.
Defined.

(** The example, run: rows of 0 and 25, then 55; within the first row
    the object at y-centre 25 comes first, being further left. *)
Example reading_order_example :
  do_tag <$> OrderSorter.sort OrderSorter.init
               [dict_obj 0 55 10 0 "c"; dict_obj 40 0 10 0 "a";
                dict_obj 0 25 10 0 "b"] "reading_order"
  = ["b"; "a"; "c"].
Proof. by vm_compute. Qed.

(** ** association_analyzer.py: the statements of the specification *)

Section AssocTheorems.
Import AssociationAnalyzer.
Context (self : AssociationAnalyzer.t).

(** The whole run, in terms of the final set of used indices. *)
Lemma associate_run barcodes text_regions results independent_text :
  associate_text_with_barcodes self barcodes text_regions
  = inr (results, independent_text) →
  ∃ used, barcode_loop_spec self barcodes text_regions ∅ used results
          ∧ independent_text = independent text_regions used.
Proof.
  unfold associate_text_with_barcodes. intros Hrun.
  destruct (Py.for_each (barcode_step self text_regions) barcodes ([], ∅))
    as [e|[results' used]] eqn:Hloop; simpl in Hrun; [done|].
  injection Hrun as <- <-.
  apply barcode_loop in Hloop as (new & -> & Hspec).
  by exists used.
Qed.

(** The scorer returns whenever no barcode has a search radius of zero
    (the only exception it can raise is the division by that radius). *)
Lemma associate_returns barcodes text_regions :
  Forall (λ barcode, PrimFloat.eqb (max_radius self barcode) 0 = false)
    barcodes →
  ∃ results independent_text,
    associate_text_with_barcodes self barcodes text_regions
    = inr (results, independent_text).
Proof.
  intros Hall. unfold associate_text_with_barcodes.
  assert (∀ barcode items st,
            PrimFloat.eqb (max_radius self barcode) 0 = false →
            ∃ st', Py.for_each (text_step self barcode) items st = inr st')
    as Hinner.
  { intros barcode items Hst Hnz.
    induction items as [|[idx tr] items IH] in Hst |- *; simpl; [by eexists|].
    destruct Hst as [associations used]. unfold text_step at 1.
    case_decide; simpl; [apply IH|].
    unfold _calculate_association_score. rewrite Hnz.
    destruct (PrimFloat.ltb _ _); simpl;
      repeat (destruct (PrimFloat.leb _ _); simpl); apply IH. }
  assert (∀ st, ∃ st',
            Py.for_each (barcode_step self text_regions) barcodes st = inr st')
    as Houter.
  2:{ destruct (Houter ([], ∅)) as [[results used] ->]. by eexists _, _. }
  induction Hall as [|barcode barcodes Hnz _ IH]; intros [results used];
    simpl; [by eexists|].
  unfold barcode_step at 1.
  destruct (Hinner barcode (Py.enumerate text_regions) ([], used) Hnz)
    as [[associations used'] ->]. simpl. apply IH.
Qed.



(** C6. The independent fragments of a run are exactly the input
    fragments that no barcode holds as a strong association, in input
    order; a fragment held only as a weak association is among them. *)
Theorem independent_iff_never_strong barcodes text_regions results
    independent_text :
  associate_text_with_barcodes self barcodes text_regions
  = inr (results, independent_text) →
  (∀ idx text_region, text_regions !! idx = Some text_region →
     ((idx, {| i_text := tr_text text_region;
               i_position := tr_position text_region;
               i_type := "independent" |}) ∈ independent_text
      ↔ ¬ ∃ r a, r ∈ results ∧ (idx, a) ∈ related_text r
                 ∧ relation_type a = "strong"))
  ∧ (∀ idx it, (idx, it) ∈ independent_text →
       ∃ text_region, text_regions !! idx = Some text_region
         ∧ it = {| i_text := tr_text text_region;
                   i_position := tr_position text_region;
                   i_type := "independent" |})
  ∧ (∀ idx text_region r a,
       text_regions !! idx = Some text_region →
       r ∈ results → (idx, a) ∈ related_text r →
       (∀ r' a', r' ∈ results → (idx, a') ∈ related_text r' →
          relation_type a' = "weak") →
       (idx, {| i_text := tr_text text_region;
                i_position := tr_position text_region;
                i_type := "independent" |}) ∈ independent_text).
Proof.
  intros Hrun. apply associate_run in Hrun as (used & Hspec & ->).
  assert (∀ idx, idx ∈ used ↔
            ∃ r a, r ∈ results ∧ (idx, a) ∈ related_text r
                   ∧ relation_type a = "strong") as Hused.
  { intros idx. split.
    - intros Hu. by destruct (bl_used _ _ _ _ _ _ Hspec idx Hu) as [?%not_elem_of_empty|?].
    - intros (r & a & Hr & Hin & Hs). by eapply (bl_strong _ _ _ _ _ _ Hspec). }
  split; [|split].
  - intros idx tr Htr. rewrite elem_of_independent, <- Hused. split.
    + by intros (_ & _ & Hu & _).
    + intros Hu. by exists tr.
  - intros idx it (tr & Htr & _ & ->)%elem_of_independent. by exists tr.
  - intros idx tr r a Htr Hr Hin Hweak. apply elem_of_independent.
    exists tr. split; [done|]. split; [|done].
    rewrite Hused. intros (r' & a' & Hr' & Hin' & Hs).
    specialize (Hweak r' a' Hr' Hin'). congruence.
Qed.

End AssocTheorems.

(** *** Concrete runs *)




(** C6, witness: the end-to-end scenario of the specification. The
    fragment scores about 0.439 against the barcode, a weak association,
    and is an independent fragment as well. *)
Lemma independent_iff_never_strong_witness :
  ∃ results independent_text r a,
    AssociationAnalyzer.associate_text_with_barcodes
      AssociationAnalyzer.defaults
      [mk_barcode "ABC123" 0 0 100 50] [mk_text "LOT-9" 110 10 60 20]
    = inr (results, independent_text)
    ∧ r ∈ results
    ∧ (0%nat, a) ∈ AssociationAnalyzer.related_text r
    ∧ AssociationAnalyzer.relation_type a = "weak"
    ∧ (0%nat,
       {| AssociationAnalyzer.i_text := "LOT-9";
          AssociationAnalyzer.i_position :=
            {| pos_x := 110; pos_y := 10; pos_width := 60; pos_height := 20 |};
          AssociationAnalyzer.i_type := "independent" |})
      ∈ independent_text.
Proof.
  eexists _, _, _, _.
  assert (AssociationAnalyzer.associate_text_with_barcodes
            AssociationAnalyzer.defaults
            [mk_barcode "ABC123" 0 0 100 50] [mk_text "LOT-9" 110 10 60 20]
          = inr _) as Hrun
    by (vm_compute; reflexivity).
  split; [exact Hrun|]. split; [left|]. split; [left|]. split; [reflexivity|].
  apply (proj2 (proj2 (independent_iff_never_strong _ _ _ _ _ Hrun))
           0%nat (mk_text "LOT-9" 110 10 60 20) _ _ eq_refl
           (list_elem_of_here _ _) (list_elem_of_here _ _)).
  intros r' a' Hr' Ha'.
  apply list_elem_of_singleton in Hr' as ->. simpl in Ha'.
  apply list_elem_of_singleton in Ha'. by simplify_eq.
Defined.

(** ** barcode_detector.py: the statements of the specification *)

Section DetectorTheorems.
Import BarcodeDetector.
Context {Image : Type} (cv2 : Cv2 Image).
Context (pyzbar_decode : Image → Py.py (list Decoded)).
Context (elapsed_ms : Image → nat → Z).

(** C2. For every image, the ensemble detect with enhancement returns a
    list in which no two detections share a payload. Every entry is a
    detection of some variant, and every payload some variant detects is
    on exactly one entry: the first detection carrying it, in the order
    the variants are consulted. *)
Theorem ensemble_dedup (image : Image) :
  let out := detect cv2 pyzbar_decode elapsed_ms image true in
  let variants := variant_detections cv2 pyzbar_decode elapsed_ms image in
  NoDup (barcode_data <$> out)
  ∧ (∀ o, o ∈ out → ∃ variant, variant ∈ variants ∧ o ∈ variant)
  ∧ (∀ variant bc, variant ∈ variants → bc ∈ variant →
       ∃ first pre post,
         filter (λ o, barcode_data o = barcode_data bc) out = [first]
         ∧ concat variants = pre ++ first :: post
         ∧ barcode_data first = barcode_data bc
         ∧ (barcode_data bc ∉ barcode_data <$> pre)).
Proof.
  intros out variants. unfold out, detect.
  rewrite decode_with_enhancement_first_seen. fold variants.
  split; [apply first_seen_NoDup|]. split.
  - intros o Ho%first_seen_sublist.
    apply elem_of_concat in Ho as (variant & ? & ?). by exists variant.
  - intros variant bc Hv Hbc.
    destruct (first_seen_first (concat variants) ∅ bc)
      as (first & pre & post & ? & ? & ? & ?).
    + apply elem_of_concat. by exists variant.
    + set_solver.
    + by exists first, pre, post.
Qed.

End DetectorTheorems.

(** The ensemble, run on the toy engine: "A" is kept from the original
    image (not from the CLAHE variant), "B" from the CLAHE variant, "C"
    from the upscaled image with its box divided by 1.5; the decoder
    failure on the equalized image is no detection. *)
Example ensemble_example :
  (λ bc, (barcode_data bc, pos_x (bc_position bc), pos_width (bc_position bc)))
  <$> BarcodeDetector.detect BarcodeDetector.toy_cv2
        BarcodeDetector.toy_decode (λ _ _, 0%Z) 0%nat true
  = [("A", 10%Z, 30%Z); ("B", 50%Z, 30%Z); ("C", 100%Z, 40%Z)].
Proof. by vm_compute. Qed.

(** ** processor.py: the statements of the specification *)

Section ProcessorTheorems.
Import LabelProcessor.
Context {Image Json : Type}.
Context (preprocess : Image → string → Py.py Image).
Context (cv2 : BarcodeDetector.Cv2 Image).
Context (pyzbar_decode : Image → Py.py (list BarcodeDetector.Decoded)).
Context (decode_ms : Image → nat → Z).
Context (tesseract_available : bool).
Context (recognize_full : Image → Py.py OcrResult).
Context (ai_recognizer : AIRecognizer.t).
Context (ai_recognize : Image → Py.py (AIRecognizer.Reply Json)).
Context (association_analyzer : AssociationAnalyzer.t).
Context (order_sorter : OrderSorter.t).
Context (elapsed_ms : Z).

Local Abbreviation body :=
  (process_body preprocess cv2 pyzbar_decode decode_ms tesseract_available
     recognize_full ai_recognizer ai_recognize association_analyzer
     order_sorter).

(** The body of the [try] block never touches "success" and "error". *)
Lemma process_body_keeps (result result' : Envelope Json) image
    mode recognition_mode sort_order :
  body result image mode recognition_mode sort_order = inr result' →
  success result' = success result ∧ error result' = error result.
Proof.
  unfold process_body, Py.bind, Py.ret, Py.raise, try_except.
  intros Hrun.
  repeat match type of Hrun with
         | inl _ = inr _ => discriminate Hrun
         | context [match ?x with _ => _ end] => destruct x eqn:?
         | inr _ = inr _ => injection Hrun as <-
         end;
    done.
Qed.


End ProcessorTheorems.

(** *** Concrete runs on the toy engine *)

(** Recognition mode "ai" with the AI engine switched off: the run
    fails with the first unmet precondition as its error. *)
Example process_image_ai_disabled :
  LabelProcessor.process_image (Json := unit)
    (λ image _, inr image) BarcodeDetector.toy_cv2 BarcodeDetector.toy_decode
    (λ _ _, 0%Z) false (λ _, inl "no OCR")
    {| AIRecognizer.enabled := false; AIRecognizer.providers := ∅;
       AIRecognizer.models := ∅; AIRecognizer.active_model_id := None |}
    (λ _, inl "no AI") AssociationAnalyzer.defaults OrderSorter.init 12%Z
    0%nat "balanced" "ai" "reading_order" "local"
  = inr {| LabelProcessor.success := false;
           LabelProcessor.mode_used := "balanced";
           LabelProcessor.recognition_mode := "ai";
           LabelProcessor.sort_order := "reading_order";
           LabelProcessor.results := [];
           LabelProcessor.process_time := 12;
           LabelProcessor.error :=
             Some "AI识别功能不可用,请检查配置: AI功能未启用";
           LabelProcessor.env_ai_raw_response := None;
           LabelProcessor.env_structured_fields := None;
           LabelProcessor.env_full_text := None |}.
Proof. by vm_compute. Qed.

(** Recognition mode "barcode_only": the three payloads of the toy
    ensemble, numbered 1 to 3 in top-to-bottom order. *)
Example process_image_barcode_only :
  Py.map
    (λ envelope,
       (LabelProcessor.success envelope, LabelProcessor.error envelope,
        (λ obj, (LabelProcessor.mo_order obj, LabelProcessor.mo_data obj))
        <$> LabelProcessor.results envelope))
    (LabelProcessor.process_image (Json := unit)
        (λ image _, inr image) BarcodeDetector.toy_cv2
        BarcodeDetector.toy_decode (λ _ _, 0%Z) false (λ _, inl "no OCR")
        {| AIRecognizer.enabled := false; AIRecognizer.providers := ∅;
           AIRecognizer.models := ∅; AIRecognizer.active_model_id := None |}
        (λ _, inl "no AI") AssociationAnalyzer.defaults OrderSorter.init 12%Z
        0%nat "fast" "barcode_only" "top_to_bottom" "local")
  = inr (true, None,
         [(Some 1%Z, LabelProcessor.barcode_fields "A" "QRCODE");
          (Some 2%Z, LabelProcessor.barcode_fields "B" "QRCODE");
          (Some 3%Z, LabelProcessor.barcode_fields "C" "QRCODE")]).
Proof. by vm_compute. Qed.

(** Recognition mode "barcode_and_ocr", balanced: a barcode of width 0
    under a text with the same centre makes the scorer divide by zero; the
    exception is caught and reported in the envelope. *)
Example process_image_division_by_zero :
  Py.map
    (λ envelope,
       (LabelProcessor.success envelope, LabelProcessor.error envelope,
        LabelProcessor.results envelope))
    (LabelProcessor.process_image (Json := unit)
        (λ image _, inr image) BarcodeDetector.toy_cv2
        (λ _, inr [BarcodeDetector.toy_symbol "A" 10 10 0 0])
        (λ _ _, 0%Z) true
        (λ _, inr {| LabelProcessor.full_text := "LOT";
                     LabelProcessor.text_regions := [mk_text "LOT" 10 10 0 0];
                     LabelProcessor.structured_fields := ∅;
                     LabelProcessor.ocr_time := 3 |})
        {| AIRecognizer.enabled := false; AIRecognizer.providers := ∅;
           AIRecognizer.models := ∅; AIRecognizer.active_model_id := None |}
        (λ _, inl "no AI") AssociationAnalyzer.defaults OrderSorter.init 12%Z
        0%nat "balanced" "barcode_and_ocr" "reading_order" "local")
  = inr (false, Some "float division by zero", []).
Proof. by vm_compute. Qed.

(** * Further properties *)

(** ** order_sorter.py *)

Section StableSortMore.
Context {A K : Type} (lt : K → K → bool) (key : A → K).
Context (P : A → Prop) `{!∀ x, Decision (P x)}.

Local Abbreviation one_rank := (one_rank lt key P).

Lemma filter_insort x l :
  one_rank →
  filter P (Py.insort lt key x l)
  = if decide (P x) then x :: filter P l else filter P l.
Proof.
  intros Hrank. induction l as [|y l IH]; simpl.
  - rewrite filter_cons, filter_nil. by case_decide.
  - destruct (lt (key y) (key x)) eqn:Hyx.
    + rewrite !(filter_cons _ y), IH.
      destruct (decide (P y)) as [Hy|Hy], (decide (P x)) as [Hx|Hx];
        try done.
      by rewrite (Hrank x y Hx Hy) in Hyx.
    + by rewrite (filter_cons _ x).
Qed.

(** Stability: among objects of equal rank the sort keeps the input
    order. *)
Lemma filter_sorted l :
  one_rank → filter P (Py.sorted lt key l) = filter P l.
Proof.
  intros Hrank. induction l as [|x l IH]; simpl; [done|].
  rewrite filter_insort, IH by done. by rewrite filter_cons.
Qed.

End StableSortMore.

(** A sort by a key commutes with a map that keeps the key. *)
Lemma sorted_fmap {A B K} (lt : K → K → bool) (key : A → K) (key' : B → K)
    (f : A → B) (l : list A) :
  (∀ x, key' (f x) = key x) →
  Py.sorted lt key' (f <$> l) = f <$> Py.sorted lt key l.
Proof.
  intros Hkey.
  assert (∀ x s, Py.insort lt key' (f x) (f <$> s)
                 = f <$> Py.insort lt key x s) as Hins.
  { intros x s. induction s as [|y s IH]; csimpl; [done|].
    rewrite !Hkey. destruct (lt (key y) (key x)); csimpl; [|done].
    by rewrite IH. }
  induction l as [|x l IH]; csimpl; [done|]. by rewrite IH, Hins.
Qed.

Lemma StronglySorted_weaken {A} (R R' : A → A → Prop) (l : list A) :
  (∀ a b, R a b → R' a b) → StronglySorted R l → StronglySorted R' l.
Proof.
  intros HR. induction 1 as [|x l Hl IH Hx]; constructor; [done|].
  eapply Forall_impl; [exact Hx|]. intros b. apply HR.
Qed.

#[local] Instance Qeq_decision (a b : Q) : Decision (a == b)%Q := Qeq_dec a b.

Section SorterExtras.
Context {E : Type} `{!Positioned E} (self : OrderSorter.t).

Local Abbreviation yc := (OrderSorter._get_y_center (E:=E)).
Local Abbreviation xc := (OrderSorter._get_x_center (E:=E)).
Local Abbreviation sortY := (Py.sorted Py.Qltb yc).
Local Abbreviation sortX := (Py.sorted Py.Qltb xc).


(** X2. The axis sorts are stable: the objects whose centre equals a given
    value stand in the output in the order they have in the input. *)
Theorem sort_axis_stable (objects : list E) (c : Q) :
  filter (λ obj, yc obj == c)%Q (OrderSorter.sort self objects "top_to_bottom")
  = filter (λ obj, yc obj == c)%Q objects
  ∧ filter (λ obj, xc obj == c)%Q
      (OrderSorter.sort self objects "left_to_right")
    = filter (λ obj, xc obj == c)%Q objects.
Proof.
  rewrite !sort_dispatch. simpl.
  split; apply filter_sorted; intros x y Hx Hy; apply Qltb_ge;
    rewrite Hx, Hy; apply Qle_refl.
Qed.

Lemma rows_from_never l : ∀ cy cur,
  (∀ c o, OrderSorter.same_row self c o = false) →
  rows_from self cy cur l = cur :: ((λ obj, [obj]) <$> l).
Proof.
  induction l as [|obj l IH]; intros cy cur Hnever; simpl; [done|].
  by rewrite Hnever, IH.
Qed.

Lemma concat_singletons (l : list E) :
  concat (sortX <$> ((λ obj, [obj]) <$> l)) = l.
Proof. induction l as [|obj l IH]; csimpl; [done|]. by rewrite IH. Qed.

(** X3. With a negative row tolerance no object ever joins a row, and
    reading order is top-to-bottom order. *)
Theorem sort_reading_order_negative_tolerance (objects : list E) :
  (OrderSorter.row_tolerance self < 0)%Z →
  OrderSorter.sort self objects "reading_order"
  = OrderSorter.sort self objects "top_to_bottom".
Proof.
  intros Htol. rewrite !sort_dispatch. simpl.
  rewrite sort_reading_order_eq. unfold OrderSorter.sort_top_to_bottom.
  assert (∀ c o, OrderSorter.same_row self c o = false) as Hnever.
  { intros c o. apply not_true_iff_false. rewrite same_row_Qle.
    intros Hle. apply (Qle_not_lt _ _ Hle).
    eapply Qlt_le_trans; [|apply Qabs_nonneg].
    change (inject_Z (OrderSorter.row_tolerance self) < inject_Z 0)%Q.
    by rewrite <- Zlt_Qlt. }
  destruct (sortY objects) as [|first rest]; [done|].
  unfold group. rewrite rows_from_never by done.
  apply (concat_singletons (first :: rest)).
Qed.

(** X4. When the vertical centres of all objects lie within the row
    tolerance of one another, reading order forms a single row: the
    objects come out left to right, equal horizontal centres top to
    bottom. *)
Theorem sort_reading_order_single_row (objects : list E) :
  (∀ a b, a ∈ objects → b ∈ objects →
     OrderSorter.same_row self (yc a) (yc b) = true) →
  OrderSorter.sort self objects "reading_order"
  = OrderSorter.sort self
      (OrderSorter.sort self objects "top_to_bottom") "left_to_right".
Proof.
  intros Hrow. rewrite !sort_dispatch. simpl.
  rewrite sort_reading_order_eq.
  unfold OrderSorter.sort_left_to_right, OrderSorter.sort_top_to_bottom.
  assert (Forall (λ a, Forall (λ b, OrderSorter.same_row self (yc a) (yc b)
                                    = true) (sortY objects)) (sortY objects))
    as Hall.
  { apply Forall_forall. intros a Ha. apply Forall_forall. intros b Hb.
    rewrite sorted_perm in Ha, Hb. by apply Hrow. }
  destruct (sortY objects) as [|first rest]; [done|].
  apply Forall_cons in Hall as [Hfirst _].
  apply Forall_cons in Hfirst as [_ Hrest].
  unfold group. rewrite <- (app_nil_r rest) at 1.
  rewrite rows_from_app by done. csimpl. by rewrite app_nil_r.
Qed.

End SorterExtras.

Section SorterMap.
Context {E E' : Type} `{!Positioned E, !Positioned E'} (self : OrderSorter.t).
Context (f : E → E').
Context (Hposition : ∀ obj, get_position (f obj) = get_position obj).

Local Abbreviation mapf := (fmap (M:=list) f).

Lemma y_center_fmap obj :
  OrderSorter._get_y_center (f obj) = OrderSorter._get_y_center obj.
Proof. unfold OrderSorter._get_y_center. by rewrite Hposition. Qed.

Lemma x_center_fmap obj :
  OrderSorter._get_x_center (f obj) = OrderSorter._get_x_center obj.
Proof. unfold OrderSorter._get_x_center. by rewrite Hposition. Qed.

Lemma rows_from_fmap (l : list E) : ∀ cy (cur : list E),
  rows_from self cy (mapf cur) (mapf l)
  = mapf <$> rows_from self cy cur l.
Proof.
  induction l as [|obj l IH]; intros cy cur; csimpl; [done|].
  rewrite y_center_fmap. destruct (OrderSorter.same_row self cy _).
  - by rewrite <- IH, fmap_app.
  - csimpl. f_equal. apply (IH _ [obj]).
Qed.

Lemma sort_reading_order_fmap (objects : list E) :
  OrderSorter.sort_reading_order self (mapf objects)
  = mapf (OrderSorter.sort_reading_order self objects).
Proof.
  rewrite !sort_reading_order_eq.
  rewrite (sorted_fmap _ OrderSorter._get_y_center) by apply y_center_fmap.
  assert (∀ l : list E, group self (mapf l) = mapf <$> group self l) as ->.
  { intros [|first rest]; [done|]. csimpl. rewrite y_center_fmap.
    apply (rows_from_fmap rest _ [first]). }
  generalize (group self (Py.sorted Py.Qltb OrderSorter._get_y_center objects)).
  intros rows. induction rows as [|row rows IH]; csimpl; [done|].
  rewrite fmap_app, <- IH. f_equal.
  apply sorted_fmap, x_center_fmap.
Qed.

(** X5. Sorting looks at the positions only: it commutes with every
    conversion of the objects that keeps their position dict (such as the
    conversion of a barcode into an output object). *)
Theorem sort_fmap (objects : list E) (order : string) :
  OrderSorter.sort self (mapf objects) order
  = mapf (OrderSorter.sort self objects order).
Proof.
  rewrite !sort_dispatch. unfold OrderSorter.sort_grid_order.
  repeat case_decide;
    first [ apply sort_reading_order_fmap
          | apply sorted_fmap, y_center_fmap
          | apply sorted_fmap, x_center_fmap ].
Qed.

End SorterMap.

Section NumberingExtras.
Context {A : Type} `{!Numbered A}.

Lemma number_loop_frame (objects : list loc) : ∀ (k : nat) (h : heap A),
  let h' := foldl (λ h '(idx, obj), alter (set_order (Z.of_nat idx + 1)) obj h)
              h (zip (seq k (length objects)) objects) in
  (∀ obj, obj ∉ objects → h' !! obj = h !! obj)
  ∧ (∀ obj, is_Some (h' !! obj) ↔ is_Some (h !! obj)).
Proof.
  induction objects as [|o objects IH]; intros k h; simpl; [done|].
  destruct (IH (S k) (alter (set_order (Z.of_nat k + 1)) o h)) as [Hout Hdom].
  split.
  - intros obj [Hne Hobj]%not_elem_of_cons.
    by rewrite Hout, lookup_alter_ne.
  - intros obj. by rewrite Hdom, lookup_alter_is_Some.
Qed.

Lemma number_loop_last (objects : list loc) :
  ∀ (k : nat) (h : heap A) i obj,
  objects !! i = Some obj → (∀ j, (i < j)%nat → objects !! j ≠ Some obj) →
  is_Some (h !! obj) →
  (foldl (λ h '(idx, obj), alter (set_order (Z.of_nat idx + 1)) obj h)
     h (zip (seq k (length objects)) objects) !! obj) ≫= get_order
  = Some (Z.of_nat (k + i) + 1)%Z.
Proof.
  induction objects as [|o objects IH]; intros k h i obj Hi Hlast Hlive;
    [by rewrite lookup_nil in Hi|].
  simpl. set (h1 := alter (set_order (Z.of_nat k + 1)) o h).
  destruct i as [|i]; simpl in Hi.
  - injection Hi as ->.
    destruct (number_loop_frame objects (S k) h1) as [Hout _].
    rewrite Hout.
    + unfold h1. rewrite lookup_alter_eq. destruct Hlive as [a ->]. simpl.
      by rewrite get_set_order, Nat.add_0_r.
    + intros [j Hj]%list_elem_of_lookup. apply (Hlast (S j)); [lia|done].
  - rewrite (IH (S k) h1 i obj Hi).
    + do 2 f_equal. lia.
    + intros j Hj. apply (Hlast (S j)). lia.
    + unfold h1. by rewrite lookup_alter_is_Some.
Qed.

(** X6. In a list that holds an object more than once, the object ends up
    with the number of its last position: each assignment overwrites the
    earlier ones. *)
Theorem add_order_numbers_last_wins (h : heap A) (objects : list loc)
    (i : nat) (obj : loc) :
  objects !! i = Some obj → (∀ j, (i < j)%nat → objects !! j ≠ Some obj) →
  is_Some (h !! obj) →
  ((OrderSorter.add_order_numbers h objects).1 !! obj) ≫= get_order
  = Some (Z.of_nat i + 1)%Z.
Proof. intros Hi Hlast Hlive. by apply (number_loop_last objects 0 h i obj). Qed.

(** X7. [add_order_numbers] touches the objects of its list only: every
    other object of the store keeps its contents, and no object is
    created or deleted. *)
Theorem add_order_numbers_frame (h : heap A) (objects : list loc) :
  (∀ obj, obj ∉ objects →
     (OrderSorter.add_order_numbers h objects).1 !! obj = h !! obj)
  ∧ dom (OrderSorter.add_order_numbers h objects).1 = dom h.
Proof.
  destruct (number_loop_frame objects 0 h) as [Hout Hdom].
  split; [exact Hout|].
  apply set_eq. intros obj. rewrite !elem_of_dom. apply Hdom.
Qed.

End NumberingExtras.

(** X3, witness: tolerance -1. *)
Lemma sort_reading_order_negative_tolerance_witness :
  let self := {| OrderSorter.row_tolerance := -1;
                 OrderSorter.col_tolerance := 20;
                 OrderSorter.min_object_distance := 15 |} in
  let objects := [dict_obj 50 10 10 10 "a"; dict_obj 0 10 10 10 "b";
                  dict_obj 20 0 10 10 "c"] in
  OrderSorter.sort self objects "reading_order"
  = OrderSorter.sort self objects "top_to_bottom".
Proof.
  intros self objects.
  by apply (sort_reading_order_negative_tolerance self objects).
Defined.

(** X4, witness: three labels on one line. *)
Lemma sort_reading_order_single_row_witness :
  let objects := [dict_obj 50 10 10 10 "a"; dict_obj 0 20 10 10 "b";
                  dict_obj 20 0 10 10 "c"] in
  OrderSorter.sort OrderSorter.init objects "reading_order"
  = OrderSorter.sort OrderSorter.init
      (OrderSorter.sort OrderSorter.init objects "top_to_bottom")
      "left_to_right".
Proof.
  intros objects.
  apply (sort_reading_order_single_row OrderSorter.init objects).
  intros a b Ha Hb. unfold objects in Ha, Hb.
  repeat (apply elem_of_cons in Ha as [->|Ha]);
    try (by apply elem_of_nil in Ha);
    repeat (apply elem_of_cons in Hb as [->|Hb]);
    try (by apply elem_of_nil in Hb); reflexivity.
Defined.

(** X5, witness: barcodes converted into output objects. *)
Lemma sort_fmap_witness :
  let barcodes := [mk_barcode "B" 0 60 100 50; mk_barcode "A" 0 0 100 50] in
  OrderSorter.sort OrderSorter.init
    (LabelProcessor.barcode_object <$> barcodes) "reading_order"
  = LabelProcessor.barcode_object
    <$> OrderSorter.sort OrderSorter.init barcodes "reading_order".
Proof.
  intros barcodes.
  by apply (sort_fmap OrderSorter.init LabelProcessor.barcode_object).
Defined.

(** X6, witness: the same dict at both positions of the list reads 2. *)
Lemma add_order_numbers_last_wins_witness :
  let h : heap DictObj := {[ 0%nat := dict_obj 0 0 10 10 "a" ]} in
  ((OrderSorter.add_order_numbers h [0%nat; 0%nat]).1 !! 0%nat) ≫= get_order
  = Some 2%Z.
Proof.
  intros h. apply (add_order_numbers_last_wins h [0%nat; 0%nat] 1 0%nat).
  - reflexivity.
  - intros [|[|j]] Hj; [lia|lia|done].
  - by eexists.
Defined.

(** ** The order of binary64 numbers *)

Lemma SFcompare_cont m1 m2 : Pos.compare_cont Eq m1 m2 = Pos.compare m1 m2.
Proof. reflexivity. Qed.

Ltac sf_cases :=
  repeat match goal with
         | s : bool |- _ => destruct s
         end;
  simpl; try congruence;
  repeat match goal with
         | |- context [Pos.compare_cont Eq ?a ?b] =>
             rewrite (SFcompare_cont a b)
         | |- context [Z.compare ?a ?b] =>
             destruct (Z.compare_spec a b); subst; simpl
         | |- context [Pos.compare ?a ?b] =>
             destruct (Pos.compare_spec a b); subst; simpl
         end;
  try congruence; try lia.

Lemma SFltb_asym x y : SFltb x y = true → SFltb y x = false.
Proof.
  unfold SFltb, SFcompare.
  destruct x as [s1|s1| |s1 m1 e1], y as [s2|s2| |s2 m2 e2]; sf_cases.
Qed.

Lemma SFltb_ge_trans x y z :
  x ≠ S754_nan → y ≠ S754_nan → z ≠ S754_nan →
  SFltb x y = false → SFltb y z = false → SFltb x z = false.
Proof.
  unfold SFltb, SFcompare.
  destruct x as [s1|s1| |s1 m1 e1], y as [s2|s2| |s2 m2 e2],
    z as [s3|s3| |s3 m3 e3]; intros ? ? ?; try done; sf_cases.
Qed.

Lemma is_number_spec f : is_number f ↔ Prim2SF f ≠ S754_nan.
Proof.
  unfold is_number. rewrite FloatAxioms.eqb_spec. unfold SFeqb, SFcompare.
  destruct (Prim2SF f) as [s|s| |s m e]; sf_cases; split; try done.
  all: try (intros _; rewrite ?Z.compare_refl, ?Pos.compare_refl; done).
Qed.

Lemma leb_is_number a b : PrimFloat.leb a b = true → is_number b.
Proof.
  rewrite leb_spec, is_number_spec. unfold SFleb, SFcompare.
  by destruct (Prim2SF a) as [| | |], (Prim2SF b) as [| | |].
Qed.

Lemma ltb_asym a b : PrimFloat.ltb a b = true → PrimFloat.ltb b a = false.
Proof. rewrite !ltb_spec. apply SFltb_asym. Qed.

Lemma ltb_ge_trans a b c :
  is_number a → is_number b → is_number c →
  PrimFloat.ltb a b = false → PrimFloat.ltb b c = false →
  PrimFloat.ltb a c = false.
Proof. rewrite !is_number_spec, !ltb_spec. apply SFltb_ge_trans. Qed.

Lemma SFltb_false_leb x y :
  x ≠ S754_nan → y ≠ S754_nan → SFltb x y = false → SFleb y x = true.
Proof.
  unfold SFltb, SFleb, SFcompare.
  destruct x as [s1|s1| |s1 m1 e1], y as [s2|s2| |s2 m2 e2];
    intros ? ?; try done; sf_cases.
Qed.

(** On numbers [a < b] fails exactly when [b <= a]. *)
Lemma ltb_false_leb a b :
  is_number a → is_number b →
  PrimFloat.ltb a b = false → PrimFloat.leb b a = true.
Proof. rewrite !is_number_spec, ltb_spec, leb_spec. apply SFltb_false_leb. Qed.

(** ** association_analyzer.py *)

Section SortedOn.
Context {A K : Type} (lt : K → K → bool) (key : A → K) (D : K → Prop).
Context (Hasym : ∀ a b, lt a b = true → lt b a = false).
Context (Hle : ∀ a b c, D a → D b → D c →
                 lt b a = false → lt c b = false → lt c a = false).

(** The insertion sort puts in key order every list whose keys lie in a
    domain [D] that [<] orders. *)
Lemma insort_sorted_on x l :
  D (key x) → Forall (λ y, D (key y)) l →
  StronglySorted (key_le lt key) l →
  StronglySorted (key_le lt key) (Py.insort lt key x l).
Proof.
  intros Hx Hl Hs. induction Hs as [|y l Hs IH Hy]; simpl.
  - repeat constructor.
  - apply Forall_cons in Hl as [Hdy Hl].
    destruct (lt (key y) (key x)) eqn:Hyx.
    + constructor; [by apply IH|]. rewrite insort_perm.
      constructor; [by apply Hasym|done].
    + constructor; [by constructor|]. constructor; [done|].
      rewrite Forall_forall in Hy, Hl |- *. intros z Hz.
      apply (Hle _ (key y) _); [done|done|by apply Hl|done|by apply Hy].
Qed.

Lemma sorted_sorted_on l :
  Forall (λ y, D (key y)) l →
  StronglySorted (key_le lt key) (Py.sorted lt key l).
Proof.
  induction 1 as [|x l Hx Hl IH]; simpl; [constructor|].
  apply insort_sorted_on; [done| |done]. by rewrite sorted_perm.
Qed.

End SortedOn.

Section StablePairs.
Context {A K : Type} (lt : K → K → bool) (key : A → K).

Lemma insort_sublist x l : l `sublist_of` Py.insort lt key x l.
Proof.
  induction l as [|y l IH]; simpl; [apply sublist_nil_l|].
  destruct (lt (key y) (key x)); [by apply sublist_skip|by apply sublist_cons].
Qed.

(** An inserted element stands before every element whose key is not
    strictly smaller. *)
Lemma insort_before x y l :
  y ∈ l → lt (key y) (key x) = false →
  [x; y] `sublist_of` Py.insort lt key x l.
Proof.
  intros Hy Hyx. induction l as [|z l IH]; simpl; [by apply elem_of_nil in Hy|].
  destruct (lt (key z) (key x)) eqn:Hzx.
  - apply elem_of_cons in Hy as [->|Hy]; [congruence|].
    by apply sublist_cons, IH.
  - by apply sublist_skip, singleton_sublist_l.
Qed.

(** Stability: [x] stays before [y] unless the key of [y] is strictly
    smaller. *)
Lemma sorted_stable_pair x y l :
  [x; y] `sublist_of` l → lt (key y) (key x) = false →
  [x; y] `sublist_of` Py.sorted lt key l.
Proof.
  intros Hsub Hyx. induction l as [|z l IH]; simpl.
  - by apply sublist_nil_r in Hsub.
  - apply sublist_cons_r in Hsub as [Hsub|(l' & [= <- <-] & Hsub)].
    + etrans; [by apply IH|]. apply insort_sublist.
    + apply insort_before; [|done]. rewrite sorted_perm.
      by apply singleton_sublist_l.
Qed.

End StablePairs.

Lemma StronglySorted_seq j n : StronglySorted lt (seq j n).
Proof.
  revert j. induction n as [|n IH]; intros j; simpl; constructor; [done|].
  apply Forall_forall. intros k Hk%elem_of_seq. lia.
Qed.

Lemma sublist_StronglySorted {A} (R : relation A) (l1 l2 : list A) :
  StronglySorted R l2 → l1 `sublist_of` l2 → StronglySorted R l1.
Proof.
  intros Hs. revert l1. induction Hs as [|x l2 Hs IH Hx]; intros l1 Hsub.
  - apply sublist_nil_r in Hsub as ->. constructor.
  - apply sublist_cons_r in Hsub as [Hsub|(l' & -> & Hsub)]; [by apply IH|].
    constructor; [by apply IH|].
    rewrite Forall_forall in Hx |- *. intros y Hy. apply Hx.
    by eapply elem_of_sublist.
Qed.

(** In a list tagged with ascending indices, the entry with the smaller
    index stands first. *)
Lemma ascending_pair {A} (l : list (nat * A)) (x y : nat * A) :
  StronglySorted lt l.*1 → x ∈ l → y ∈ l → (x.1 < y.1)%nat →
  [x; y] `sublist_of` l.
Proof.
  induction l as [|z l IH]; csimpl; intros Hs Hx Hy Hxy;
    [by apply elem_of_nil in Hx|].
  apply StronglySorted_inv in Hs as [Hs Hz]. rewrite Forall_forall in Hz.
  apply elem_of_cons in Hx as [->|Hx], Hy as [->|Hy].
  - lia.
  - by apply sublist_skip, singleton_sublist_l.
  - assert (z.1 < x.1)%nat; [|lia]. apply Hz. by apply list_elem_of_fmap_2.
  - by apply sublist_cons, IH.
Qed.

Lemma filter_all {A} (P : A → Prop) `{!∀ x, Decision (P x)} (l : list A) :
  Forall P l → filter P l = l.
Proof.
  induction 1 as [|x l Hx _ IH]; [done|].
  by rewrite filter_cons, decide_True, IH.
Qed.

Section AssocExtras.
Import AssociationAnalyzer.
Context (self : AssociationAnalyzer.t).

Local Abbreviation result_of := (result_of self).

Lemma text_loop_entries barcode items : ∀ associations used associations' used',
  Py.for_each (text_step self barcode) items (associations, used)
  = inr (associations', used') →
  ∃ new, associations' = associations ++ new
         ∧ Forall (entry_of self barcode items) new
         ∧ new.*1 `sublist_of` items.*1.
Proof.
  induction items as [|[idx text_region] items IH];
    intros associations used associations' used' Hrun; simpl in Hrun.
  - injection Hrun as <- <-. exists []. by rewrite app_nil_r.
  - assert (∀ new, Forall (entry_of self barcode items) new →
              Forall (entry_of self barcode ((idx, text_region) :: items)) new)
      as Hweaken.
    { intros new Hnew. eapply Forall_impl; [done|].
      intros e (tr & score & ? & ?).
      exists tr, score. split; [by right|done]. }
    unfold text_step at 1 in Hrun. case_decide as Hidx; simpl in Hrun.
    { apply IH in Hrun as (new & -> & Hnew & Hsub).
      exists new. split; [done|]. split; [by apply Hweaken|].
      by apply sublist_cons. }
    destruct (_calculate_association_score self barcode text_region)
      as [e|score] eqn:Hscore; simpl in Hrun; [done|].
    destruct (PrimFloat.leb (weak_threshold self) score) eqn:Hweak.
    2:{ apply IH in Hrun as (new & -> & Hnew & Hsub).
        exists new. split; [done|]. split; [by apply Hweaken|].
        by apply sublist_cons. }
    assert (entry_of self barcode ((idx, text_region) :: items)
              (idx, entry self text_region score)) as Hentry.
    { exists text_region, score. split; [left|done]. }
    destruct (PrimFloat.leb (strong_threshold self) score) eqn:Hstrong;
      simpl in Hrun;
      apply IH in Hrun as (new & -> & Hnew & Hsub);
      exists ((idx, entry self text_region score) :: new);
      (split; [unfold entry; by rewrite Hstrong, <- app_assoc|]);
      (split; [constructor; [done|by apply Hweaken]|]);
      by apply sublist_skip.
Qed.

Lemma fst_enumerate {A} (l : list A) : (Py.enumerate l).*1 = seq 0 (length l).
Proof. unfold Py.enumerate. apply fst_zip. by rewrite length_seq. Qed.

Lemma barcode_loop_entries text_regions barcodes :
  ∀ results used results' used',
  Py.for_each (barcode_step self text_regions) barcodes (results, used)
  = inr (results', used') →
  ∃ new, results' = results ++ new
         ∧ Forall2 (result_of text_regions) barcodes new.
Proof.
  induction barcodes as [|barcode barcodes IH];
    intros results used results' used' Hrun; simpl in Hrun.
  - injection Hrun as <- <-. exists []. by rewrite app_nil_r.
  - unfold barcode_step at 1 in Hrun.
    destruct (Py.for_each (text_step self barcode) (Py.enumerate text_regions)
                ([], used)) as [e|[associations used1]] eqn:Hinner;
      simpl in Hrun; [done|].
    apply text_loop_entries in Hinner as (found & Hfound & Hentries & Hsub).
    simpl in Hfound. subst associations.
    apply IH in Hrun as (new & -> & Hnew).
    eexists (_ :: new). split; [by rewrite <- app_assoc|].
    constructor; [|done]. split; [done|]. split.
    + simpl. apply bool_decide_ext. rewrite <- length_zero_iff_nil. lia.
    + exists found. split; [done|]. split; [done|].
      by rewrite <- fst_enumerate.
Qed.

Lemma associate_results barcodes text_regions results independent_text :
  associate_text_with_barcodes self barcodes text_regions
  = inr (results, independent_text) →
  Forall2 (result_of text_regions) barcodes results.
Proof.
  unfold associate_text_with_barcodes. intros Hrun.
  destruct (Py.for_each (barcode_step self text_regions) barcodes ([], ∅))
    as [e|[results' used]] eqn:Hloop; simpl in Hrun; [done|].
  injection Hrun as <- <-.
  by apply barcode_loop_entries in Hloop as (new & -> & Hnew).
Qed.

(** X8. A run returns one result per barcode, in the order of the
    barcodes, and flags with [has_association] exactly the results that
    hold at least one entry. *)
Theorem associate_one_result_per_barcode barcodes text_regions results
    independent_text :
  associate_text_with_barcodes self barcodes text_regions
  = inr (results, independent_text) →
  r_barcode <$> results = barcodes
  ∧ Forall (λ r, has_association r = true ↔ related_text r ≠ []) results.
Proof.
  intros Hrun%associate_results.
  induction Hrun as [|barcode r barcodes results (Hb & Hflag & _) _ [IH1 IH2]];
    [done|].
  split; [csimpl; by rewrite Hb, IH1|].
  constructor; [|done]. rewrite Hflag. apply bool_decide_eq_true.
Qed.

Lemma associate_result_at barcodes text_regions results independent_text i r :
  associate_text_with_barcodes self barcodes text_regions
  = inr (results, independent_text) →
  results !! i = Some r →
  ∃ barcode, barcodes !! i = Some barcode ∧ result_of text_regions barcode r.
Proof.
  intros Hrun%associate_results Hr.
  by destruct (Forall2_lookup_r _ _ _ _ _ Hrun Hr) as (barcode & ? & ?);
    eauto.
Qed.

(** X9. Every entry of a barcode's [related_text] is a copy of the text
    region at its index: the same text and position, the region's
    confidence or 1.0 where it has none, the score the scorer gives to the
    barcode and that region, which reaches the weak threshold; it is
    labelled "strong" when the score reaches the strong threshold and
    "weak" otherwise. *)
Theorem related_text_entry barcodes text_regions results independent_text
    i r idx a :
  associate_text_with_barcodes self barcodes text_regions
  = inr (results, independent_text) →
  results !! i = Some r → (idx, a) ∈ related_text r →
  ∃ barcode text_region,
    barcodes !! i = Some barcode ∧ text_regions !! idx = Some text_region
    ∧ a_text a = tr_text text_region
    ∧ a_position a = tr_position text_region
    ∧ a_confidence a = default 1%float (tr_confidence text_region)
    ∧ _calculate_association_score self barcode text_region
      = inr (a_score a)
    ∧ PrimFloat.leb (weak_threshold self) (a_score a) = true
    ∧ relation_type a
      = if PrimFloat.leb (strong_threshold self) (a_score a)
        then "strong" else "weak".
Proof.
  intros Hrun Hr Hin.
  destruct (associate_result_at _ _ _ _ _ _ Hrun Hr)
    as (barcode & Hb & _ & _ & found & Hsorted & Hentries & _).
  rewrite Hsorted, elem_of_sorted_reverse in Hin.
  rewrite Forall_forall in Hentries.
  destruct (Hentries _ Hin) as (text_region & score & Hitem & Hscore & Hweak
                                & Heq).
  simpl in Hitem, Heq. subst a. apply elem_of_enumerate in Hitem.
  by exists barcode, text_region.
Qed.

(** X10. No list of related text holds a text region twice. *)
Theorem related_text_no_duplicates barcodes text_regions results
    independent_text r :
  associate_text_with_barcodes self barcodes text_regions
  = inr (results, independent_text) →
  r ∈ results → NoDup (related_text r).*1.
Proof.
  intros Hrun [i Hr]%list_elem_of_lookup.
  destruct (associate_result_at _ _ _ _ _ _ Hrun Hr)
    as (barcode & _ & _ & _ & found & -> & _ & Hsub).
  unfold Py.sorted_reverse. rewrite sorted_perm.
  eapply sublist_NoDup; [apply NoDup_seq|done].
Qed.

(** X11. Every list of related text is in descending order of score: no
    entry scores higher than an entry before it. No condition on the
    scores is needed, for a NaN never reaches the weak threshold. *)
Theorem related_text_descending barcodes text_regions results
    independent_text r :
  associate_text_with_barcodes self barcodes text_regions
  = inr (results, independent_text) →
  r ∈ results →
  StronglySorted (λ a b, PrimFloat.leb (a_score b) (a_score a) = true)
    (related_text_dicts r).
Proof.
  intros Hrun [i Hr]%list_elem_of_lookup.
  destruct (associate_result_at _ _ _ _ _ _ Hrun Hr)
    as (barcode & _ & _ & _ & found & Hsorted & Hentries & _).
  unfold related_text_dicts. rewrite Hsorted.
  assert (Forall (λ e : nat * Association, is_number (a_score e.2)) found)
    as Hnum.
  { eapply Forall_impl; [exact Hentries|].
    intros e (text_region & score & _ & _ & Hweak & ->).
    by eapply leb_is_number. }
  assert (Forall (λ e : nat * Association, is_number (a_score e.2))
            (Py.sorted_reverse PrimFloat.ltb (λ x, a_score x.2) found))
    as Hnum'.
  { unfold Py.sorted_reverse. by rewrite sorted_perm. }
  assert (StronglySorted
            (λ x y : nat * Association,
               is_number (a_score x.2) ∧ is_number (a_score y.2)
               ∧ PrimFloat.ltb (a_score x.2) (a_score y.2) = false)
            (Py.sorted_reverse PrimFloat.ltb (λ x, a_score x.2) found))
    as Hs.
  { pose proof (sorted_sorted_on (λ a b, PrimFloat.ltb b a)
                  (λ x : nat * Association, a_score x.2) is_number
                  (λ a b, ltb_asym b a)
                  (λ a b c Ha Hb Hc Hab Hbc, ltb_ge_trans a b c Ha Hb Hc Hab Hbc)
                  found Hnum) as Hs.
    fold (Py.sorted_reverse PrimFloat.ltb (λ x : nat * Association,
                                             a_score x.2) found) in Hs.
    revert Hs Hnum'. generalize (Py.sorted_reverse PrimFloat.ltb
                                   (λ x : nat * Association, a_score x.2)
                                   found).
    intros l. induction 1 as [|x l Hl IH Hx]; intros Hall; [constructor|].
    apply Forall_cons in Hall as [Hnx Hall].
    constructor; [by apply IH|].
    rewrite Forall_forall in Hx, Hall |- *. intros y Hy.
    split; [done|]. split; [by apply Hall|]. by apply Hx. }
  eapply StronglySorted_fmap; [|exact Hs].
  intros x y (Hx & Hy & Hxy). by apply ltb_false_leb.
Qed.

(** X12. The sort keeps ties in input order: of two entries of one list,
    the one with the smaller index in [text_regions] stands first unless
    the other one scores strictly higher. *)
Theorem related_text_stable barcodes text_regions results independent_text
    r i a j b :
  associate_text_with_barcodes self barcodes text_regions
  = inr (results, independent_text) →
  r ∈ results →
  (i, a) ∈ related_text r → (j, b) ∈ related_text r → (i < j)%nat →
  PrimFloat.ltb (a_score a) (a_score b) = false →
  [(i, a); (j, b)] `sublist_of` related_text r.
Proof.
  intros Hrun [k Hr]%list_elem_of_lookup Ha Hb Hij Hscore.
  destruct (associate_result_at _ _ _ _ _ _ Hrun Hr)
    as (barcode & _ & _ & _ & found & Hsorted & _ & Hsub).
  rewrite Hsorted in Ha, Hb |- *. rewrite elem_of_sorted_reverse in Ha, Hb.
  apply (sorted_stable_pair (λ x y, PrimFloat.ltb y x)
           (λ x : nat * Association, a_score x.2)); [|done].
  apply (ascending_pair found); [|done|done|done].
  eapply sublist_StronglySorted; [apply StronglySorted_seq|done].
Qed.

Lemma independent_dicts_independent text_regions used :
  independent_dicts (independent text_regions used)
  = independent_entry
    <$> (filter (λ item, item.1 ∉ used) (Py.enumerate text_regions)).*2.
Proof.
  unfold independent_dicts, independent. rewrite <- !list_fmap_compose.
  apply list_fmap_ext. by intros _ [idx text_region] _.
Qed.

Lemma snd_enumerate {A} (l : list A) : (Py.enumerate l).*2 = l.
Proof. unfold Py.enumerate. apply snd_zip. by rewrite length_seq. Qed.

(** X13. Without barcodes the scorer returns no result and every text
    region as an independent fragment, in input order. *)
Theorem associate_no_barcodes text_regions :
  ∃ independent_text,
    associate_text_with_barcodes self [] text_regions
    = inr ([], independent_text)
    ∧ independent_dicts independent_text
      = independent_entry <$> text_regions.
Proof.
  eexists. split; [reflexivity|].
  rewrite independent_dicts_independent, filter_all, snd_enumerate; [done|].
  apply Forall_forall. set_solver.
Qed.

(** X14. Without text regions the scorer never raises, not even on a
    barcode of width zero: it returns one result per barcode with an empty
    list and [has_association] false, and no independent fragment. *)
Theorem associate_no_text_regions barcodes :
  associate_text_with_barcodes self barcodes []
  = inr ((λ barcode, {| r_barcode := barcode; related_text := [];
                        has_association := false |}) <$> barcodes,
         []).
Proof.
  unfold associate_text_with_barcodes.
  assert (∀ results used,
            Py.for_each (barcode_step self []) barcodes (results, used)
            = inr (results
                   ++ ((λ barcode, {| r_barcode := barcode; related_text := [];
                                      has_association := false |})
                       <$> barcodes), used)) as ->; [|done].
  induction barcodes as [|barcode barcodes IH]; intros results used; csimpl.
  - by rewrite app_nil_r.
  - by rewrite IH, <- app_assoc.
Qed.

Lemma text_step_raises barcode st idx text_region e :
  text_step self barcode st (idx, text_region) = inl e →
  e = "float division by zero"
  ∧ PrimFloat.eqb (max_radius self barcode) 0 = true
  ∧ PrimFloat.ltb (max_radius self barcode)
      (_calculate_distance (bc_position barcode) (tr_position text_region))
    = false.
Proof.
  destruct st as [associations used]. unfold text_step.
  case_decide; [done|]. unfold _calculate_association_score.
  destruct (PrimFloat.ltb (max_radius self barcode) _) eqn:Hfar; simpl.
  { by repeat (destruct (PrimFloat.leb _ _); simpl). }
  destruct (PrimFloat.eqb (max_radius self barcode) 0) eqn:Hzero; simpl.
  - by intros [= <-].
  - by repeat (destruct (PrimFloat.leb _ _); simpl).
Qed.

Lemma text_loop_raises barcode items : ∀ st e,
  Py.for_each (text_step self barcode) items st = inl e →
  e = "float division by zero"
  ∧ ∃ idx text_region,
      (idx, text_region) ∈ items
      ∧ PrimFloat.eqb (max_radius self barcode) 0 = true
      ∧ PrimFloat.ltb (max_radius self barcode)
          (_calculate_distance (bc_position barcode)
             (tr_position text_region)) = false.
Proof.
  induction items as [|[idx text_region] items IH]; intros st e Hrun;
    simpl in Hrun; [done|].
  destruct (text_step self barcode st (idx, text_region)) as [e'|st'] eqn:Hstep;
    simpl in Hrun.
  - injection Hrun as ->. apply text_step_raises in Hstep as (-> & ? & ?).
    split; [done|]. exists idx, text_region. split; [left|done].
  - destruct (IH _ _ Hrun) as (-> & idx' & tr' & ? & ?).
    split; [done|]. exists idx', tr'. split; [by right|done].
Qed.


(** X16. The independent fragments come out in input order, each a copy
    of the text and the position of its text region. *)
Theorem independent_in_input_order barcodes text_regions results
    independent_text :
  associate_text_with_barcodes self barcodes text_regions
  = inr (results, independent_text) →
  independent_dicts independent_text
  `sublist_of` (independent_entry <$> text_regions).
Proof.
  unfold associate_text_with_barcodes. intros Hrun.
  destruct (Py.for_each (barcode_step self text_regions) barcodes ([], ∅))
    as [e|[results' used]]; simpl in Hrun; [done|].
  injection Hrun as <- <-. rewrite independent_dicts_independent.
  apply fmap_sublist. rewrite <- (snd_enumerate text_regions) at 2.
  apply fmap_sublist, sublist_filter.
Qed.

End AssocExtras.

Lemma associate_one_result_per_barcode_witness :
  ∃ results independent_text,
    AssociationAnalyzer.associate_text_with_barcodes
      AssociationAnalyzer.defaults label_barcodes label_texts
    = inr (results, independent_text)
    ∧ AssociationAnalyzer.r_barcode <$> results = label_barcodes
    ∧ Forall (λ r, AssociationAnalyzer.has_association r = true
                   ↔ AssociationAnalyzer.related_text r ≠ []) results.
Proof.
  eexists _, _.
  assert (AssociationAnalyzer.associate_text_with_barcodes
            AssociationAnalyzer.defaults label_barcodes label_texts = inr _)
    as Hrun by (vm_compute; reflexivity).
  split; [exact Hrun|].
  exact (associate_one_result_per_barcode _ _ _ _ _ Hrun).
Defined.

Lemma related_text_entry_witness :
  ∃ results independent_text r a barcode text_region,
    AssociationAnalyzer.associate_text_with_barcodes
      AssociationAnalyzer.defaults label_barcodes label_texts
    = inr (results, independent_text)
    ∧ results !! 0%nat = Some r
    ∧ (2%nat, a) ∈ AssociationAnalyzer.related_text r
    ∧ label_barcodes !! 0%nat = Some barcode
    ∧ label_texts !! 2%nat = Some text_region
    ∧ AssociationAnalyzer.a_text a = tr_text text_region
    ∧ AssociationAnalyzer.a_position a = tr_position text_region
    ∧ AssociationAnalyzer.a_confidence a
      = default 1%float (tr_confidence text_region)
    ∧ AssociationAnalyzer._calculate_association_score
        AssociationAnalyzer.defaults barcode text_region
      = inr (AssociationAnalyzer.a_score a)
    ∧ PrimFloat.leb
        (AssociationAnalyzer.weak_threshold AssociationAnalyzer.defaults)
        (AssociationAnalyzer.a_score a) = true
    ∧ AssociationAnalyzer.relation_type a
      = if PrimFloat.leb
             (AssociationAnalyzer.strong_threshold
                AssociationAnalyzer.defaults)
             (AssociationAnalyzer.a_score a)
        then "strong" else "weak".
Proof.
  assert (∃ results independent_text r a,
            AssociationAnalyzer.associate_text_with_barcodes
              AssociationAnalyzer.defaults label_barcodes label_texts
            = inr (results, independent_text)
            ∧ results !! 0%nat = Some r
            ∧ (2%nat, a) ∈ AssociationAnalyzer.related_text r)
    as (results & independent_text & r & a & Hrun & Hr & Hin).
  { eexists _, _, _, _. split; [vm_compute; reflexivity|].
    split; [reflexivity|]. left. }
  destruct (related_text_entry _ _ _ _ _ _ _ _ _ Hrun Hr Hin)
    as (barcode & text_region & Hentry).
  by exists results, independent_text, r, a, barcode, text_region.
Defined.

Lemma related_text_no_duplicates_witness :
  ∃ results independent_text r,
    AssociationAnalyzer.associate_text_with_barcodes
      AssociationAnalyzer.defaults label_barcodes label_texts
    = inr (results, independent_text)
    ∧ r ∈ results
    ∧ NoDup (AssociationAnalyzer.related_text r).*1.
Proof.
  eexists _, _, _.
  assert (AssociationAnalyzer.associate_text_with_barcodes
            AssociationAnalyzer.defaults label_barcodes label_texts = inr _)
    as Hrun by (vm_compute; reflexivity).
  split; [exact Hrun|].
  match goal with
  | |- ?r ∈ ?results ∧ _ => assert (r ∈ results) as Hr by left
  end.
  split; [exact Hr|].
  exact (related_text_no_duplicates _ _ _ _ _ _ Hrun Hr).
Defined.

Lemma related_text_descending_witness :
  ∃ results independent_text r,
    AssociationAnalyzer.associate_text_with_barcodes
      AssociationAnalyzer.defaults label_barcodes label_texts
    = inr (results, independent_text)
    ∧ r ∈ results
    ∧ StronglySorted
        (λ a b, PrimFloat.leb (AssociationAnalyzer.a_score b)
                  (AssociationAnalyzer.a_score a) = true)
        (AssociationAnalyzer.related_text_dicts r).
Proof.
  eexists _, _, _.
  assert (AssociationAnalyzer.associate_text_with_barcodes
            AssociationAnalyzer.defaults label_barcodes label_texts = inr _)
    as Hrun by (vm_compute; reflexivity).
  split; [exact Hrun|].
  match goal with
  | |- ?r ∈ ?results ∧ _ => assert (r ∈ results) as Hr by left
  end.
  split; [exact Hr|].
  exact (related_text_descending _ _ _ _ _ _ Hrun Hr).
Defined.

(** The two fragments on the same spot tie; "LOT", first in the input,
    stands before "QTY". *)
Lemma related_text_stable_witness :
  ∃ results independent_text r a b,
    AssociationAnalyzer.associate_text_with_barcodes
      AssociationAnalyzer.defaults label_barcodes label_texts
    = inr (results, independent_text)
    ∧ r ∈ results
    ∧ AssociationAnalyzer.a_text a = "LOT"
    ∧ AssociationAnalyzer.a_text b = "QTY"
    ∧ [(0%nat, a); (1%nat, b)]
      `sublist_of` AssociationAnalyzer.related_text r.
Proof.
  eexists _, _, _, _, _.
  assert (AssociationAnalyzer.associate_text_with_barcodes
            AssociationAnalyzer.defaults label_barcodes label_texts = inr _)
    as Hrun by (vm_compute; reflexivity).
  split; [exact Hrun|].
  match goal with
  | |- ?r ∈ ?results ∧ _ => assert (r ∈ results) as Hr by left
  end.
  split; [exact Hr|].
  match goal with
  | |- _ ∧ _ ∧ [(_, ?a); (_, ?b)] `sublist_of` ?l =>
      assert ((0%nat, a) ∈ l) as Ha by (right; left);
      assert ((1%nat, b) ∈ l) as Hb by (right; right; left)
  end.
  split; [reflexivity|]. split; [reflexivity|].
  apply (related_text_stable _ _ _ _ _ _ _ _ _ _ Hrun Hr Ha Hb);
    [lia|reflexivity].
Defined.


Lemma independent_in_input_order_witness :
  ∃ results independent_text,
    AssociationAnalyzer.associate_text_with_barcodes
      AssociationAnalyzer.defaults label_barcodes label_texts
    = inr (results, independent_text)
    ∧ AssociationAnalyzer.independent_dicts independent_text
      `sublist_of` (independent_entry <$> label_texts).
Proof.
  eexists _, _.
  assert (AssociationAnalyzer.associate_text_with_barcodes
            AssociationAnalyzer.defaults label_barcodes label_texts = inr _)
    as Hrun by (vm_compute; reflexivity).
  split; [exact Hrun|].
  exact (independent_in_input_order _ _ _ _ _ Hrun).
Defined.

(** ** barcode_detector.py *)

Section DetectorExtras.
Import BarcodeDetector.

Lemma first_seen_app l1 : ∀ seen l2,
  first_seen seen (l1 ++ l2)
  = first_seen seen l1
    ++ first_seen (seen ∪ list_to_set (barcode_data <$> l1)) l2.
Proof.
  induction l1 as [|bc l1 IH]; intros seen l2; csimpl.
  - f_equal. set_solver.
  - case_decide as Hbc.
    + rewrite IH. do 2 f_equal. set_solver.
    + rewrite IH. csimpl. do 3 f_equal. set_solver.
Qed.

(** A stream without a repeated payload, none of them seen before, is
    kept whole. *)
Lemma first_seen_id stream : ∀ seen,
  NoDup (barcode_data <$> stream) →
  (∀ bc, bc ∈ stream → barcode_data bc ∉ seen) →
  first_seen seen stream = stream.
Proof.
  induction stream as [|bc stream IH]; intros seen Hnd Hseen; csimpl; [done|].
  apply NoDup_cons in Hnd as [Hbc Hnd].
  rewrite decide_False by (apply Hseen; left). f_equal. apply IH; [done|].
  intros bc' Hin [Heq%elem_of_singleton|Hs]%elem_of_union.
  - apply Hbc. rewrite <- Heq. by apply list_elem_of_fmap_2.
  - apply (Hseen bc'); [by right|done].
Qed.

Context {Image : Type} (cv2 : Cv2 Image).
Context (pyzbar_decode : Image → Py.py (list Decoded)).
Context (elapsed_ms : Image → nat → Z).


End DetectorExtras.

(** ** processor.py *)

(** The by-value numbering gives the objects the numbers 1, 2, ..., N in
    list order. *)
Lemma add_order_numbers_fresh_orders {A} `{!Numbered A} (objects : list A) :
  get_order <$> OrderSorter.add_order_numbers_fresh objects
  = (λ i, Some (Z.of_nat i)) <$> seq 1 (length objects).
Proof.
  unfold OrderSorter.add_order_numbers_fresh, Py.enumerate.
  generalize 0%nat. induction objects as [|obj objects IH]; intros k;
    csimpl; [done|].
  rewrite get_set_order, IH. do 2 f_equal. lia.
Qed.

Lemma add_order_numbers_fresh_length {A} `{!Numbered A} (objects : list A) :
  length (OrderSorter.add_order_numbers_fresh objects) = length objects.
Proof.
  unfold OrderSorter.add_order_numbers_fresh, Py.enumerate.
  rewrite length_fmap, length_zip_with, length_seq. lia.
Qed.

(** What does not read the order number does not see the numbering. *)
Lemma add_order_numbers_fresh_fmap {A B} `{!Numbered A} (f : A → B)
    (objects : list A) :
  (∀ n obj, f (set_order n obj) = f obj) →
  f <$> OrderSorter.add_order_numbers_fresh objects = f <$> objects.
Proof.
  intros Hf. unfold OrderSorter.add_order_numbers_fresh, Py.enumerate.
  generalize 0%nat. induction objects as [|obj objects IH]; intros k;
    csimpl; [done|].
  by rewrite Hf, IH.
Qed.

Lemma sort_perm {E} `{!Positioned E} (self : OrderSorter.t)
    (objects : list E) (order : string) :
  OrderSorter.sort self objects order ≡ₚ objects.
Proof.
  rewrite sort_dispatch. repeat case_decide;
    first [apply sorted_perm | apply sort_reading_order_perm].
Qed.

Lemma numbered_fresh {A} `{!Numbered A} (f : A → LabelProcessor.MixedObject)
    (objects : list A) :
  (∀ obj, LabelProcessor.mo_order (f obj) = get_order obj) →
  numbered (f <$> OrderSorter.add_order_numbers_fresh objects).
Proof.
  intros Hf. unfold numbered.
  rewrite <- list_fmap_compose, length_fmap, add_order_numbers_fresh_length.
  rewrite <- add_order_numbers_fresh_orders.
  apply list_fmap_ext. intros i obj _. apply Hf.
Qed.

Lemma numbered_fresh_id (objects : list LabelProcessor.MixedObject) :
  numbered (OrderSorter.add_order_numbers_fresh objects).
Proof.
  rewrite <- (list_fmap_id (OrderSorter.add_order_numbers_fresh objects)).
  by apply numbered_fresh.
Qed.

Lemma add_order_numbers_fresh_omap {A B} `{!Numbered A} (f : A → option B)
    (objects : list A) :
  (∀ n obj, f (set_order n obj) = f obj) →
  omap f (OrderSorter.add_order_numbers_fresh objects) = omap f objects.
Proof.
  intros Hf. unfold OrderSorter.add_order_numbers_fresh, Py.enumerate.
  generalize 0%nat. induction objects as [|obj objects IH]; intros k;
    csimpl; [done|].
  by rewrite Hf, IH.
Qed.

Lemma omap_fmap_Some {A B C} (f : B → option C) (g : A → B) (h : A → C)
    (l : list A) :
  (∀ x, f (g x) = Some (h x)) → omap f (g <$> l) = h <$> l.
Proof.
  intros Hf. induction l as [|x l IH]; csimpl; [done|]. by rewrite Hf, IH.
Qed.

Lemma omap_fmap_None {A B C} (f : B → option C) (g : A → B) (l : list A) :
  (∀ x, f (g x) = None) → omap f (g <$> l) = [].
Proof.
  intros Hf. induction l as [|x l IH]; csimpl; [done|]. by rewrite Hf, IH.
Qed.

Lemma associate_barcodes (self : AssociationAnalyzer.t) barcodes text_regions
    results independent_text :
  AssociationAnalyzer.associate_text_with_barcodes self barcodes text_regions
  = inr (results, independent_text) →
  AssociationAnalyzer.r_barcode <$> results = barcodes.
Proof.
  intros Hrun%associate_results.
  induction Hrun as [|barcode r barcodes results (Hb & _) _ IH]; [done|].
  csimpl. by rewrite Hb, IH.
Qed.

Section ProcessorExtras.
Import LabelProcessor.
Context {Image Json : Type}.
Context (preprocess : Image → string → Py.py Image).
Context (cv2 : BarcodeDetector.Cv2 Image).
Context (pyzbar_decode : Image → Py.py (list BarcodeDetector.Decoded)).
Context (decode_ms : Image → nat → Z).
Context (tesseract_available : bool).
Context (recognize_full : Image → Py.py OcrResult).
Context (ai_recognizer : AIRecognizer.t).
Context (ai_recognize : Image → Py.py (AIRecognizer.Reply Json)).
Context (association_analyzer : AssociationAnalyzer.t).
Context (order_sorter : OrderSorter.t).
Context (elapsed_ms : Z).

Local Abbreviation body :=
  (process_body preprocess cv2 pyzbar_decode decode_ms tesseract_available
     recognize_full ai_recognizer ai_recognize association_analyzer
     order_sorter).

Local Ltac body_cases Hrun :=
  unfold process_body, Py.bind, Py.ret, Py.raise, try_except in Hrun;
  repeat match type of Hrun with
         | inl _ = inr _ => discriminate Hrun
         | context [match ?x with _ => _ end] => destruct x eqn:?
         | inr _ = inr _ => injection Hrun as <-
         end.

Lemma process_body_numbered (result result' : Envelope Json) image
    mode recognition_mode sort_order :
  body result image mode recognition_mode sort_order = inr result' →
  numbered (results result) → numbered (results result').
Proof.
  intros Hrun Hres. body_cases Hrun;
    cbn [results set_results set_ai_raw_response set_structured_fields
           set_full_text];
    unfold sort_and_number;
    first [done | apply numbered_fresh_id | by apply numbered_fresh].
Qed.


Lemma process_body_optional_keys (result result' : Envelope Json) image
    mode recognition_mode sort_order :
  body result image mode recognition_mode sort_order = inr result' →
  env_ai_raw_response result = None →
  env_structured_fields result = None →
  env_full_text result = None →
  (is_Some (env_ai_raw_response result') → recognition_mode = "ai")
  ∧ (is_Some (env_structured_fields result') →
       recognition_mode = "ocr_only"
       ∨ recognition_mode = "barcode_and_ocr" ∧ tesseract_available = true
         ∧ mode ≠ "fast")
  ∧ (is_Some (env_full_text result') →
       mode = "full" ∧ is_Some (env_structured_fields result')).
Proof.
  intros Hrun Hai Hfields Htext. body_cases Hrun;
    cbn [env_ai_raw_response env_structured_fields env_full_text
           set_results set_ai_raw_response set_structured_fields
           set_full_text];
    rewrite ?Hai, ?Hfields, ?Htext;
    (split; [|split]); intros Hsome;
    try (by apply is_Some_None in Hsome);
    try done;
    repeat match goal with
           | H : orb _ _ = false |- _ => apply orb_false_elim in H as [? ?]
           | H : negb _ = false |- _ => apply negb_false_iff in H
           | H : bool_decide _ = false |- _ => apply bool_decide_eq_false in H
           end;
    auto.
Qed.






(** X24. In recognition mode "barcode_and_ocr" at depth "balanced" or
    "full" (Tesseract present, the OCR and the scorer returning), the
    results hold one barcode group per detection of the ensemble, whether
    or not a text was associated with it, and one text object per
    independent fragment; they hold nothing else. *)
Theorem barcode_and_ocr_results (image processed_img : Image)
    (mode sort_order ocr_mode : string) (ocr_result : OcrResult)
    associations independent_text :
  preprocess image mode = inr processed_img →
  tesseract_available = true →
  mode = "balanced" ∨ mode = "full" →
  recognize_full image = inr ocr_result →
  AssociationAnalyzer.associate_text_with_barcodes association_analyzer
    (detect cv2 pyzbar_decode decode_ms processed_img)
    (text_regions ocr_result)
  = inr (associations, independent_text) →
  ∃ envelope,
    process_image preprocess cv2 pyzbar_decode decode_ms tesseract_available
      recognize_full ai_recognizer ai_recognize association_analyzer
      order_sorter elapsed_ms image mode "barcode_and_ocr" sort_order ocr_mode
    = inr envelope
    ∧ success envelope = true
    ∧ omap group_payload (results envelope)
      ≡ₚ barcode_data <$> detect cv2 pyzbar_decode decode_ms processed_img
    ∧ omap object_text (results envelope)
      ≡ₚ AssociationAnalyzer.i_text
         <$> AssociationAnalyzer.independent_dicts independent_text
    ∧ length (results envelope)
      = (length (detect cv2 pyzbar_decode decode_ms processed_img)
         + length independent_text)%nat.
Proof.
  intros Hpre -> Hmode Hocr Hassoc.
  pose proof (associate_barcodes _ _ _ _ _ Hassoc) as Hbarcodes.
  assert (∀ full,
            omap group_payload
              (sort_and_number order_sorter
                 (mixed_objects full associations independent_text)
                 sort_order)
            ≡ₚ barcode_data
               <$> detect cv2 pyzbar_decode decode_ms processed_img)
    as Hgroups.
  { intros full. unfold sort_and_number.
    rewrite add_order_numbers_fresh_omap by done.
    rewrite sort_perm. unfold mixed_objects. rewrite omap_app.
    rewrite (omap_fmap_None group_payload _
               (AssociationAnalyzer.independent_dicts independent_text))
      by done.
    rewrite app_nil_r.
    rewrite (omap_fmap_Some group_payload _
               (λ assoc, barcode_data (AssociationAnalyzer.r_barcode assoc))
               associations)
      by (intros assoc; by destruct full).
    by rewrite <- Hbarcodes, <- list_fmap_compose. }
  assert (∀ full,
            omap object_text
              (sort_and_number order_sorter
                 (mixed_objects full associations independent_text)
                 sort_order)
            ≡ₚ AssociationAnalyzer.i_text
               <$> AssociationAnalyzer.independent_dicts independent_text)
    as Htexts.
  { intros full. unfold sort_and_number.
    rewrite add_order_numbers_fresh_omap by done.
    rewrite sort_perm. unfold mixed_objects. rewrite omap_app.
    rewrite (omap_fmap_None object_text _ associations)
      by (intros assoc; by destruct full).
    by rewrite (omap_fmap_Some object_text _ AssociationAnalyzer.i_text). }
  assert (∀ full,
            length (sort_and_number order_sorter
                      (mixed_objects full associations independent_text)
                      sort_order)
            = (length (detect cv2 pyzbar_decode decode_ms processed_img)
               + length independent_text)%nat) as Hlength.
  { intros full. unfold sort_and_number.
    rewrite add_order_numbers_fresh_length, sort_perm.
    unfold mixed_objects, AssociationAnalyzer.independent_dicts.
    by rewrite length_app, !length_fmap, <- Hbarcodes, length_fmap. }
  unfold process_image, process_body. rewrite Hpre. simpl.
  destruct Hmode as [-> | ->]; simpl; rewrite Hocr; simpl;
    rewrite Hassoc; simpl; eexists; (split; [done|]); simpl; auto.
Qed.

(** X25. In recognition mode "ocr_only" (Tesseract present, the OCR
    returning) the OCR reads the image as given, not the preprocessed
    one; the results are its text regions, each one once, a missing
    confidence read as 0; "structured_fields" is set at every depth and
    "full_text" at depth "full" only. *)
Theorem ocr_only_results (image processed_img : Image)
    (mode sort_order ocr_mode : string) (ocr_result : OcrResult) :
  preprocess image mode = inr processed_img →
  tesseract_available = true →
  recognize_full image = inr ocr_result →
  ∃ envelope,
    process_image preprocess cv2 pyzbar_decode decode_ms tesseract_available
      recognize_full ai_recognizer ai_recognize association_analyzer
      order_sorter elapsed_ms image mode "ocr_only" sort_order ocr_mode
    = inr envelope
    ∧ success envelope = true
    ∧ unnumbered <$> results envelope
      ≡ₚ text_object <$> text_regions ocr_result
    ∧ env_structured_fields envelope = Some (structured_fields ocr_result)
    ∧ env_full_text envelope
      = if decide (mode = "full") then Some (full_text ocr_result) else None.
Proof.
  intros Hpre -> Hocr. unfold process_image, process_body.
  rewrite Hpre. simpl. rewrite Hocr. simpl.
  eexists. split; [done|].
  assert (∀ texts : list TextRegion,
            unnumbered
            <$> ((λ text, {| mo_order := tr_order text;
                             mo_type := "text";
                             mo_position := position_dict (tr_position text);
                             mo_data :=
                               text_fields (tr_text text)
                                 (Some (default 0%float
                                          (tr_confidence text))) |})
                 <$> sort_and_number order_sorter texts sort_order)
            ≡ₚ text_object <$> texts) as Hperm.
  { intros texts. unfold sort_and_number. rewrite <- list_fmap_compose.
    rewrite (add_order_numbers_fresh_fmap _ _) by done.
    by rewrite sort_perm. }
  case_decide; simpl; auto.
Qed.


End ProcessorExtras.

(** *** Concrete runs on the toy engine *)





Lemma barcode_and_ocr_results_witness :
  ∃ independent_text envelope,
    LabelProcessor.process_image (Json := unit)
      (λ image _, inr image) BarcodeDetector.toy_cv2
      BarcodeDetector.toy_decode (λ _ _, 0%Z) true (λ _, inr toy_ocr)
      ai_off (λ _, inl "no AI") AssociationAnalyzer.defaults
      OrderSorter.init 12%Z
      0%nat "balanced" "barcode_and_ocr" "top_to_bottom" "local"
    = inr envelope
    ∧ LabelProcessor.success envelope = true
    ∧ omap group_payload (LabelProcessor.results envelope)
      ≡ₚ barcode_data
         <$> LabelProcessor.detect BarcodeDetector.toy_cv2
               BarcodeDetector.toy_decode (λ _ _, 0%Z) 0%nat
    ∧ omap object_text (LabelProcessor.results envelope)
      ≡ₚ AssociationAnalyzer.i_text
         <$> AssociationAnalyzer.independent_dicts independent_text
    ∧ length (LabelProcessor.results envelope)
      = (length (LabelProcessor.detect BarcodeDetector.toy_cv2
                   BarcodeDetector.toy_decode (λ _ _, 0%Z) 0%nat)
         + length independent_text)%nat.
Proof.
  eexists.
  eapply barcode_and_ocr_results with (processed_img := 0%nat);
    [reflexivity|reflexivity|left; reflexivity|reflexivity|].
  vm_compute. reflexivity.
Defined.

Lemma ocr_only_results_witness :
  ∃ envelope,
    LabelProcessor.process_image (Json := unit)
      (λ image _, inr image) BarcodeDetector.toy_cv2
      BarcodeDetector.toy_decode (λ _ _, 0%Z) true (λ _, inr toy_ocr)
      ai_off (λ _, inl "no AI") AssociationAnalyzer.defaults
      OrderSorter.init 12%Z
      0%nat "full" "ocr_only" "left_to_right" "local"
    = inr envelope
    ∧ LabelProcessor.success envelope = true
    ∧ unnumbered <$> LabelProcessor.results envelope
      ≡ₚ text_object <$> LabelProcessor.text_regions toy_ocr
    ∧ LabelProcessor.env_structured_fields envelope
      = Some (LabelProcessor.structured_fields toy_ocr)
    ∧ LabelProcessor.env_full_text envelope
      = if decide ("full" = "full")
        then Some (LabelProcessor.full_text toy_ocr) else None.
Proof.
  apply ocr_only_results with (processed_img := 0%nat); reflexivity.
Defined.


(** ** image_processor.py *)

Section ImageExtras.
Import ImageProcessor.
Context {Image : Type} (cv2 : ImageProcessor.Cv2 Image).
Context (self : ImageProcessor.t).

(** Mode "full" computes what mode "balanced" computes, and the binary
    image on top of it. *)
Lemma preprocess_full_balanced image return_steps result :
  preprocess cv2 self image "full" return_steps = inr result →
  ∃ result' binary_image,
    preprocess cv2 self image "balanced" return_steps = inr result'
    ∧ processed result' = processed result
    ∧ gray result' = gray result
    ∧ binary result' = None ∧ binary result = Some binary_image
    ∧ steps result
      = record_step return_steps (steps result') "binary" binary_image.
Proof.
  unfold preprocess. intros Hrun.
  destruct (resize_if_needed cv2 self image) as [e|resized]; simpl in *;
    [done|].
  destruct (to_grayscale cv2 resized) as [e|gray_image]; simpl in *; [done|].
  destruct (enhance_contrast cv2 gray_image) as [e|enhanced]; simpl in *;
    [done|].
  destruct (denoise cv2 enhanced) as [e|denoised]; simpl in *; [done|].
  destruct (binarize cv2 denoised) as [e|binary_image]; simpl in *; [done|].
  injection Hrun as <-. by eexists _, binary_image.
Qed.

End ImageExtras.

Section ImageProcessorRuns.
Import LabelProcessor.
Context {Image Json : Type}.
Context (image_cv2 : ImageProcessor.Cv2 Image).
Context (image_processor : ImageProcessor.t).
Context (cv2 : BarcodeDetector.Cv2 Image).
Context (pyzbar_decode : Image → Py.py (list BarcodeDetector.Decoded)).
Context (decode_ms : Image → nat → Z).
Context (tesseract_available : bool).
Context (recognize_full : Image → Py.py OcrResult).
Context (ai_recognizer : AIRecognizer.t).
Context (ai_recognize : Image → Py.py (AIRecognizer.Reply Json)).
Context (association_analyzer : AssociationAnalyzer.t).
Context (order_sorter : OrderSorter.t).
Context (elapsed_ms : Z).

(** X27. Depth "full" detects the barcodes that depth "balanced" detects:
    the binarized image of mode "full" is computed and not used, so in
    recognition mode "barcode_only" a run at depth "full" whose
    preprocessing does not fail has the results of the run at depth
    "balanced". *)
Theorem full_depth_barcodes_as_balanced (image : Image)
    (sort_order ocr_mode : string) result :
  ImageProcessor.preprocess image_cv2 image_processor image "full" false
  = inr result →
  ∃ full balanced,
    process_image (preprocessed_image image_cv2 image_processor) cv2
      pyzbar_decode decode_ms tesseract_available recognize_full
      ai_recognizer ai_recognize association_analyzer order_sorter
      elapsed_ms image "full" "barcode_only" sort_order ocr_mode
    = inr full
    ∧ process_image (preprocessed_image image_cv2 image_processor) cv2
        pyzbar_decode decode_ms tesseract_available recognize_full
        ai_recognizer ai_recognize association_analyzer order_sorter
        elapsed_ms image "balanced" "barcode_only" sort_order ocr_mode
      = inr balanced
    ∧ success full = true ∧ success balanced = true
    ∧ results full = results balanced.
Proof.
  intros Hfull.
  destruct (preprocess_full_balanced _ _ _ _ _ Hfull)
    as (result' & binary_image & Hbalanced & Hprocessed & _).
  unfold process_image, process_body, preprocessed_image, Py.map.
  rewrite Hfull, Hbalanced. simpl. rewrite Hprocessed.
  by eexists _, _.
Qed.

End ImageProcessorRuns.

Lemma full_depth_barcodes_as_balanced_witness :
  ∃ full balanced,
    LabelProcessor.process_image (Json := unit)
      (preprocessed_image ImageProcessor.toy_cv2
         {| ImageProcessor.max_size := 2000 |})
      BarcodeDetector.toy_cv2 BarcodeDetector.toy_decode (λ _ _, 0%Z) false
      (λ _, inl "no OCR") ai_off (λ _, inl "no AI")
      AssociationAnalyzer.defaults OrderSorter.init 12%Z
      0%nat "full" "barcode_only" "top_to_bottom" "local"
    = inr full
    ∧ LabelProcessor.process_image (Json := unit)
        (preprocessed_image ImageProcessor.toy_cv2
           {| ImageProcessor.max_size := 2000 |})
        BarcodeDetector.toy_cv2 BarcodeDetector.toy_decode (λ _ _, 0%Z)
        false (λ _, inl "no OCR") ai_off (λ _, inl "no AI")
        AssociationAnalyzer.defaults OrderSorter.init 12%Z
        0%nat "balanced" "barcode_only" "top_to_bottom" "local"
      = inr balanced
    ∧ LabelProcessor.success full = true
    ∧ LabelProcessor.success balanced = true
    ∧ LabelProcessor.results full = LabelProcessor.results balanced.
Proof.
  eapply full_depth_barcodes_as_balanced. reflexivity.
Defined.

(** ** text_recognizer.py *)

#[global] Instance tuple_ltb_strict_weak : StrictWeak tuple_ltb.
Proof.
  split; unfold tuple_ltb.
  - intros [a1 a2]. simpl. lia.
  - intros [a1 a2] [b1 b2] [c1 c2]. simpl. lia.
  - intros [a1 a2] [b1 b2] [c1 c2]. simpl. lia.
Qed.

Section TextExtras.
Import TextRecognizer.
Context {Image : Type} (cv2 : TextRecognizer.Cv2 Image).
Context (image_to_data : Image → Z → Py.py (list Row)).
Context (strip : string → string).
Context (self : TextRecognizer.t).

(** What the loop over the boxes adds to the regions and to the set of
    seen keys. *)
Lemma box_loop min_confidence data : ∀ all_regions seen_texts,
  ∃ kept,
    foldl (box_step strip min_confidence) (all_regions, seen_texts) data
    = (all_regions ++ (region strip <$> kept),
       list_to_set (dedup_key strip <$> kept) ∪ seen_texts)
    ∧ kept `sublist_of` data
    ∧ Forall (accepted strip min_confidence) kept
    ∧ NoDup (dedup_key strip <$> kept)
    ∧ (∀ row, row ∈ kept → dedup_key strip row ∉ seen_texts)
    ∧ (∀ row, row ∈ data → accepted strip min_confidence row →
         dedup_key strip row
         ∈ list_to_set (C := gset (string * Z * Z))
             (dedup_key strip <$> kept) ∪ seen_texts).
Proof.
  induction data as [|row data IH]; intros all_regions seen_texts.
  - exists []. simpl. rewrite app_nil_r, (left_id_L ∅ (∪)).
    repeat split; try done; [constructor|by intros ? ?%elem_of_nil..].
  - simpl.
    destruct (PrimFloat.ltb (row_conf row) min_confidence) eqn:Hconf; simpl.
    { destruct (IH all_regions seen_texts)
        as (kept & -> & Hsub & Hacc & Hnd & Hfresh & Hall).
      exists kept. repeat split; try done; [by apply sublist_cons|].
      intros row' [->|Hin]%elem_of_cons Hrow; [|by apply Hall].
      destruct Hrow as [Hc _]. congruence. }
    case_bool_decide as Htext; simpl.
    { destruct (IH all_regions seen_texts)
        as (kept & -> & Hsub & Hacc & Hnd & Hfresh & Hall).
      exists kept. repeat split; try done; [by apply sublist_cons|].
      intros row' [->|Hin]%elem_of_cons Hrow; [|by apply Hall].
      by destruct Hrow as [_ Ht]. }
    case_decide as Hseen.
    { destruct (IH all_regions seen_texts)
        as (kept & -> & Hsub & Hacc & Hnd & Hfresh & Hall).
      exists kept. repeat split; try done; [by apply sublist_cons|].
      intros row' [->|Hin]%elem_of_cons Hrow; [|by apply Hall].
      by apply elem_of_union_r. }
    destruct (IH (all_regions ++ [region strip row])
                ({[dedup_key strip row]} ∪ seen_texts))
      as (kept & -> & Hsub & Hacc & Hnd & Hfresh & Hall).
    exists (row :: kept). csimpl. rewrite <- app_assoc. split.
    { simpl. f_equal. clear. set_solver. }
    split; [by apply sublist_skip|]. split; [by constructor|]. split.
    { constructor; [|done]. intros (row' & Heq & Hin)%list_elem_of_fmap.
      apply (Hfresh row' Hin). rewrite <- Heq.
      apply elem_of_union_l, elem_of_singleton. done. }
    split.
    { intros row' [->|Hin]%elem_of_cons; [done|].
      specialize (Hfresh row' Hin). intros Hs. apply Hfresh.
      by apply elem_of_union_r. }
    intros row' [->|Hin]%elem_of_cons Hrow.
    { apply elem_of_union_l, elem_of_union_l, elem_of_singleton. done. }
    specialize (Hall row' Hin Hrow).
    apply elem_of_union in Hall as [Hk|[Hk|Hk]%elem_of_union].
    + by apply elem_of_union_l, elem_of_union_r.
    + by apply elem_of_union_l, elem_of_union_l.
    + by apply elem_of_union_r.
Qed.

(** X28. The text regions come out sorted by the top-left corner of
    their boxes, top to bottom and, at equal height, left to right. *)
Theorem extract_text_regions_sorted (image : Image) (min_confidence : float)
    regions :
  extract_text_regions cv2 image_to_data strip self image min_confidence
  = inr regions →
  StronglySorted
    (λ a b, (pos_y (tr_position a) < pos_y (tr_position b))%Z
            ∨ (pos_y (tr_position a) = pos_y (tr_position b)
               ∧ (pos_x (tr_position a) ≤ pos_x (tr_position b))%Z))
    regions.
Proof.
  unfold extract_text_regions. intros Hrun.
  destruct (preprocess_for_ocr cv2 image) as [e|[|best_img rest]];
    simpl in Hrun; [done..|].
  destruct (foldl _ _ _) as [all_regions seen_texts].
  injection Hrun as <-.
  eapply StronglySorted_weaken; [|apply sorted_sorted, _].
  intros a b. unfold key_le, tuple_ltb. simpl. lia.
Qed.


End TextExtras.

(** Four boxes: "QTY"; "LOT" twice in one cell, the second box dropped;
    "dim" below the confidence threshold. *)
Lemma extract_text_regions_sorted_witness :
  ∃ regions,
    TextRecognizer.extract_text_regions TextRecognizer.toy_cv2
      TextRecognizer.toy_image_to_data (λ text, text)
      {| TextRecognizer.tesseract_available := true |} 0%nat 40%float
    = inr regions
    ∧ tr_text <$> regions = ["LOT"; "QTY"]
    ∧ StronglySorted
        (λ a b, (pos_y (tr_position a) < pos_y (tr_position b))%Z
                ∨ (pos_y (tr_position a) = pos_y (tr_position b)
                   ∧ (pos_x (tr_position a) ≤ pos_x (tr_position b))%Z))
        regions.
Proof.
  eexists.
  assert (TextRecognizer.extract_text_regions TextRecognizer.toy_cv2
            TextRecognizer.toy_image_to_data (λ text, text)
            {| TextRecognizer.tesseract_available := true |} 0%nat 40%float
          = inr _) as Hrun by (vm_compute; reflexivity).
  split; [exact Hrun|]. split; [reflexivity|].
  exact (extract_text_regions_sorted _ _ _ _ _ _ _ Hrun).
Defined.


(** ** ai_recognizer.py *)

Section OrderedSelection.
Context {A K : Type} (lt : K → K → bool) (key : A → K).
Context (P : A → Prop) `{!∀ x, Decision (P x)}.

Lemma filter_insort_other x l :
  ¬ P x → filter P (Py.insort lt key x l) = filter P l.
Proof.
  intros Hx. induction l as [|y l IH]; simpl.
  - by rewrite filter_cons_False.
  - destruct (lt (key y) (key x)).
    + rewrite !(filter_cons _ y), IH. done.
    + by rewrite (filter_cons_False _ x).
Qed.

Lemma filter_insort_first x l :
  P x → (∀ y, y ∈ l → P y → lt (key y) (key x) = false) →
  filter P (Py.insort lt key x l) = x :: filter P l.
Proof.
  intros Hx Hl. induction l as [|y l IH]; simpl.
  - by rewrite filter_cons_True.
  - destruct (lt (key y) (key x)) eqn:Hyx.
    + assert (¬ P y) as Hy.
      { intros Hy. rewrite (Hl y) in Hyx; [done|left|done]. }
      rewrite !(filter_cons_False _ y) by done. apply IH.
      intros z Hz. apply Hl. by right.
    + by rewrite (filter_cons_True _ x).
Qed.

(** Selected objects that stand in key order in the input stand in the
    same order in the sorted list, whatever lies between them. *)
Lemma filter_sorted_ordered l :
  StronglySorted (key_le lt key) (filter P l) →
  filter P (Py.sorted lt key l) = filter P l.
Proof.
  induction l as [|x l IH]; simpl; [done|]. rewrite filter_cons.
  destruct (decide (P x)) as [Hx|Hx]; intros Hs.
  - apply StronglySorted_inv in Hs as [Hs Hall].
    rewrite filter_insort_first, IH; [done..|].
    intros y Hy HPy. rewrite Forall_forall in Hall. apply Hall.
    apply list_elem_of_filter. split; [done|].
    by rewrite sorted_perm in Hy.
  - by rewrite filter_insort_other, IH.
Qed.

End OrderedSelection.

Lemma omap_filter_is_Some {A B} (f : A → option B) (l : list A) :
  omap f (filter (λ x, is_Some (f x)) l) = omap f l.
Proof.
  induction l as [|x l IH]; [done|]. rewrite filter_cons. csimpl.
  destruct (f x) as [y|] eqn:Hx.
  - rewrite decide_True by (by eexists). csimpl. by rewrite Hx, IH.
  - rewrite decide_False by (by intros [? ?]). done.
Qed.

(** A list computed from ascending indices, with keys that do not fall
    as the index grows, is in key order. *)
Lemma enumerate_key_order {A B} (g : nat * A → B) (key : B → Q)
    (h : nat → Q) (l : list A) :
  (∀ idx x, x ∈ l → key (g (idx, x)) = h idx) →
  (∀ i j, (i ≤ j)%nat → (h i <= h j)%Q) →
  StronglySorted (key_le Py.Qltb key) (g <$> Py.enumerate l).
Proof.
  intros Hkey Hmono. unfold Py.enumerate. generalize 0%nat.
  induction l as [|x l IH]; intros k; csimpl; [constructor|].
  constructor.
  - apply IH. intros idx y Hy. apply Hkey. by right.
  - apply Forall_forall. intros b (item & -> & Hin)%list_elem_of_fmap.
    destruct item as [idx y].
    apply elem_of_zip_with in Hin as (idx' & y' & [= <- <-] & Hidx & Hy).
    apply elem_of_seq in Hidx. unfold key_le.
    rewrite !Hkey by (first [left|by right]).
    apply Qltb_ge, Hmono. lia.
Qed.

Section AIReplyOrder.
Import LabelProcessor.
Context {Image Json : Type}.
Context (preprocess : Image → string → Py.py Image).
Context (cv2 : BarcodeDetector.Cv2 Image).
Context (pyzbar_decode : Image → Py.py (list BarcodeDetector.Decoded)).
Context (decode_ms : Image → nat → Z).
Context (tesseract_available : bool).
Context (recognize_full : Image → Py.py OcrResult).
Context (ai_recognizer : AIRecognizer.t).
Context (ai_recognize :
           Image → Py.py (AIRecognizer.Reply (AIReply.Parsed Json))).
Context (association_analyzer : AssociationAnalyzer.t).
Context (order_sorter : OrderSorter.t).
Context (elapsed_ms : Z).

(** The barcode object [process_image] makes of a formatted barcode. *)
Local Abbreviation barcode_of := (λ bc : AIRecognizer.Barcode,
  {| mo_order := None; mo_type := "barcode";
     mo_position := AIRecognizer.ai_barcode_position bc;
     mo_data := barcode_fields (AIRecognizer.ai_barcode_data bc)
                  (AIRecognizer.ai_barcode_type bc) |}).

Lemma default_barcode_y_center idx bc :
  AIReply.raw_position bc = None →
  OrderSorter._get_y_center (barcode_of (AIReply.format_barcode (idx, bc)))
  = (inject_Z (Z.of_nat idx * 100) + inject_Z 50 / 2)%Q.
Proof.
  intros Hpos. unfold OrderSorter._get_y_center, get_position,
    MixedObject_positioned, AIReply.format_barcode. simpl.
  rewrite Hpos. simpl. unfold AIReply.default_barcode_position. simpl.
  by repeat first [rewrite lookup_insert_eq
                  |rewrite lookup_insert_ne by done].
Qed.

Lemma default_barcode_x_center idx bc :
  AIReply.raw_position bc = None →
  OrderSorter._get_x_center (barcode_of (AIReply.format_barcode (idx, bc)))
  = (inject_Z 0 + inject_Z 100 / 2)%Q.
Proof.
  intros Hpos. unfold OrderSorter._get_x_center, get_position,
    MixedObject_positioned, AIReply.format_barcode. simpl.
  rewrite Hpos. simpl. unfold AIReply.default_barcode_position. simpl.
  by repeat first [rewrite lookup_insert_eq
                  |rewrite lookup_insert_ne by done].
Qed.


End AIReplyOrder.

